(** * curve-operator: chunkserver provisioning and the k8sutil job helpers

    A shallow embedding of [pkg/k8sutil/job.go] (RunReplaceableJob,
    DeleteBatchJob, CheckJobStatus), of the chunkserver package's
    [Cluster.Start] and of its provisioning file (startProvisioningOverNodes,
    createFormatConfigMap, runPrepareJob, makeJob, makeFormatContainer,
    getPodLabels), followed by the properties proved about them.

    The Go code talks to the Kubernetes API server through
    [kubernetes.Interface]; here that interface is a type class over an
    arbitrary store state, every request is recorded in the world's call
    list, and every logger call in its log.  The two package-level slices of
    the chunkserver package are fields of the world as well. *)

From Stdlib Require Import ZArith Lia Ascii.
From stdpp Require Import base strings gmap list pretty.

Local Open Scope string_scope.
Local Open Scope Z_scope.

(** ** Go primitives *)

Module Go.

(** Two's-complement wrap-around of a [bits]-wide signed integer. *)
Definition wrap (bits : Z) (x : Z) : Z :=
  (x + 2 ^ (bits - 1)) mod 2 ^ bits - 2 ^ (bits - 1).

(** [int] is 64 bits wide on the platforms the operator is built for. *)
Definition int_add (x y : Z) : Z := wrap 64 (x + y).

(** [x++] on an [int]. *)
Definition incr (x : Z) : Z := int_add x 1.

(** strconv.Itoa *)
Definition Itoa (i : Z) : string := pretty i.

(** [m[k]] on a [map[string]string]: the zero value when the key is absent. *)
Definition index (m : gmap string string) (k : string) : string :=
  default "" (m !! k).

(** The verb [%q] on a name without characters to escape: the name
    between double quotes. *)
Definition Quote (s : string) : string :=
  String (ascii_of_N 34) (s +:+ String (ascii_of_N 34) EmptyString).

(** strings.Split(s, sep) for a one-byte separator, the only way the
    sources call it ([sep] is always "/"). *)
Fixpoint Split (s : string) (sep : ascii) : list string :=
  match s with
  | EmptyString => [EmptyString]
  | String c s' =>
      if decide (c = sep) then EmptyString :: Split s' sep
      else match Split s' sep with
           | h :: t => String c h :: t
           | [] => [String c EmptyString]
           end
  end.

Fixpoint drop_while {A} (f : A → bool) (l : list A) : list A :=
  match l with
  | [] => []
  | x :: l' => if f x then drop_while f l' else l
  end.

(** strings.TrimRight(s, cutset) for a cutset of one-byte characters. *)
Definition TrimRight (s : string) (cutset : list ascii) : string :=
  String.rev
    (String.string_of_list_ascii
       (drop_while (λ c, bool_decide (c ∈ cutset))
          (String.list_ascii_of_string (String.rev s)))).

(** The UTF-8 encodings of the code points of unicode.IsSpace:
    U+0009..U+000D, U+0020, U+0085, U+00A0, U+1680, U+2000..U+200A,
    U+2028, U+2029, U+202F, U+205F, U+3000. *)
Definition space_encodings : list (list N) :=
  [ [9]; [10]; [11]; [12]; [13]; [32];
    [194; 133]; [194; 160];
    [225; 154; 128];
    [226; 128; 128]; [226; 128; 129]; [226; 128; 130]; [226; 128; 131];
    [226; 128; 132]; [226; 128; 133]; [226; 128; 134]; [226; 128; 135];
    [226; 128; 136]; [226; 128; 137]; [226; 128; 138];
    [226; 128; 168]; [226; 128; 169]; [226; 128; 175];
    [226; 129; 159];
    [227; 128; 128] ]%N.

Definition spaces : list (list ascii) :=
  map (map ascii_of_N) space_encodings.

Fixpoint has_prefix (p s : list ascii) : bool :=
  match p, s with
  | [], _ => true
  | a :: p', b :: s' => bool_decide (a = b) && has_prefix p' s'
  | _ :: _, [] => false
  end.

(** Drops white-space runes from the front; [fuel] bounds the number of
    runes dropped and [length s] always suffices. *)
Fixpoint trim_front (ws : list (list ascii)) (fuel : nat) (s : list ascii)
  : list ascii :=
  match fuel with
  | O => s
  | S fuel' =>
      match List.find (λ w, has_prefix w s) ws with
      | Some w => trim_front ws fuel' (drop (length w) s)
      | None => s
      end
  end.

(** strings.TrimSpace: leading and trailing white space (as unicode.IsSpace
    reads the UTF-8 bytes) removed. *)
Definition TrimSpace (s : string) : string :=
  let l := String.list_ascii_of_string s in
  let l1 := trim_front spaces (length l) l in
  let r := trim_front (map (@rev ascii) spaces) (length l1) (rev l1) in
  String.string_of_list_ascii (rev r).

End Go.

(** ** The Kubernetes API objects the code reads and writes *)

Module K8s.

(** metav1.StatusReason, as far as the code tells reasons apart. *)
Inductive StatusReason :=
| StatusReasonNotFound
| StatusReasonAlreadyExists
| StatusReasonUnknown.

(** Go [error] values: API status errors, errors.New / fmt.Errorf text,
    and github.com/pkg/errors wrapping. *)
Inductive error :=
| StatusError (reason : StatusReason) (message : string)
| errorString (s : string)
| withMessage (cause : error) (msg : string).

(** err.Error() *)
Fixpoint Error (e : error) : string :=
  match e with
  | StatusError _ m => m
  | errorString s => s
  | withMessage c m => m +:+ ": " +:+ Error c
  end.

(** errors.IsNotFound / errors.IsAlreadyExists of apimachinery: the reason
    of an API status error, no unwrapping. *)
Definition IsNotFound (e : error) : bool :=
  match e with StatusError StatusReasonNotFound _ => true | _ => false end.

Definition IsAlreadyExists (e : error) : bool :=
  match e with StatusError StatusReasonAlreadyExists _ => true | _ => false end.

(** errors.New, errors.Wrap(f) of github.com/pkg/errors. *)
Definition New (msg : string) : error := errorString msg.
Definition Wrap (e : error) (msg : string) : error := withMessage e msg.

Record OwnerReference := {
  OwnerReference_Kind : string;
  OwnerReference_Name : string;
  OwnerReference_Controller : bool;
}.

Record ObjectMeta := {
  Name : string;
  Namespace : string;
  Labels : gmap string string;
  OwnerReferences : list OwnerReference;
}.

Record VolumeMount := { VolumeMount_Name : string; MountPath : string }.
Record Volume := { Volume_Name : string; Volume_Source : string }.

Record SecurityContext := {
  Privileged : option bool;
  RunAsUser : option Z;
  RunAsNonRoot : option bool;
  ReadOnlyRootFilesystem : option bool;
}.

Record Container := {
  Container_Name : string;
  Args : list string;
  Command : list string;
  Image : string;
  ImagePullPolicy : string;
  VolumeMounts : list VolumeMount;
  Container_SecurityContext : option SecurityContext;
}.

Inductive RestartPolicy := RestartPolicyAlways | RestartPolicyOnFailure | RestartPolicyNever.
Inductive DNSPolicy := DNSClusterFirstWithHostNet | DNSClusterFirst | DNSDefault | DNSNone.

Record PodSpec := {
  Containers : list Container;
  NodeName : string;
  PodSpec_RestartPolicy : RestartPolicy;
  HostNetwork : bool;
  PodSpec_DNSPolicy : DNSPolicy;
  Volumes : list Volume;
  PodSpec_SecurityContext : option SecurityContext;
}.

Record PodTemplateSpec := {
  Template_ObjectMeta : ObjectMeta;
  Template_Spec : PodSpec;
}.

(** batch/v1 JobStatus: the three int32 counters. *)
Record JobStatus := { Active : Z; Succeeded : Z; Failed : Z }.

Record Job := {
  Job_ObjectMeta : ObjectMeta;
  Job_Template : PodTemplateSpec;
  Job_Status : JobStatus;
}.

Record ConfigMap := {
  ConfigMap_ObjectMeta : ObjectMeta;
  Data : gmap string string;
}.

Record Node := { Node_Name : string }.

Inductive DeletionPropagation :=
| DeletePropagationOrphan
| DeletePropagationBackground
| DeletePropagationForeground.

Record DeleteOptions := {
  GracePeriodSeconds : option Z;
  PropagationPolicy : option DeletionPropagation;
}.

Definition Job_Name (j : Job) : string := Name (Job_ObjectMeta j).
Definition Job_Namespace (j : Job) : string := Namespace (Job_ObjectMeta j).

End K8s.

Import K8s.

(** ** Requests, log lines and the world *)

(** Everything the code asks of its environment. *)
Inductive Call :=
| Jobs_Get_call (namespace name : string)
| Jobs_Create_call (namespace : string) (job : Job)
| Jobs_Delete_call (namespace name : string) (options : DeleteOptions)
| ConfigMaps_Get_call (namespace name : string)
| ConfigMaps_Create_call (namespace : string) (cm : ConfigMap)
| Sleep_call (nanoseconds : Z)
| ChanSend_call (value : bool)
| Helper_call (name : string).

Inductive Level := Info | Warning | Error_level.

Inductive LogArg :=
| ArgS (s : string)
| ArgZ (z : Z)
| ArgErr (e : error)
| ArgStatus (s : JobStatus).

(** One capnslog call: level, format string, operands. *)
Record LogEntry := {
  log_level : Level;
  log_format : string;
  log_args : list LogArg;
}.

(** ** The cluster specification (api/v1) and the chunkserver records

    The package api/v1 and the file of the chunkserver package that
    declares [chunkserverConfig] are not among the sources read here; the
    records below hold the fields that the two files read or set, with the
    types the uses give them. *)

Module curvev1.

Record DevicesSpec := { Name : string; Percentage : Z }.

(** Only the length of the selected-node list is read by the code below. *)
Record SelectedNodesList := {
  Node : string;
  SelectedNode_Devices : list DevicesSpec;
}.

Record StorageScopeSpec := {
  UseSelectedNodes : bool;
  Nodes : list string;
  SelectedNodes : list SelectedNodesList;
  Devices : list DevicesSpec;
  Port : Z;
}.

Record MdsSpec := { DummyPort : Z }.

Record SnapShotCloneSpec := {
  Enable : bool;
  SnapShotClone_Port : Z;
  SnapShotClone_DummyPort : Z;
}.

Record CurveVersionSpec := { Image : string; ImagePullPolicy : string }.

Record CurveClusterSpec := {
  Storage : StorageScopeSpec;
  Mds : MdsSpec;
  SnapShotClone : SnapShotCloneSpec;
  CurveVersion : CurveVersionSpec;
}.

End curvev1.

Module records.

(** A Go pointer to a [curvev1.DevicesSpec] variable: an index into the
    world's variable store. *)
Definition ptr := nat.

(** [Job2DeviceInfo]: the TaskRecord.  [device] is a pointer, as in the
    source ([&device]); [job] points to an object nothing mutates after the
    record is built, so it is kept by value. *)
Record Job2DeviceInfo := {
  job : Job;
  device : ptr;
  nodeName : string;
}.

Record chunkserverDataPathMap := {
  HostDevice : string;
  HostLogDir : string;
  ContainerDataDir : string;
  ContainerLogDir : string;
}.

(** [chunkserverConfig]: the DeviceConfigRecord, with the fields the
    planner fills in. *)
Record chunkserverConfig := {
  Prefix : string;
  Port : Z;
  ClusterMdsAddr : string;
  ClusterMdsDummyPort : string;
  ClusterEtcdAddr : string;
  ClusterSnapshotcloneAddr : string;
  ClusterSnapshotcloneDummyPort : string;
  ResourceName : string;
  CurrentConfigMapName : string;
  DataPathMap : chunkserverDataPathMap;
  NodeName : string;
  NodeIP : string;
  DeviceName : string;
  HostSequence : Z;
  ReplicasSequence : Z;
  Replicas : Z;
}.

End records.

Import records.

(** ** The world, and the monad the code runs in *)

(** The state a call runs against: the API server's state [store] (of any
    type [S]), the requests issued so far, the log, the chunkserver
    package's two global slices, and the variables pointers point to. *)
Record World (S : Type) := mkWorld {
  store : S;
  calls : list Call;
  logs : list LogEntry;
  job2DeviceInfos : list Job2DeviceInfo;
  chunkserverConfigs : list chunkserverConfig;
  vars : list curvev1.DevicesSpec;
}.
Arguments mkWorld {S}.
Arguments store {S}.
Arguments calls {S}.
Arguments logs {S}.
Arguments job2DeviceInfos {S}.
Arguments chunkserverConfigs {S}.
Arguments vars {S}.

(** How a call ends: it returns a value, it panics (a nil dereference), or
    its goroutine stays parked on a channel operation. *)
Inductive outcome (A : Type) :=
| Ok (a : A)
| Panic (msg : string)
| Blocked.
Arguments Ok {A}.
Arguments Panic {A}.
Arguments Blocked {A}.

Definition M (S A : Type) : Type := World S → outcome A * World S.

Global Instance M_ret {S} : MRet (M S) := λ A a w, (Ok a, w).

Global Instance M_bind {S} : MBind (M S) := λ A B f m w,
  match m w with
  | (Ok a, w') => f a w'
  | (Panic msg, w') => (Panic msg, w')
  | (Blocked, w') => (Blocked, w')
  end.

Definition panic {S A} (msg : string) : M S A := λ w, (Panic msg, w).
Definition park {S A} : M S A := λ w, (Blocked, w).

(** A Go function result [(T, error)] is a sum; an [error] result alone is
    an [option error] with [None] for nil. *)
Definition result (T : Type) : Type := T + error.

(** [kubernetes.Interface], as far as the code uses it, over a store of
    type [S].  Every method may change the store: other clients and the
    controllers of the cluster act between two requests, and during a
    sleep. *)
Class Clientset (S : Type) := {
  Jobs_Get : string → string → S → result Job * S;
  Jobs_Create : string → Job → S → result Job * S;
  Jobs_Delete : string → string → DeleteOptions → S → option error * S;
  ConfigMaps_Get : string → string → S → result ConfigMap * S;
  ConfigMaps_Create : string → ConfigMap → S → result ConfigMap * S;
  time_passes : Z → S → S;
}.

Section Actions.
Context {S : Type} `{!Clientset S}.

(** Issues a request: the store answers and moves on, the request is
    appended to the call list. *)
Definition request {A} (c : Call) (op : S → A * S) : M S A := λ w,
  let '(a, s') := op (store w) in
  (Ok a, mkWorld s' (calls w ++ [c]) (logs w) (job2DeviceInfos w)
           (chunkserverConfigs w) (vars w)).

Definition logger (lvl : Level) (format : string) (args : list LogArg) : M S () := λ w,
  (Ok (), mkWorld (store w) (calls w) (logs w ++ [Build_LogEntry lvl format args])
            (job2DeviceInfos w) (chunkserverConfigs w) (vars w)).

Definition Jobs_Get_ (namespace name : string) : M S (result Job) :=
  request (Jobs_Get_call namespace name) (Jobs_Get namespace name).

Definition Jobs_Create_ (namespace : string) (j : Job) : M S (result Job) :=
  request (Jobs_Create_call namespace j) (Jobs_Create namespace j).

Definition Jobs_Delete_ (namespace name : string) (options : DeleteOptions)
  : M S (option error) :=
  request (Jobs_Delete_call namespace name options)
    (Jobs_Delete namespace name options).

Definition ConfigMaps_Get_ (namespace name : string) : M S (result ConfigMap) :=
  request (ConfigMaps_Get_call namespace name) (ConfigMaps_Get namespace name).

Definition ConfigMaps_Create_ (namespace : string) (cm : ConfigMap)
  : M S (result ConfigMap) :=
  request (ConfigMaps_Create_call namespace cm) (ConfigMaps_Create namespace cm).

(** time.Sleep(d), [d] in nanoseconds. *)
Definition time_Sleep (d : Z) : M S () :=
  request (Sleep_call d) (λ s, ((), time_passes d s)).

(** [chn <- v].  The channel the orchestrator hands over has room for the
    one value the watcher sends, so the send is recorded and does not park. *)
Definition chan_send (v : bool) : M S () :=
  request (ChanSend_call v) (λ s, ((), s)).

End Actions.

Definition Second : Z := 1000000000.

(** ** pkg/k8sutil/job.go *)

Module k8sutil.
Section k8sutil.
Context {S : Type} `{!Clientset S}.

(** fmt.Errorf("failed to remove previous provisioning job for node %s. %+v", name, err) *)
Definition Errorf_remove_previous (name : string) (err : error) : error :=
  errorString ("failed to remove previous provisioning job for node " +:+ name
               +:+ ". " +:+ Error err).

(** fmt.Errorf("failed to remove job %s. %+v", job.Name, err) *)
Definition Errorf_remove_job (name : string) (err : error) : error :=
  errorString ("failed to remove job " +:+ name +:+ ". " +:+ Error err).

(** The loop of DeleteBatchJob, [for i := 0; i < retries; i++], by the
    number of iterations left. *)
Fixpoint DeleteBatchJob_poll (left : nat) (sleepInterval : Z)
    (namespace name : string) : M S (option error) :=
  match left with
  | O =>
      logger Warning "gave up waiting for batch job %s to be deleted" [ArgS name];;
      mret None
  | Datatypes.S left' =>
      r ← Jobs_Get_ namespace name;
      match r with
      | inr err =>
          if IsNotFound err then
            logger Info "batch job %s deleted" [ArgS name];;
            mret None
          else
            logger Info "batch job %s still exists" [ArgS name];;
            time_Sleep sleepInterval;;
            DeleteBatchJob_poll left' sleepInterval namespace name
      | inl _ =>
          logger Info "batch job %s still exists" [ArgS name];;
          time_Sleep sleepInterval;;
          DeleteBatchJob_poll left' sleepInterval namespace name
      end
  end.

(** DeleteBatchJob deletes a Kubernetes job. *)
Definition DeleteBatchJob (namespace name : string) (wait : bool)
  : M S (option error) :=
  let propagation := DeletePropagationForeground in
  let gracePeriod := 0 in
  let options := {| GracePeriodSeconds := Some gracePeriod;
                    PropagationPolicy := Some propagation |} in
  e ← Jobs_Delete_ namespace name options;
  match e with
  | Some err =>
      if IsNotFound err then mret None
      else mret (Some (Errorf_remove_previous name err))
  | None =>
      if negb wait then mret None
      else
        let retries := 30%nat in
        let sleepInterval := 3 * Second in
        DeleteBatchJob_poll retries sleepInterval namespace name
  end.

(** RunReplaceableJob runs a Kubernetes job that a later call with the same
    job name may replace. *)
Definition RunReplaceableJob (job : Job) (deleteIfFound : bool)
  : M S (option error) :=
  let create : M S (option error) :=
    r ← Jobs_Create_ (Job_Namespace job) job;
    mret (match r with inl _ => None | inr err => Some err end) in
  r ← Jobs_Get_ (Job_Namespace job) (Job_Name job);
  match r with
  | inr err =>
      if negb (IsNotFound err) then
        logger Warning "failed to detect job %s. %+v" [ArgS (Job_Name job); ArgErr err];;
        create
      else create
  | inl existingJob =>
      if (0 <? Active (Job_Status existingJob)) && negb deleteIfFound then
        logger Info "Found previous job %s. Status=%+v"
          [ArgS (Job_Name job); ArgStatus (Job_Status existingJob)];;
        mret None
      else
        logger Info "Removing previous job %s to start a new one" [ArgS (Job_Name job)];;
        e ← DeleteBatchJob (Job_Namespace job) (Job_Name existingJob) true;
        match e with
        | Some err => mret (Some (Errorf_remove_job (Job_Name job) err))
        | None => create
        end
  end.

(** The channel a [select] of CheckJobStatus finds ready. *)
Inductive SelectCase := ticker_C | ctx_Done.

(** CheckJobStatus, the goroutine that watches one job.  [ready] lists, in
    order, the case each [select] takes; when the list is used up no channel
    is ready any more and the goroutine stays parked in [select]. *)
Fixpoint CheckJobStatus (ready : list SelectCase) (namespace jobName : string)
  : M S () :=
  match ready with
  | [] => park
  | ticker_C :: ready' =>
      logger Info "time is up" [];;
      r ← Jobs_Get_ namespace jobName;
      match r with
      | inr err =>
          logger Error_level "failed to get job %s in cluster" [ArgS jobName];;
          chan_send false
      | inl job =>
          if 0 <? Succeeded (Job_Status job) then
            logger Info "job %s has successd" [ArgS (Job_Name job)];;
            chan_send true
          else
            logger Info "job %s is running" [ArgS (Job_Name job)];;
            CheckJobStatus ready' namespace jobName
      end
  | ctx_Done :: _ =>
      chan_send false;;
      logger Error_level "go routinue exit because check time is more than 5 mins" []
  end.

End k8sutil.
End k8sutil.

(** ** The chunkserver package: chunkserver.go (Start) and the provisioning file *)

Module chunkserver.

Definition PrepareJobName : string := "prepare-chunkfile".
Definition DEFAULT_CHUNKFILE_SIZE : Z := 16 * 1024 * 1024.
Definition formatConfigMapName : string := "format-chunkfile-conf".
Definition formatScriptFileDataKey : string := "format.sh".
Definition formatScriptMountPath : string := "/curvebs/tools/sbin/format.sh".

Definition AppName : string := "curve-chunkserver".
Definition ConfigMapNamePrefix : string := "curve-chunkserver-conf".
Definition Prefix : string := "/curvebs/chunkserver".
Definition ChunkserverContainerDataDir : string := "/curvebs/chunkserver/data".
Definition ChunkserverContainerLogDir : string := "/curvebs/chunkserver/logs".

Record NamespacedName := { Namespace : string; Name : string }.

(** k8sutil.OwnerInfo, whose source is not part of the development: the
    owner reference it attaches and the namespace of the owner. *)
Record OwnerInfo := {
  ownerRef : OwnerReference;
  ownerRefNamespace : string;
}.

(** [Cluster]; its [context] field (the clientset) is the world's store. *)
Record Cluster := {
  namespacedName : NamespacedName;
  spec : curvev1.CurveClusterSpec;
  dataDirHostPath : string;
  logDirHostPath : string;
  confDirHostPath : string;
  ownerInfo : OwnerInfo;
}.

(** What the two files use and do not define: the constants of pkg/config
    and pkg/chunkserver/script, the node helpers and the condition update
    of k8sutil, OwnerInfo.SetControllerReference (reduced to the owner
    references it leaves on the object, or its error), and the methods of
    [Cluster] declared in other files.  [checkJobStatus] stands for the
    goroutine started by Start together with the receive [<-chn] that
    follows it: the value received, or a parked outcome. *)
Class Collaborators (S : Type) := {
  config_EtcdOverrideConfigMapName : string;
  config_ClusterEtcdAddr : string;
  config_MdsOverrideConfigMapName : string;
  config_MdsOvverideConfigMapDataKey : string;
  script_FORMAT : string;
  GetNodeHostNames : S → result (gmap string string) * S;
  GetValidNodes : list string → S → (list K8s.Node * option error) * S;
  UpdateCondition : NamespacedName → string → string → string → string → S → S;
  SetControllerReference : OwnerInfo → ObjectMeta → result (list OwnerReference);
  createFormatVolumeAndMount :
    Cluster → curvev1.DevicesSpec → list Volume * list VolumeMount;
  checkJobStatus : Cluster → M S bool;
  runCreatePoolJob : Cluster → gmap string string → string → M S (result Job);
  startChunkServers : Cluster → M S (option error);
}.

Section chunkserver.
Context {S : Type} `{!Clientset S} `{!Collaborators S}.

Definition zero_DevicesSpec : curvev1.DevicesSpec :=
  {| curvev1.Name := ""; curvev1.Percentage := 0 |}.

(** Declares a variable of type [curvev1.DevicesSpec] whose address is
    taken: a new cell of the variable store. *)
Definition new_var : M S ptr := λ w,
  (Ok (length (vars w)),
   mkWorld (store w) (calls w) (logs w) (job2DeviceInfos w)
     (chunkserverConfigs w) (vars w ++ [zero_DevicesSpec])).

(** Assignment to such a variable. *)
Definition assign (p : ptr) (d : curvev1.DevicesSpec) : M S () := λ w,
  (Ok (),
   mkWorld (store w) (calls w) (logs w) (job2DeviceInfos w)
     (chunkserverConfigs w) (<[p := d]> (vars w))).

(** [job2DeviceInfos = []*Job2DeviceInfo{}; chunkserverConfigs = []chunkserverConfig{}] *)
Definition clear_slices : M S () := λ w,
  (Ok (), mkWorld (store w) (calls w) (logs w) [] [] (vars w)).

(** [job2DeviceInfos = append(job2DeviceInfos, jobInfo)] *)
Definition append_job2DeviceInfos (jobInfo : Job2DeviceInfo) : M S () := λ w,
  (Ok (),
   mkWorld (store w) (calls w) (logs w) (job2DeviceInfos w ++ [jobInfo])
     (chunkserverConfigs w) (vars w)).

(** [chunkserverConfigs = append(chunkserverConfigs, chunkserverConfig)] *)
Definition append_chunkserverConfigs (cfg : chunkserverConfig) : M S () := λ w,
  (Ok (),
   mkWorld (store w) (calls w) (logs w) (job2DeviceInfos w)
     (chunkserverConfigs w ++ [cfg]) (vars w)).

Definition GetNodeHostNames_ : M S (result (gmap string string)) :=
  request (Helper_call "GetNodeHostNames") GetNodeHostNames.

Definition GetValidNodes_ (storageNodes : list string)
  : M S (list K8s.Node * option error) :=
  request (Helper_call "GetValidNodes") (GetValidNodes storageNodes).

Definition UpdateCondition_ (n : NamespacedName) (conditionType status reason message : string)
  : M S () :=
  request (Helper_call "UpdateCondition")
    (λ s, ((), UpdateCondition n conditionType status reason message s)).

(** A [for ... range] loop over a slice: the body threads the variables it
    updates. *)
Fixpoint for_range {A B} (l : list A) (body : B → A → M S B) (b : B) : M S B :=
  match l with
  | [] => mret b
  | x :: l' => b' ← body b x; for_range l' body b'
  end.

(** The four lines that derive the short device name:
    TrimSpace, TrimRight "/", Split "/", last element. *)
Definition short_name (deviceName : string) : string :=
  let name := Go.TrimSpace deviceName in
  let name := Go.TrimRight name ["/"%char] in
  let nameArr := Go.Split name "/" in
  List.last nameArr "".

Definition getPodLabels (c : Cluster) (nodeName deviceName : string)
  : gmap string string :=
  let labels : gmap string string := ∅ in
  let labels := <["app" := PrepareJobName]> labels in
  let labels := <["node" := nodeName]> labels in
  let s := Go.Split deviceName "/" in
  let deviceName :=
    if bool_decide (1 < length s)%nat then default "" (s !! 1%nat)
    else (* not occur *) nodeName in
  let labels := <["device" := deviceName]> labels in
  let labels := <["curve_cluster" := Namespace (namespacedName c)]> labels in
  labels.

Definition makeFormatContainer (c : Cluster) (device : curvev1.DevicesSpec)
    (volumeMounts : list VolumeMount) : Container :=
  let privileged := true in
  let runAsUser := 0 in
  let runAsNonRoot := false in
  let readOnlyRootFilesystem := false in
  let argsPercent := Go.Itoa (curvev1.Percentage device) in
  let argsFileSize := Go.Itoa DEFAULT_CHUNKFILE_SIZE in
  let argsFilePoolDir := ChunkserverContainerDataDir +:+ "/chunkfilepool" in
  let argsFilePoolMetaPath := ChunkserverContainerDataDir +:+ "/chunkfilepool.meta" in
  {| Container_Name := "format";
     Args := [curvev1.Name device; ChunkserverContainerDataDir; argsPercent;
              argsFileSize; argsFilePoolDir; argsFilePoolMetaPath];
     Command := ["/bin/bash"; formatScriptMountPath];
     K8s.Image := curvev1.Image (curvev1.CurveVersion (spec c));
     K8s.ImagePullPolicy := curvev1.ImagePullPolicy (curvev1.CurveVersion (spec c));
     VolumeMounts := volumeMounts;
     Container_SecurityContext :=
       Some {| Privileged := Some privileged;
               RunAsUser := Some runAsUser;
               RunAsNonRoot := Some runAsNonRoot;
               ReadOnlyRootFilesystem := Some readOnlyRootFilesystem |} |}.

Definition zero_JobStatus : JobStatus :=
  {| Active := 0; Succeeded := 0; Failed := 0 |}.

(** makeJob; on an owner-reference error the Go function returns
    [(nil, err)]. *)
Definition makeJob (c : Cluster) (nodeName : string) (device : curvev1.DevicesSpec)
  : result Job :=
  let '(volumes, volumeMounts) := createFormatVolumeAndMount c device in
  let name := short_name (curvev1.Name device) in
  let jobName := PrepareJobName +:+ "-" +:+ nodeName +:+ "-" +:+ name in
  let podName := PrepareJobName +:+ "-" +:+ nodeName in
  let runAsUser := 0 in
  let runAsNonRoot := false in
  let podSpec :=
    {| Template_ObjectMeta :=
         {| K8s.Name := podName;
            K8s.Namespace := "";
            Labels := getPodLabels c nodeName (curvev1.Name device);
            OwnerReferences := [] |};
       Template_Spec :=
         {| Containers := [makeFormatContainer c device volumeMounts];
            K8s.NodeName := nodeName;
            PodSpec_RestartPolicy := RestartPolicyOnFailure;
            HostNetwork := true;
            PodSpec_DNSPolicy := DNSClusterFirstWithHostNet;
            Volumes := volumes;
            PodSpec_SecurityContext :=
              Some {| Privileged := None;
                      RunAsUser := Some runAsUser;
                      RunAsNonRoot := Some runAsNonRoot;
                      ReadOnlyRootFilesystem := None |} |} |} in
  let meta :=
    {| K8s.Name := jobName;
       K8s.Namespace := Namespace (namespacedName c);
       Labels := getPodLabels c nodeName (curvev1.Name device);
       OwnerReferences := [] |} in
  match SetControllerReference (ownerInfo c) meta with
  | inr err =>
      inr (Wrap err ("failed to set owner reference to job " +:+ Go.Quote jobName))
  | inl refs =>
      inl {| Job_ObjectMeta :=
               {| K8s.Name := K8s.Name meta;
                  K8s.Namespace := K8s.Namespace meta;
                  Labels := Labels meta;
                  OwnerReferences := refs |};
             Job_Template := podSpec;
             Job_Status := zero_JobStatus |}
  end.

(** createFormatConfigMap creates the ConfigMap that stores format.sh. *)
Definition createFormatConfigMap (c : Cluster) : M S (option error) :=
  let formatConfigMapData : gmap string string :=
    {[ formatScriptFileDataKey := script_FORMAT ]} in
  let meta :=
    {| K8s.Name := formatConfigMapName;
       K8s.Namespace := Namespace (namespacedName c);
       Labels := ∅;
       OwnerReferences := [] |} in
  match SetControllerReference (ownerInfo c) meta with
  | inr err =>
      mret (Some (Wrap err ("failed to set owner reference to format configmap "
                            +:+ Go.Quote formatConfigMapName)))
  | inl refs =>
      let cm :=
        {| ConfigMap_ObjectMeta :=
             {| K8s.Name := K8s.Name meta;
                K8s.Namespace := K8s.Namespace meta;
                Labels := Labels meta;
                OwnerReferences := refs |};
           Data := formatConfigMapData |} in
      r ← ConfigMaps_Create_ (Namespace (namespacedName c)) cm;
      match r with
      | inr err =>
          if negb (IsAlreadyExists err) then
            mret (Some (Wrap err ("failed to create override configmap "
                                  +:+ Namespace (namespacedName c))))
          else mret None
      | inl _ => mret None
      end
  end.

(** runPrepareJob creates the job and runs it.  The error of makeJob is
    dropped by the source ([job, _ := c.makeJob(...)]), so a nil job is
    dereferenced by [job.Namespace]. *)
Definition runPrepareJob (c : Cluster) (nodeName : string)
    (device : curvev1.DevicesSpec) : M S (Job * option error) :=
  match makeJob c nodeName device with
  | inr _ => panic "invalid memory address or nil pointer dereference"
  | inl job =>
      let create : M S (Job * option error) :=
        r ← Jobs_Create_ (Job_Namespace job) job;
        mret (job, match r with inl _ => None | inr err => Some err end) in
      r ← Jobs_Get_ (Job_Namespace job) (Job_Name job);
      match r with
      | inr err =>
          if negb (IsNotFound err) then
            logger Warning "failed to detect job %s. %+v"
              [ArgS (Job_Name job); ArgErr err];;
            create
          else create
      | inl existingJob =>
          if 0 <? Active (Job_Status existingJob) then
            logger Info "Found previous job %s. Status=%+v"
              [ArgS (Job_Name job); ArgStatus (Job_Status existingJob)];;
            mret (existingJob, None)
          else create
      end
  end.

(** What the planner resolves once per run and copies into every record. *)
Record Addresses := {
  clusterMdsAddr : string;
  clusterMdsDummyPort : string;
  clusterEtcdAddr : string;
  clusterSnapCloneAddr : string;
  clusterSnapShotCloneDummyPort : string;
}.

(** The body of the device loop of startProvisioningOverNodes.  [dv] is the
    address of the loop variable [device], [st] the pair
    [(portBase, replicasSequence)]. *)
Definition provisionDevice (c : Cluster) (a : Addresses) (node : K8s.Node)
    (nodeIP : string) (hostSequence : Z) (dv : ptr)
    (st : Z * Z) (d : curvev1.DevicesSpec) : M S (Z * Z) :=
  let '(portBase, replicasSequence) := st in
  assign dv d;;
  let name := short_name (curvev1.Name d) in
  let resourceName := AppName +:+ "-" +:+ Node_Name node +:+ "-" +:+ name in
  let currentConfigMapName :=
    ConfigMapNamePrefix +:+ "-" +:+ Node_Name node +:+ "-" +:+ name in
  logger Info "creating job for device %s on %s"
    [ArgS (curvev1.Name d); ArgS (Node_Name node)];;
  '(job, err) ← runPrepareJob c (Node_Name node) d;
  match err with
  | Some err =>
      logger Error_level "failed to create job for device %s on %s-%v"
        [ArgS (curvev1.Name d); ArgS (Node_Name node); ArgErr err];;
      (* continue: neither slice gets a record for this device *)
      mret (portBase, replicasSequence)
  | None =>
      let jobInfo := {| job := job; device := dv; nodeName := Node_Name node |} in
      append_job2DeviceInfos jobInfo;;
      let chunkserverConfig :=
        {| records.Prefix := Prefix;
           records.Port := portBase;
           ClusterMdsAddr := clusterMdsAddr a;
           ClusterMdsDummyPort := clusterMdsDummyPort a;
           ClusterEtcdAddr := clusterEtcdAddr a;
           ClusterSnapshotcloneAddr := clusterSnapCloneAddr a;
           ClusterSnapshotcloneDummyPort := clusterSnapShotCloneDummyPort a;
           ResourceName := resourceName;
           CurrentConfigMapName := currentConfigMapName;
           DataPathMap :=
             {| HostDevice := curvev1.Name d;
                HostLogDir := logDirHostPath c +:+ "/chunkserver-"
                              +:+ Node_Name node +:+ "-" +:+ name;
                ContainerDataDir := ChunkserverContainerDataDir;
                ContainerLogDir := ChunkserverContainerLogDir |};
           records.NodeName := Node_Name node;
           NodeIP := nodeIP;
           DeviceName := curvev1.Name d;
           HostSequence := hostSequence;
           ReplicasSequence := replicasSequence;
           Replicas := Z.of_nat (length (curvev1.Devices (curvev1.Storage (spec c)))) |} in
      append_chunkserverConfigs chunkserverConfig;;
      mret (Go.incr portBase, Go.incr replicasSequence)
  end.

(** The body of the node loop.  The code is written against the client-go
    API without context arguments ([Get(name, options)]), that is for a Go
    toolchain before 1.22, where a [for ... range] statement declares its
    variable [device] once per execution of the statement: every [&device]
    taken in one node's device loop is the same address. *)
Definition provisionNode (c : Cluster) (nodeNameIP : gmap string string)
    (a : Addresses) (hostSequence : Z) (node : K8s.Node) : M S Z :=
  let nodeIP := Go.index nodeNameIP (Node_Name node) in
  let portBase := curvev1.Port (curvev1.Storage (spec c)) in
  let replicasSequence := 0 in
  dv ← new_var;
  for_range (curvev1.Devices (curvev1.Storage (spec c)))
    (provisionDevice c a node nodeIP hostSequence dv)
    (portBase, replicasSequence);;
  mret (Go.incr hostSequence).

(** The address list of the snapshot-clone service: every node IP with the
    port, comma separated.  Go leaves the order of [range] over a map
    unspecified; the order of [map_to_list] is used here. *)
Definition snapCloneAddr (c : Cluster) (nodeNameIP : gmap string string) : string :=
  let addr :=
    foldl (λ acc (kv : string * string),
             acc +:+ kv.2 +:+ ":"
             +:+ Go.Itoa (curvev1.SnapShotClone_Port (curvev1.SnapShotClone (spec c)))
             +:+ ",")
          "" (map_to_list nodeNameIP) in
  Go.TrimRight addr [","%char].

(** startProvisioningOverNodes formats the devices and provisions chunk files. *)
Definition startProvisioningOverNodes (c : Cluster) (nodeNameIP : gmap string string)
  : M S (option error) :=
  let ns := Namespace (namespacedName c) in
  if negb (curvev1.UseSelectedNodes (curvev1.Storage (spec c))) then
    clear_slices;;
    r ← GetNodeHostNames_;
    match r with
    | inr err => mret (Some (Wrap err "failed to get node hostnames"))
    | inl hostnameMap =>
    let storageNodes :=
      map (Go.index hostnameMap) (curvev1.Nodes (curvev1.Storage (spec c))) in
    '(validNodes, _) ← GetValidNodes_ storageNodes;
    if bool_decide (length validNodes = 0%nat) then
      logger Warning
        "no valid nodes available to run chunkservers on nodes in namespace %q"
        [ArgS ns];;
      mret None
    else
    logger Info "%d of the %d storage nodes are valid"
      [ArgZ (Z.of_nat (length validNodes));
       ArgZ (Z.of_nat (length (curvev1.Nodes (curvev1.Storage (spec c)))))];;
    e ← createFormatConfigMap c;
    match e with
    | Some err => mret (Some (Wrap err "failed to create format ConfigMap"))
    | None =>
    r ← ConfigMaps_Get_ ns config_EtcdOverrideConfigMapName;
    match r with
    | inr err => mret (Some (Wrap err "failed to get etcd override endoints configmap"))
    | inl etcdOverrideCM =>
    let clusterEtcdAddr := Go.index (Data etcdOverrideCM) config_ClusterEtcdAddr in
    r ← ConfigMaps_Get_ ns config_MdsOverrideConfigMapName;
    match r with
    | inr err => mret (Some (Wrap err "failed to get mds override endoints configmap"))
    | inl mdsOverrideCM =>
    let clusterMdsAddr := Go.index (Data mdsOverrideCM) config_MdsOvverideConfigMapDataKey in
    let dummyPort := Go.Itoa (curvev1.DummyPort (curvev1.Mds (spec c))) in
    let clusterMdsDummyPort := dummyPort +:+ "," +:+ dummyPort +:+ "," +:+ dummyPort in
    let '(clusterSnapCloneAddr, clusterSnapShotCloneDummyPort) :=
      if curvev1.Enable (curvev1.SnapShotClone (spec c)) then
        let dummyPort :=
          Go.Itoa (curvev1.SnapShotClone_DummyPort (curvev1.SnapShotClone (spec c))) in
        (snapCloneAddr c nodeNameIP,
         dummyPort +:+ "," +:+ dummyPort +:+ "," +:+ dummyPort)
      else ("", "") in
    let a := {| clusterMdsAddr := clusterMdsAddr;
                clusterMdsDummyPort := clusterMdsDummyPort;
                clusterEtcdAddr := clusterEtcdAddr;
                clusterSnapCloneAddr := clusterSnapCloneAddr;
                clusterSnapShotCloneDummyPort := clusterSnapShotCloneDummyPort |} in
    let hostSequence := 0 in
    for_range validNodes (provisionNode c nodeNameIP a) hostSequence;;
    mret None
    end end end end
  else mret None.

(** Start begins the chunkserver daemon.  The condition types, statuses and
    reasons handed to UpdateCondition are constants of api/v1; they are
    passed by name.  The ticker, the deadline context and the channel are
    created for [checkJobStatus], which stands for the goroutine and the
    receive that follows it. *)
Definition Start (c : Cluster) (nodeNameIP : gmap string string) : M S (option error) :=
  let storage := curvev1.Storage (spec c) in
  logger Info "start running chunkserver in namespace %q"
    [ArgS (Namespace (namespacedName c))];;
  if negb (curvev1.UseSelectedNodes storage)
     && (bool_decide (length (curvev1.Nodes storage) = 0%nat)
         || bool_decide (length (curvev1.Devices storage) = 0%nat)) then
    mret (Some (New "useSelectedNodes is set to false but no node specified"))
  else if curvev1.UseSelectedNodes storage
          && bool_decide (length (curvev1.SelectedNodes storage) = 0%nat) then
    mret (Some (New "useSelectedNodes is set to false but selectedNodes not be specified"))
  else
  logger Info "starting to prepare the chunk file" [];;
  e ← startProvisioningOverNodes c nodeNameIP;
  match e with
  | Some err => mret (Some (Wrap err "failed to provision chunkfilepool"))
  | None =>
  UpdateCondition_ (namespacedName c) "ConditionTypeFormatedReady" "ConditionTrue"
    "ConditionFormatingChunkfilePoolReason" "Formating chunkfilepool";;
  flag ← checkJobStatus c;
  if negb flag then
    mret (Some (New "Format job is not completed in 24 hours and exit with -1"))
  else
  UpdateCondition_ (namespacedName c) "ConditionTypeFormatedReady" "ConditionTrue"
    "ConditionFormatChunkfilePoolReason" "Formating chunkfilepool successed";;
  logger Info "all jobs run completed in 24 hours" [];;
  r ← runCreatePoolJob c nodeNameIP "physical_pool";
  match r with
  | inr err => mret (Some (Wrap err "failed to create physical pool"))
  | inl _ =>
  logger Info "create physical pool successed" [];;
  e ← startChunkServers c;
  match e with
  | Some err => mret (Some (Wrap err "failed to start chunkserver"))
  | None =>
  r ← runCreatePoolJob c nodeNameIP "logical_pool";
  match r with
  | inr err => mret (Some (Wrap err "failed to create physical pool"))
  | inl _ =>
  logger Info "create logical pool successed" [];;
  UpdateCondition_ (namespacedName c) "ConditionTypeChunkServerReady" "ConditionTrue"
    "ConditionChunkServerClusterCreatedReason" "Chunkserver cluster has been created";;
  mret None
  end end end end.

End chunkserver.

(** New, the constructor of [Cluster] (its [context] argument is the world's
    store). *)
Definition New (namespacedName : NamespacedName) (spec : curvev1.CurveClusterSpec)
    (ownerInfo : OwnerInfo) (dataDirHostPath logDirHostPath confDirHostPath : string)
  : Cluster :=
  {| namespacedName := namespacedName;
     spec := spec;
     dataDirHostPath := dataDirHostPath;
     logDirHostPath := logDirHostPath;
     confDirHostPath := confDirHostPath;
     ownerInfo := ownerInfo |}.

End chunkserver.

(** ** An in-memory API server, for running the code on concrete inputs

    Jobs and ConfigMaps are kept by (namespace, name).  A job whose deletion
    was requested stays visible for [linger] more sleeps (foreground
    deletion tears the pods down first); [delete_error] makes every delete
    request fail with that error. *)

Module fake.

Record Store := mkStore {
  jobs : gmap (string * string) (Job * option nat);
  configMaps : gmap (string * string) ConfigMap;
  hostnames : gmap string string;
  ready_nodes : list string;
  linger : nat;
  delete_error : option error;
}.

Definition not_found (name : string) : error :=
  StatusError StatusReasonNotFound ("jobs.batch " +:+ name +:+ " not found").

Definition already_exists (name : string) : error :=
  StatusError StatusReasonAlreadyExists (name +:+ " already exists").

Definition with_jobs (s : Store) (js : gmap (string * string) (Job * option nat)) : Store :=
  mkStore js (configMaps s) (hostnames s) (ready_nodes s) (linger s) (delete_error s).

Definition with_configMaps (s : Store) (cms : gmap (string * string) ConfigMap) : Store :=
  mkStore (jobs s) cms (hostnames s) (ready_nodes s) (linger s) (delete_error s).

Definition get_job (namespace name : string) (s : Store) : result Job * Store :=
  match jobs s !! (namespace, name) with
  | Some (j, _) => (inl j, s)
  | None => (inr (not_found name), s)
  end.

Definition create_job (namespace : string) (j : Job) (s : Store) : result Job * Store :=
  match jobs s !! (namespace, Job_Name j) with
  | Some _ => (inr (already_exists (Job_Name j)), s)
  | None => (inl j, with_jobs s (<[(namespace, Job_Name j) := (j, None)]> (jobs s)))
  end.

Definition delete_job (namespace name : string) (o : DeleteOptions) (s : Store)
  : option error * Store :=
  match delete_error s with
  | Some e => (Some e, s)
  | None =>
      match jobs s !! (namespace, name) with
      | None => (Some (not_found name), s)
      | Some (j, _) =>
          match linger s with
          | O => (None, with_jobs s (delete (namespace, name) (jobs s)))
          | Datatypes.S n => (None, with_jobs s (<[(namespace, name) := (j, Some n)]> (jobs s)))
          end
      end
  end.

(** One sleep: a job under deletion gets one step closer to being gone. *)
Definition tick (s : Store) : Store :=
  with_jobs s
    (omap (λ e : Job * option nat,
             match e with
             | (j, Some O) => None
             | (j, Some (Datatypes.S n)) => Some (j, Some n)
             | (j, None) => Some (j, None)
             end) (jobs s)).

Definition get_configMap (namespace name : string) (s : Store)
  : result ConfigMap * Store :=
  match configMaps s !! (namespace, name) with
  | Some cm => (inl cm, s)
  | None => (inr (not_found name), s)
  end.

Definition create_configMap (namespace : string) (cm : ConfigMap) (s : Store)
  : result ConfigMap * Store :=
  let name := K8s.Name (ConfigMap_ObjectMeta cm) in
  match configMaps s !! (namespace, name) with
  | Some _ => (inr (already_exists name), s)
  | None => (inl cm, with_configMaps s (<[(namespace, name) := cm]> (configMaps s)))
  end.

Global Instance clientset : Clientset Store := {|
  Jobs_Get := get_job;
  Jobs_Create := create_job;
  Jobs_Delete := delete_job;
  ConfigMaps_Get := get_configMap;
  ConfigMaps_Create := create_configMap;
  time_passes := λ _, tick;
|}.

Definition placeholder_job : Job :=
  {| Job_ObjectMeta := {| K8s.Name := "create-pool"; K8s.Namespace := "";
                          Labels := ∅; OwnerReferences := [] |};
     Job_Template :=
       {| Template_ObjectMeta := {| K8s.Name := ""; K8s.Namespace := "";
                                    Labels := ∅; OwnerReferences := [] |};
          Template_Spec :=
            {| Containers := []; K8s.NodeName := "";
               PodSpec_RestartPolicy := RestartPolicyOnFailure;
               HostNetwork := false; PodSpec_DNSPolicy := DNSDefault;
               Volumes := []; PodSpec_SecurityContext := None |} |};
     Job_Status := chunkserver.zero_JobStatus |}.

Global Instance collaborators : chunkserver.Collaborators Store := {|
  chunkserver.config_EtcdOverrideConfigMapName := "etcd-endpoints-override";
  chunkserver.config_ClusterEtcdAddr := "clusterEtcdAddr";
  chunkserver.config_MdsOverrideConfigMapName := "mds-endpoints-override";
  chunkserver.config_MdsOvverideConfigMapDataKey := "mdsEndpoints";
  chunkserver.script_FORMAT := "#!/bin/bash";
  chunkserver.GetNodeHostNames := λ s, (inl (hostnames s), s);
  chunkserver.GetValidNodes := λ names s,
    ((map Build_Node (filter (λ n, n ∈ ready_nodes s) names), None), s);
  chunkserver.UpdateCondition := λ _ _ _ _ _ s, s;
  chunkserver.SetControllerReference := λ o _, inl [chunkserver.ownerRef o];
  chunkserver.createFormatVolumeAndMount := λ _ _, ([], []);
  chunkserver.checkJobStatus := λ _, mret true;
  chunkserver.runCreatePoolJob := λ _ _ _, mret (inl placeholder_job);
  chunkserver.startChunkServers := λ _, mret None;
|}.

Definition world (s : Store) : World Store := mkWorld s [] [] [] [] [].

End fake.

(** ** Vocabulary of the statements *)

Local Open Scope list_scope.

Section Vocabulary.
Context {S : Type} `{!Clientset S}.

(** The delete request of DeleteBatchJob: foreground propagation, no grace
    period. *)
Definition foreground_delete : DeleteOptions :=
  {| GracePeriodSeconds := Some 0;
     PropagationPolicy := Some DeletePropagationForeground |}.

(** One round of the deletion poll: an existence check and the three-second
    sleep that follows it. *)
Definition poll_round (namespace name : string) : list Call :=
  [Jobs_Get_call namespace name; Sleep_call (3 * Second)].

Definition poll_rounds (k : nat) (namespace name : string) : list Call :=
  concat (replicate k (poll_round namespace name)).

(** The store as [k] such rounds leave it. *)
Fixpoint store_after_rounds (k : nat) (namespace name : string) (s : S) : S :=
  match k with
  | O => s
  | Datatypes.S k' =>
      store_after_rounds k' namespace name
        (time_passes (3 * Second) (Jobs_Get namespace name s).2)
  end.

(** Whether the existence check number [k] (from 0) answers "not found". *)
Definition absent_at (k : nat) (namespace name : string) (s : S) : bool :=
  match (Jobs_Get namespace name (store_after_rounds k namespace name s)).1 with
  | inr err => IsNotFound err
  | inl _ => false
  end.

(** The store the synchronous wait of at most [n] rounds leaves when [k]
    of its existence checks found the job: the store after [k] rounds and,
    when the wait ended before its [n]-th round, after the check that
    found the job gone. *)
Definition store_after_wait (n k : nat) (namespace name : string) (s : S) : S :=
  let s' := store_after_rounds k namespace name s in
  if decide (k < n)%nat then (Jobs_Get namespace name s').2 else s'.

(** The values sent on the completion channel, in order. *)
Definition sends (cs : list Call) : list bool :=
  omap (λ c, match c with ChanSend_call v => Some v | _ => None end) cs.

(** The requests of the synchronous wait: existence checks and sleeps. *)
Definition is_poll (c : Call) : Prop :=
  match c with Jobs_Get_call _ _ | Sleep_call _ => True | _ => False end.

(** [idle_ticks namespace name n s s']: [n] ticks in a row, starting in
    store [s], each fetch the job and find it without a successful
    completion; [s'] is the store after the last fetch. *)
Inductive idle_ticks (namespace name : string) : nat → S → S → Prop :=
| idle_O s : idle_ticks namespace name O s s
| idle_S n s j s1 s' :
    Jobs_Get namespace name s = (inl j, s1) →
    Succeeded (Job_Status j) ≤ 0 →
    idle_ticks namespace name n s1 s' →
    idle_ticks namespace name (Datatypes.S n) s s'.

(** The world after a log line, and after a request that left the store [s']. *)
Definition logged (w : World S) (e : LogEntry) : World S :=
  mkWorld (store w) (calls w) (logs w ++ [e]) (job2DeviceInfos w)
    (chunkserverConfigs w) (vars w).

Definition called (w : World S) (c : Call) (s' : S) : World S :=
  mkWorld s' (calls w ++ [c]) (logs w) (job2DeviceInfos w)
    (chunkserverConfigs w) (vars w).

(** The world [w] with the two global slices replaced. *)
Definition with_slices (w : World S) (infos : list Job2DeviceInfo)
    (cfgs : list chunkserverConfig) : World S :=
  mkWorld (store w) (calls w) (logs w) infos cfgs (vars w).

(** [w'] differs from [w] at most in the store, the call list and the log. *)
Definition same_slices (w w' : World S) : Prop :=
  job2DeviceInfos w' = job2DeviceInfos w ∧
  chunkserverConfigs w' = chunkserverConfigs w ∧
  vars w' = vars w.

End Vocabulary.

Section PlannerVocabulary.
Context {S : Type} `{!Clientset S} `{!chunkserver.Collaborators S}.

(** The valid nodes a planning run resolves when it starts in store [s]:
    what GetValidNodes answers for the hostnames of the listed nodes (no
    node when the hostnames cannot be fetched). *)
Definition valid_nodes (c : chunkserver.Cluster) (s : S) : list K8s.Node :=
  match chunkserver.GetNodeHostNames s with
  | (inl hostnameMap, s1) =>
      (chunkserver.GetValidNodes
         (map (Go.index hostnameMap)
            (curvev1.Nodes (curvev1.Storage (chunkserver.spec c)))) s1).1.1
  | (inr _, _) => []
  end.

(** The per-device submission as the specification words it: "build the
    preparation-task definition and submit it via the Replaceable Task
    Executor", without forced replacement.  It is compared with
    [chunkserver.runPrepareJob], the code. *)
Definition runPrepareJob_via_executor (c : chunkserver.Cluster) (nodeName : string)
    (device : curvev1.DevicesSpec) : M S (option error) :=
  match chunkserver.makeJob c nodeName device with
  | inl job => k8sutil.RunReplaceableJob job false
  | inr _ => panic "invalid memory address or nil pointer dereference"
  end.

(** A world that holds the store [s] and nothing else. *)
Definition bare (s : S) : World S := mkWorld s [] [] [] [] [].

(** The task submission for device [d] on [node] in store [s]: what
    [chunkserver.runPrepareJob] answers there.  [true] when it returns no
    error, [false] when it returns one, with the store it leaves; nothing
    when it panics. *)
Definition submit (c : chunkserver.Cluster) (node : K8s.Node)
    (d : curvev1.DevicesSpec) (s : S) : option (bool * S) :=
  match chunkserver.runPrepareJob c (Node_Name node) d (bare s) with
  | (Ok (_, None), w') => Some (true, store w')
  | (Ok (_, Some _), w') => Some (false, store w')
  | _ => None
  end.

(** The submissions for the devices [ds] on [node], one after the other
    from store [s]: every device with the fate of its submission, and the
    store left. *)
Fixpoint device_fates (c : chunkserver.Cluster) (node : K8s.Node)
    (ds : list curvev1.DevicesSpec) (s : S)
  : option (list (curvev1.DevicesSpec * bool) * S) :=
  match ds with
  | [] => Some ([], s)
  | d :: ds' =>
      '(ok, s1) ← submit c node d s;
      '(outs, s2) ← device_fates c node ds' s1;
      Some ((d, ok) :: outs, s2)
  end.

(** The same over the nodes [nodes], each with all the devices [ds]. *)
Fixpoint node_fates (c : chunkserver.Cluster) (nodes : list K8s.Node)
    (ds : list curvev1.DevicesSpec) (s : S)
  : option (list (K8s.Node * list (curvev1.DevicesSpec * bool)) * S) :=
  match nodes with
  | [] => Some ([], s)
  | node :: nodes' =>
      '(outs, s1) ← device_fates c node ds s;
      '(outss, s2) ← node_fates c nodes' ds s1;
      Some ((node, outs) :: outss, s2)
  end.

(** The store in which a planning run in explicit mode, started in store
    [s], makes its first submission: [s] after the two node helpers, the
    creation of the format ConfigMap and the lookups of the two override
    ConfigMaps. *)
Definition store_before_submissions (c : chunkserver.Cluster) (s : S) : S :=
  let ns := chunkserver.Namespace (chunkserver.namespacedName c) in
  match chunkserver.GetNodeHostNames s with
  | (inl hostnameMap, s1) =>
      let s2 := (chunkserver.GetValidNodes
                   (map (Go.index hostnameMap)
                      (curvev1.Nodes (curvev1.Storage (chunkserver.spec c)))) s1).2 in
      let s3 := store (chunkserver.createFormatConfigMap c (bare s2)).2 in
      let s4 := (ConfigMaps_Get ns chunkserver.config_EtcdOverrideConfigMapName s3).2 in
      (ConfigMaps_Get ns chunkserver.config_MdsOverrideConfigMapName s4).2
  | (inr _, s1) => s1
  end.

End PlannerVocabulary.

(** What the statements read off a DeviceConfigRecord: node name, device
    name, host sequence, replica sequence, port. *)
Record Summary := mkSummary {
  s_node : string;
  s_device : string;
  s_host : Z;
  s_replica : Z;
  s_port : Z;
}.

Definition summary (cfg : chunkserverConfig) : Summary :=
  mkSummary (records.NodeName cfg) (DeviceName cfg) (HostSequence cfg)
    (ReplicasSequence cfg) (records.Port cfg).

(** The records of one node's device loop, given for every device handled
    whether its submission succeeded; [p] and [r] are the port and the
    replica sequence the loop is at. *)
Fixpoint device_records (node : string) (host p r : Z)
    (outs : list (curvev1.DevicesSpec * bool)) : list Summary :=
  match outs with
  | [] => []
  | (d, true) :: outs' =>
      mkSummary node (curvev1.Name d) host r p
      :: device_records node host (Go.incr p) (Go.incr r) outs'
  | (d, false) :: outs' => device_records node host p r outs'
  end.

(** The records of the node loop from host sequence [host] on. *)
Fixpoint node_records (host base : Z)
    (outss : list (K8s.Node * list (curvev1.DevicesSpec * bool))) : list Summary :=
  match outss with
  | [] => []
  | (node, outs) :: outss' =>
      device_records (Node_Name node) host base 0 outs
      ++ node_records (Go.incr host) base outss'
  end.

(** The submissions a log tells of: a line "creating job for device %s on
    %s" opens one, a line "failed to create job for device %s on %s-%v"
    marks the one last opened as failed.  [note] keeps the latest first. *)
Definition creating_format : string := "creating job for device %s on %s".
Definition failed_format : string := "failed to create job for device %s on %s-%v".

Definition note (acc : list (string * string * bool)) (e : LogEntry)
  : list (string * string * bool) :=
  if decide (log_format e = creating_format) then
    match log_args e with
    | [ArgS d; ArgS n] => (n, d, true) :: acc
    | _ => acc
    end
  else if decide (log_format e = failed_format) then
    match acc with
    | (n, d, _) :: acc' => (n, d, false) :: acc'
    | [] => []
    end
  else acc.

(** (node name, device name, not failed), in the order of submission. *)
Definition submissions (l : list LogEntry) : list (string * string * bool) :=
  rev (foldl note [] l).

Definition neutral (e : LogEntry) : Prop :=
  log_format e ≠ creating_format ∧ log_format e ≠ failed_format.

(** The submissions that [outss] stands for. *)
Definition told (outss : list (K8s.Node * list (curvev1.DevicesSpec * bool)))
  : list (string * string * bool) :=
  flat_map (λ x : K8s.Node * list (curvev1.DevicesSpec * bool),
              map (λ y : curvev1.DevicesSpec * bool,
                     (Node_Name x.1, curvev1.Name y.1, y.2)) x.2) outss.


(** The number of submissions that succeeded. *)
Definition successes (outs : list (curvev1.DevicesSpec * bool)) : nat :=
  length (filter (λ y : curvev1.DevicesSpec * bool, y.2 = true) outs).


(** ** Concrete inputs *)

Module inputs.

Definition a_job (namespace name : string) (active succeeded : Z) : Job :=
  {| Job_ObjectMeta := {| K8s.Name := name; K8s.Namespace := namespace;
                          Labels := ∅; OwnerReferences := [] |};
     Job_Template := Job_Template fake.placeholder_job;
     Job_Status := {| Active := active; Succeeded := succeeded; Failed := 0 |} |}.

Definition a_configMap (namespace name key value : string) : ConfigMap :=
  {| ConfigMap_ObjectMeta := {| K8s.Name := name; K8s.Namespace := namespace;
                                Labels := ∅; OwnerReferences := [] |};
     Data := {[ key := value ]} |}.

(** A cluster with the nodes node1 and node2, known to Kubernetes as host1
    and host2, both ready, and with the two override ConfigMaps in
    namespace curve; [js] are the jobs it already holds. *)
Definition a_store (js : list Job) (linger : nat) (delete_error : option error)
  : fake.Store :=
  fake.mkStore
    (list_to_map (map (λ j, ((Job_Namespace j, Job_Name j), (j, None))) js))
    (list_to_map
       [(("curve", "etcd-endpoints-override"),
         a_configMap "curve" "etcd-endpoints-override" "clusterEtcdAddr" "10.0.0.1:2379");
        (("curve", "mds-endpoints-override"),
         a_configMap "curve" "mds-endpoints-override" "mdsEndpoints" "10.0.0.1:6700")])
    (list_to_map [("node1", "host1"); ("node2", "host2")])
    ["host1"; "host2"] linger delete_error.

Definition job_name : string := "prepare-chunkfile-host1-sdb".

(** A job that is still running, one that has stopped, one that succeeded. *)
Definition running_job : Job := a_job "curve" job_name 1 0.
Definition finished_job : Job := a_job "curve" job_name 0 0.
Definition succeeded_job : Job := a_job "curve" job_name 0 1.

Definition forbidden : error := StatusError StatusReasonUnknown "forbidden".

Definition sdb : curvev1.DevicesSpec :=
  {| curvev1.Name := "/dev/sdb"; curvev1.Percentage := 80 |}.
Definition sdc : curvev1.DevicesSpec :=
  {| curvev1.Name := "/dev/sdc"; curvev1.Percentage := 80 |}.

Definition a_cluster (useSelectedNodes : bool) (nodes : list string)
    (selected : list curvev1.SelectedNodesList) (devices : list curvev1.DevicesSpec)
  : chunkserver.Cluster :=
  {| chunkserver.namespacedName :=
       {| chunkserver.Namespace := "curve"; chunkserver.Name := "my-cluster" |};
     chunkserver.spec :=
       {| curvev1.Storage :=
            {| curvev1.UseSelectedNodes := useSelectedNodes;
               curvev1.Nodes := nodes;
               curvev1.SelectedNodes := selected;
               curvev1.Devices := devices;
               curvev1.Port := 8200 |};
          curvev1.Mds := {| curvev1.DummyPort := 6700 |};
          curvev1.SnapShotClone :=
            {| curvev1.Enable := false;
               curvev1.SnapShotClone_Port := 5555;
               curvev1.SnapShotClone_DummyPort := 8800 |};
          curvev1.CurveVersion :=
            {| curvev1.Image := "opencurvedocker/curvebs:v1.2";
               curvev1.ImagePullPolicy := "IfNotPresent" |} |};
     chunkserver.dataDirHostPath := "/curvebs/data";
     chunkserver.logDirHostPath := "/curvebs/log";
     chunkserver.confDirHostPath := "/curvebs/conf";
     chunkserver.ownerInfo :=
       {| chunkserver.ownerRef :=
            {| OwnerReference_Kind := "CurveCluster";
               OwnerReference_Name := "my-cluster";
               OwnerReference_Controller := true |};
          chunkserver.ownerRefNamespace := "curve" |} |}.

(** Explicit mode: two nodes, two devices; one node, one device; two nodes
    and no device.  Pre-selected mode: one selected node; none. *)
Definition two_by_two : chunkserver.Cluster :=
  a_cluster false ["node1"; "node2"] [] [sdb; sdc].
Definition one_by_one : chunkserver.Cluster :=
  a_cluster false ["node1"] [] [sdb].
Definition no_device : chunkserver.Cluster :=
  a_cluster false ["node1"; "node2"] [] [].
Definition preselected : chunkserver.Cluster :=
  a_cluster true [] [{| curvev1.Node := "node1";
                        curvev1.SelectedNode_Devices := [sdb] |}] [].
Definition none_selected : chunkserver.Cluster :=
  a_cluster true [] [] [].

(** The world an explicit-mode run over one node and one device leaves. *)
Definition after_first_run : World fake.Store :=
  (chunkserver.startProvisioningOverNodes one_by_one ∅
     (fake.world (a_store [] 0 None))).2.

(** The kind of a request, for short listings. *)
Definition kind (c : Call) : string :=
  match c with
  | Jobs_Get_call _ _ => "get"
  | Jobs_Create_call _ _ => "create"
  | Jobs_Delete_call _ _ _ => "delete"
  | ConfigMaps_Get_call _ _ => "get configmap"
  | ConfigMaps_Create_call _ _ => "create configmap"
  | Sleep_call _ => "sleep"
  | ChanSend_call _ => "send"
  | Helper_call _ => "helper"
  end.

End inputs.

(** ** Vocabulary of the further properties *)

(** The time slept by the requests [cs], in nanoseconds. *)
Definition sleep_total (cs : list Call) : Z :=
  foldr (λ c acc, match c with Sleep_call d => d + acc | _ => acc end) 0 cs.

(** The number of existence checks or status fetches among [cs]. *)
Definition fetch_count (cs : list Call) : nat :=
  length (filter (λ c, inputs.kind c = "get") cs).

(** Requests on jobs. *)
Definition is_job_request (c : Call) : Prop :=
  match c with
  | Jobs_Get_call _ _ | Jobs_Create_call _ _ | Jobs_Delete_call _ _ _ => True
  | _ => False
  end.

(** What a planning run may ask of its environment: anything but a job
    deletion, a sleep or a send on a channel. *)
Definition planner_request (c : Call) : Prop :=
  match c with
  | Jobs_Delete_call _ _ _ | Sleep_call _ | ChanSend_call _ => False
  | _ => True
  end.

Section Extends.
Context {S : Type}.

(** [extends proj P w w']: the list [proj] of [w'] is the one of [w] with
    new elements at its end, all of them satisfying [P]. *)
Definition extends {X} (proj : World S → list X) (P : X → Prop)
    (w w' : World S) : Prop :=
  ∃ new, proj w' = proj w ++ new ∧ Forall P new.

(** [keeps I m]: whatever the outcome, the world [m] leaves is related by
    [I] to the world it started in. *)
Definition keeps {A} (I : World S → World S → Prop) (m : M S A) : Prop :=
  ∀ w, I w (m w).2.

End Extends.

Section PlannerRecords.
Context {S : Type} `{!Clientset S} `{!chunkserver.Collaborators S}.


(** The four messages an error of a planning run is wrapped in. *)
Definition planner_error_messages : list string :=
  ["failed to get node hostnames";
   "failed to create format ConfigMap";
   "failed to get etcd override endoints configmap";
   "failed to get mds override endoints configmap"].

End PlannerRecords.

(** The string [s] does not contain the character [ch]. *)
Definition without_char (ch : ascii) (s : string) : Prop :=
  Forall (λ x, x ≠ ch) (String.list_ascii_of_string s).

(** ** Further concrete inputs *)

Module scenarios.

(** The store of [inputs.a_store] without the two override ConfigMaps. *)
Definition bare_store : fake.Store :=
  fake.with_configMaps (inputs.a_store [] 0 None) ∅.

(** Jobs left by an earlier run, all stopped: one per node and device of
    [inputs.two_by_two]. *)
Definition stale_jobs : list Job :=
  [inputs.a_job "curve" "prepare-chunkfile-host1-sdb" 0 0;
   inputs.a_job "curve" "prepare-chunkfile-host1-sdc" 0 0;
   inputs.a_job "curve" "prepare-chunkfile-host2-sdb" 0 0;
   inputs.a_job "curve" "prepare-chunkfile-host2-sdc" 0 0].

(** Explicit mode over a node the cluster does not know. *)
Definition unknown_node : chunkserver.Cluster :=
  inputs.a_cluster false ["node9"] [] [inputs.sdb].

(** Collaborators as in [fake.collaborators], with the given answer of
    SetControllerReference and the given value received from the barrier. *)
Definition collaborators_with
    (setControllerReference : chunkserver.OwnerInfo → ObjectMeta
                              → result (list OwnerReference))
    (barrier : bool) : chunkserver.Collaborators fake.Store := {|
  chunkserver.config_EtcdOverrideConfigMapName := "etcd-endpoints-override";
  chunkserver.config_ClusterEtcdAddr := "clusterEtcdAddr";
  chunkserver.config_MdsOverrideConfigMapName := "mds-endpoints-override";
  chunkserver.config_MdsOvverideConfigMapDataKey := "mdsEndpoints";
  chunkserver.script_FORMAT := "#!/bin/bash";
  chunkserver.GetNodeHostNames := λ s, (inl (fake.hostnames s), s);
  chunkserver.GetValidNodes := λ names s,
    ((map Build_Node (filter (λ n, n ∈ fake.ready_nodes s) names), None), s);
  chunkserver.UpdateCondition := λ _ _ _ _ _ s, s;
  chunkserver.SetControllerReference := setControllerReference;
  chunkserver.createFormatVolumeAndMount := λ _ _, ([], []);
  chunkserver.checkJobStatus := λ _, mret barrier;
  chunkserver.runCreatePoolJob := λ _ _ _, mret (inl fake.placeholder_job);
  chunkserver.startChunkServers := λ _, mret None;
|}.

(** An owner whose reference is refused on every object outside the
    owner's namespace. *)
Definition strict_owner : chunkserver.Collaborators fake.Store :=
  collaborators_with
    (λ o m, if bool_decide (chunkserver.ownerRefNamespace o = K8s.Namespace m)
            then inl [chunkserver.ownerRef o]
            else inr (New "cross-namespaced owner references are disallowed"))
    true.

(** A barrier that reports false: the format jobs did not complete. *)
Definition failing_barrier : chunkserver.Collaborators fake.Store :=
  collaborators_with (λ o _, inl [chunkserver.ownerRef o]) false.

(** A cluster in namespace curve whose owner lives in namespace other. *)
Definition foreign_owner : chunkserver.Cluster :=
  let c := inputs.one_by_one in
  {| chunkserver.namespacedName := chunkserver.namespacedName c;
     chunkserver.spec := chunkserver.spec c;
     chunkserver.dataDirHostPath := chunkserver.dataDirHostPath c;
     chunkserver.logDirHostPath := chunkserver.logDirHostPath c;
     chunkserver.confDirHostPath := chunkserver.confDirHostPath c;
     chunkserver.ownerInfo :=
       {| chunkserver.ownerRef := chunkserver.ownerRef (chunkserver.ownerInfo c);
          chunkserver.ownerRefNamespace := "other" |} |}.

End scenarios.

(** ** Proofs: the monad *)

Section MonadFacts.
Context {S : Type} `{!Clientset S}.

Lemma bind_run {A B} (m : M S A) (f : A → M S B) (w : World S) :
  (m ≫= f) w =
  match m w with
  | (Ok a, w') => f a w'
  | (Panic msg, w') => (Panic msg, w')
  | (Blocked, w') => (Blocked, w')
  end.
Proof. reflexivity. Qed.

Lemma ret_run {A} (a : A) (w : World S) : (mret a : M S A) w = (Ok a, w).
Proof. reflexivity. Qed.

Lemma bind_logger {B} (lvl : Level) (format : string) (args : list LogArg)
    (k : () → M S B) (w : World S) :
  (logger lvl format args ≫= k) w = k () (logged w (Build_LogEntry lvl format args)).
Proof. reflexivity. Qed.

Lemma bind_request {A B} (c : Call) (op : S → A * S) (k : A → M S B)
    (w : World S) (a : A) (s' : S) :
  op (store w) = (a, s') →
  (request c op ≫= k) w = k a (called w c s').
Proof. intros Hop. rewrite bind_run. unfold request. by rewrite Hop. Qed.

Lemma bind_step {A B} (m : M S A) (k : A → M S B) (w w1 : World S) (a : A) :
  m w = (Ok a, w1) → (m ≫= k) w = k a w1.
Proof. intros Hm. rewrite bind_run. by rewrite Hm. Qed.

Lemma same_slices_trans (w1 w2 w3 : World S) :
  same_slices w1 w2 → same_slices w2 w3 → same_slices w1 w3.
Proof. intros (?&?&?) (?&?&?). repeat split; congruence. Qed.

End MonadFacts.

(** ** Proofs: pkg/k8sutil/job.go *)

Section k8sutil_facts.
Context {S : Type} `{!Clientset S}.

Lemma absent_at_S k namespace name (s : S) :
  absent_at (Datatypes.S k) namespace name s =
  absent_at k namespace name (time_passes (3 * Second) (Jobs_Get namespace name s).2).
Proof. reflexivity. Qed.

(** The poll loop with [n] iterations left: it stops at the first check
    that answers "not found", or after [n] rounds, and succeeds either way. *)
Lemma DeleteBatchJob_poll_spec (n : nat) (namespace name : string) :
  ∀ w : World S,
  ∃ (k : nat) (w' : World S),
    (k ≤ n)%nat ∧
    (∀ j, (j < k)%nat → absent_at j namespace name (store w) = false) ∧
    ((k < n)%nat → absent_at k namespace name (store w) = true) ∧
    k8sutil.DeleteBatchJob_poll n (3 * Second) namespace name w = (Ok None, w') ∧
    calls w' = calls w ++ poll_rounds k namespace name
               ++ (if decide (k < n)%nat then [Jobs_Get_call namespace name] else []) ∧
    same_slices w w'.
Proof.
  induction n as [|n IH]; intros w.
  - exists O. eexists. split; [lia|]. split; [intros; lia|]. split; [intros; lia|].
    split; [reflexivity|]. simpl. rewrite !app_nil_r. split; [done|by repeat split].
  - simpl. rewrite bind_run. unfold Jobs_Get_, request at 1.
    destruct (Jobs_Get namespace name (store w)) as [r s1] eqn:Hget.
    assert (Hstop : ∀ w1 : World S,
      calls w1 = calls w ++ [Jobs_Get_call namespace name] →
      same_slices w w1 →
      absent_at 0 namespace name (store w) = true →
      ∃ (k : nat) (w' : World S),
        (k ≤ Datatypes.S n)%nat ∧
        (∀ j, (j < k)%nat → absent_at j namespace name (store w) = false) ∧
        ((k < Datatypes.S n)%nat → absent_at k namespace name (store w) = true) ∧
        (Ok (None : option error), w1) = (Ok None, w') ∧
        calls w' = calls w ++ poll_rounds k namespace name
           ++ (if decide (k < Datatypes.S n)%nat then [Jobs_Get_call namespace name] else []) ∧
        same_slices w w').
    { intros w1 Hc Hs Ha. exists O, w1. split; [lia|]. split; [intros; lia|].
      split; [done|]. split; [done|]. split; [|done].
      rewrite decide_True by lia. done. }
    assert (Hgo : absent_at 0 namespace name (store w) = false →
      ∀ w1 : World S,
      store w1 = time_passes (3 * Second) s1 →
      calls w1 = calls w ++ poll_round namespace name →
      same_slices w w1 →
      ∃ (k : nat) (w' : World S),
        (k ≤ Datatypes.S n)%nat ∧
        (∀ j, (j < k)%nat → absent_at j namespace name (store w) = false) ∧
        ((k < Datatypes.S n)%nat → absent_at k namespace name (store w) = true) ∧
        k8sutil.DeleteBatchJob_poll n (3 * Second) namespace name w1 = (Ok None, w') ∧
        calls w' = calls w ++ poll_rounds k namespace name
           ++ (if decide (k < Datatypes.S n)%nat then [Jobs_Get_call namespace name] else []) ∧
        same_slices w w').
    { intros Ha w1 Hst Hc Hs.
      destruct (IH w1) as (k & w' & Hk & Hbefore & Hat & Hrun & Hcalls & Hs').
      exists (Datatypes.S k), w'. split; [lia|].
      split.
      { intros [|j] Hj; [done|]. rewrite absent_at_S, Hget. simpl.
        rewrite <- Hst. apply Hbefore. lia. }
      split.
      { intros Hlt. rewrite absent_at_S, Hget. simpl. rewrite <- Hst.
        apply Hat. lia. }
      split; [done|]. split; [|by eapply same_slices_trans].
      rewrite Hcalls, Hc. unfold poll_rounds. simpl. rewrite <- !app_assoc.
      do 2 f_equal.
      destruct (decide (k < n)%nat), (decide (Datatypes.S k < Datatypes.S n)%nat);
        try lia; done. }
    destruct r as [j|err]; simpl.
    + apply Hgo; [|done|by simpl; rewrite <- app_assoc|by repeat split].
      unfold absent_at. simpl. by rewrite Hget.
    + destruct (IsNotFound err) eqn:Hnf.
      * apply Hstop; [done|by repeat split|].
        unfold absent_at. simpl. by rewrite Hget.
      * apply Hgo; [|done|by simpl; rewrite <- app_assoc|by repeat split].
        unfold absent_at. simpl. by rewrite Hget.
Qed.

Lemma DeleteBatchJob_rejected (namespace name : string) (wait : bool)
    (w : World S) (err : error) (s1 : S) :
  Jobs_Delete namespace name foreground_delete (store w) = (Some err, s1) →
  k8sutil.DeleteBatchJob namespace name wait w =
    (Ok (if IsNotFound err then None
         else Some (k8sutil.Errorf_remove_previous name err)),
     mkWorld s1 (calls w ++ [Jobs_Delete_call namespace name foreground_delete])
       (logs w) (job2DeviceInfos w) (chunkserverConfigs w) (vars w)).
Proof.
  intros Hdel. unfold k8sutil.DeleteBatchJob. rewrite bind_run.
  unfold Jobs_Delete_, request. fold foreground_delete. rewrite Hdel.
  by destruct (IsNotFound err).
Qed.

Lemma DeleteBatchJob_accepted (namespace name : string) (w : World S) (s1 : S) :
  Jobs_Delete namespace name foreground_delete (store w) = (None, s1) →
  ∃ (k : nat) (w' : World S),
    (k ≤ 30)%nat ∧
    (∀ j, (j < k)%nat → absent_at j namespace name s1 = false) ∧
    ((k < 30)%nat → absent_at k namespace name s1 = true) ∧
    k8sutil.DeleteBatchJob namespace name true w = (Ok None, w') ∧
    calls w' = calls w ++ [Jobs_Delete_call namespace name foreground_delete]
               ++ poll_rounds k namespace name
               ++ (if decide (k < 30)%nat then [Jobs_Get_call namespace name] else []) ∧
    same_slices w w'.
Proof.
  intros Hdel. unfold k8sutil.DeleteBatchJob. rewrite bind_run.
  unfold Jobs_Delete_, request. fold foreground_delete. rewrite Hdel. simpl negb. cbv iota.
  set (w1 := mkWorld s1 _ _ _ _ _).
  destruct (DeleteBatchJob_poll_spec 30 namespace name w1)
    as (k & w' & Hk & Hbefore & Hat & Hrun & Hcalls & Hs).
  exists k, w'. repeat (split; [done|]). split; [|done].
  rewrite Hcalls. subst w1. simpl. by rewrite <- !app_assoc.
Qed.

(** C4. Bounded Deletion (DeleteBatchJob).  A "not found" answer to the
    delete request is success, whatever [wait] is.  When the delete is
    accepted and [wait] is true, the call checks the job's existence at most
    30 times with a sleep of 3 seconds after every check that still finds
    it: [k] is the number of checks that found it, check number [k] is the
    first one answered "not found" and the call returns success right after
    it; when all 30 checks find the job ([k = 30]) the call returns success
    as well, not an error. *)
Theorem DeleteBatchJob_bounded_deletion (namespace name : string) (w : World S) :
  (∀ (wait : bool) (err : error) (s1 : S),
     Jobs_Delete namespace name foreground_delete (store w) = (Some err, s1) →
     IsNotFound err = true →
     ∃ w' : World S,
       k8sutil.DeleteBatchJob namespace name wait w = (Ok None, w') ∧
       calls w' = calls w ++ [Jobs_Delete_call namespace name foreground_delete] ∧
       store w' = s1) ∧
  (∀ s1 : S,
     Jobs_Delete namespace name foreground_delete (store w) = (None, s1) →
     ∃ (k : nat) (w' : World S),
       (k ≤ 30)%nat ∧
       (∀ j, (j < k)%nat → absent_at j namespace name s1 = false) ∧
       ((k < 30)%nat → absent_at k namespace name s1 = true) ∧
       k8sutil.DeleteBatchJob namespace name true w = (Ok None, w') ∧
       calls w' = calls w ++ [Jobs_Delete_call namespace name foreground_delete]
                  ++ poll_rounds k namespace name
                  ++ (if decide (k < 30)%nat
                      then [Jobs_Get_call namespace name] else [])).
Proof.
  split.
  - intros wait err s1 Hdel Hnf. eexists. split.
    + rewrite (DeleteBatchJob_rejected _ _ _ _ _ _ Hdel), Hnf. reflexivity.
    + done.
  - intros s1 Hdel.
    destruct (DeleteBatchJob_accepted _ _ _ _ Hdel) as (k & w' & ? & ? & ? & ? & ? & _).
    by exists k, w'.
Qed.

(** C2. Replaceable Task Executor (RunReplaceableJob): when the lookup of
    the job's name succeeds, the job found has an active instance and
    [deleteIfFound] is false, the call returns nil and the lookup is the
    only request it issued: no delete, no create; the store is as the
    lookup left it. *)
Theorem RunReplaceableJob_active_is_noop (job existing : Job) (w : World S) (s1 : S) :
  Jobs_Get (Job_Namespace job) (Job_Name job) (store w) = (inl existing, s1) →
  0 < Active (Job_Status existing) →
  ∃ w' : World S,
    k8sutil.RunReplaceableJob job false w = (Ok None, w') ∧
    calls w' = calls w ++ [Jobs_Get_call (Job_Namespace job) (Job_Name job)] ∧
    store w' = s1 ∧
    same_slices w w'.
Proof.
  intros Hget Hactive. unfold k8sutil.RunReplaceableJob.
  rewrite bind_run. unfold Jobs_Get_, request at 1. rewrite Hget.
  assert ((0 <? Active (Job_Status existing)) = true) as -> by lia.
  simpl. eexists. split; [reflexivity|]. by repeat split.
Qed.

(** The poll loop again, with the store it leaves. *)
Lemma DeleteBatchJob_poll_store (n : nat) (namespace name : string) :
  ∀ w : World S,
  ∃ (k : nat) (w' : World S),
    (k ≤ n)%nat ∧
    (∀ j, (j < k)%nat → absent_at j namespace name (store w) = false) ∧
    ((k < n)%nat → absent_at k namespace name (store w) = true) ∧
    k8sutil.DeleteBatchJob_poll n (3 * Second) namespace name w = (Ok None, w') ∧
    calls w' = calls w ++ poll_rounds k namespace name
               ++ (if decide (k < n)%nat then [Jobs_Get_call namespace name] else []) ∧
    same_slices w w' ∧
    store w' = store_after_wait n k namespace name (store w).
Proof.
  induction n as [|n IH]; intros w.
  - exists O. eexists. split; [lia|]. split; [intros; lia|]. split; [intros; lia|].
    split; [reflexivity|]. simpl. rewrite !app_nil_r. split; [done|].
    split; [by repeat split|done].
  - simpl. rewrite bind_run. unfold Jobs_Get_, request at 1.
    destruct (Jobs_Get namespace name (store w)) as [r s1] eqn:Hget.
    assert (Hstop : ∀ w1 : World S,
      store w1 = s1 →
      calls w1 = calls w ++ [Jobs_Get_call namespace name] →
      same_slices w w1 →
      absent_at 0 namespace name (store w) = true →
      ∃ (k : nat) (w' : World S),
        (k ≤ Datatypes.S n)%nat ∧
        (∀ j, (j < k)%nat → absent_at j namespace name (store w) = false) ∧
        ((k < Datatypes.S n)%nat → absent_at k namespace name (store w) = true) ∧
        (Ok (None : option error), w1) = (Ok None, w') ∧
        calls w' = calls w ++ poll_rounds k namespace name
           ++ (if decide (k < Datatypes.S n)%nat then [Jobs_Get_call namespace name] else []) ∧
        same_slices w w' ∧
        store w' = store_after_wait (Datatypes.S n) k namespace name (store w)).
    { intros w1 Hst Hc Hs Ha. exists O, w1. split; [lia|]. split; [intros; lia|].
      split; [done|]. split; [done|]. split; [by rewrite decide_True by lia|].
      split; [done|]. unfold store_after_wait. cbn [store_after_rounds].
      destruct (decide (0 < Datatypes.S n)%nat); [|lia]. by rewrite Hget. }
    assert (Hgo : absent_at 0 namespace name (store w) = false →
      ∀ w1 : World S,
      store w1 = time_passes (3 * Second) s1 →
      calls w1 = calls w ++ poll_round namespace name →
      same_slices w w1 →
      ∃ (k : nat) (w' : World S),
        (k ≤ Datatypes.S n)%nat ∧
        (∀ j, (j < k)%nat → absent_at j namespace name (store w) = false) ∧
        ((k < Datatypes.S n)%nat → absent_at k namespace name (store w) = true) ∧
        k8sutil.DeleteBatchJob_poll n (3 * Second) namespace name w1 = (Ok None, w') ∧
        calls w' = calls w ++ poll_rounds k namespace name
           ++ (if decide (k < Datatypes.S n)%nat then [Jobs_Get_call namespace name] else []) ∧
        same_slices w w' ∧
        store w' = store_after_wait (Datatypes.S n) k namespace name (store w)).
    { intros Ha w1 Hst Hc Hs.
      destruct (IH w1) as (k & w' & Hk & Hbefore & Hat & Hrun & Hcalls & Hs' & Hstore).
      exists (Datatypes.S k), w'. split; [lia|].
      split.
      { intros [|j] Hj; [done|]. rewrite absent_at_S, Hget. simpl.
        rewrite <- Hst. apply Hbefore. lia. }
      split.
      { intros Hlt. rewrite absent_at_S, Hget. simpl. rewrite <- Hst.
        apply Hat. lia. }
      split; [done|].
      split.
      { rewrite Hcalls, Hc. unfold poll_rounds. simpl. rewrite <- !app_assoc.
        do 2 f_equal.
        destruct (decide (k < n)%nat), (decide (Datatypes.S k < Datatypes.S n)%nat);
          try lia; done. }
      split; [by eapply same_slices_trans|].
      rewrite Hstore, Hst. unfold store_after_wait. cbn [store_after_rounds].
      rewrite Hget. cbn [snd].
      destruct (decide (k < n)%nat), (decide (Datatypes.S k < Datatypes.S n)%nat);
        try lia; done. }
    destruct r as [j|err]; simpl.
    + apply Hgo; [|done|by simpl; rewrite <- app_assoc|by repeat split].
      unfold absent_at. simpl. by rewrite Hget.
    + destruct (IsNotFound err) eqn:Hnf.
      * apply Hstop; [done|done|by repeat split|].
        unfold absent_at. simpl. by rewrite Hget.
      * apply Hgo; [|done|by simpl; rewrite <- app_assoc|by repeat split].
        unfold absent_at. simpl. by rewrite Hget.
Qed.

Lemma DeleteBatchJob_accepted_store (namespace name : string) (w : World S) (s1 : S) :
  Jobs_Delete namespace name foreground_delete (store w) = (None, s1) →
  ∃ (k : nat) (w' : World S),
    (k ≤ 30)%nat ∧
    (∀ j, (j < k)%nat → absent_at j namespace name s1 = false) ∧
    ((k < 30)%nat → absent_at k namespace name s1 = true) ∧
    k8sutil.DeleteBatchJob namespace name true w = (Ok None, w') ∧
    calls w' = calls w ++ [Jobs_Delete_call namespace name foreground_delete]
               ++ poll_rounds k namespace name
               ++ (if decide (k < 30)%nat then [Jobs_Get_call namespace name] else []) ∧
    same_slices w w' ∧
    store w' = store_after_wait 30 k namespace name s1.
Proof.
  intros Hdel. unfold k8sutil.DeleteBatchJob. rewrite bind_run.
  unfold Jobs_Delete_, request. fold foreground_delete. rewrite Hdel. simpl negb. cbv iota.
  set (w1 := mkWorld s1 _ _ _ _ _).
  destruct (DeleteBatchJob_poll_store 30 namespace name w1)
    as (k & w' & Hk & Hbefore & Hat & Hrun & Hcalls & Hs & Hstore).
  exists k, w'. repeat (split; [done|]). split; [|by split].
  rewrite Hcalls. subst w1. simpl. by rewrite <- !app_assoc.
Qed.

(** C3. RunReplaceableJob when the lookup succeeds and the job found has no
    active instance or [deleteIfFound] is set.  One delete request is
    issued (foreground), for the name of the job found, with the
    synchronous wait of DeleteBatchJob.  When the delete is accepted, the
    wait is [k] rounds of an existence check and a sleep of three seconds,
    [k] at most 30 and the number of checks that still found the job, and,
    if it ended before the 30th round, the check that found the job gone;
    then one create request for the new definition is issued, in the store
    the wait left, and its answer is returned.  When the delete is answered
    "not found" there is nothing to wait for and the create follows at
    once.  When the delete fails with any other error, the error is
    returned wrapped twice, no create request is issued, and the store is
    as the failed delete left it. *)
Theorem RunReplaceableJob_replaces (job existing : Job) (deleteIfFound : bool)
    (w : World S) (s1 s2 : S) (e : option error) :
  Jobs_Get (Job_Namespace job) (Job_Name job) (store w) = (inl existing, s1) →
  Active (Job_Status existing) ≤ 0 ∨ deleteIfFound = true →
  Jobs_Delete (Job_Namespace job) (Job_Name existing) foreground_delete s1 = (e, s2) →
  let ns := Job_Namespace job in
  let lookup := Jobs_Get_call ns (Job_Name job) in
  let del := Jobs_Delete_call ns (Job_Name existing) foreground_delete in
  let create := Jobs_Create_call ns job in
  match e with
  | Some err =>
      if IsNotFound err then
        ∃ (r : result Job) (s4 : S) (w' : World S),
          Jobs_Create ns job s2 = (r, s4) ∧
          k8sutil.RunReplaceableJob job deleteIfFound w =
            (Ok (match r with inl _ => None | inr err => Some err end), w') ∧
          calls w' = calls w ++ [lookup; del; create] ∧
          store w' = s4 ∧
          same_slices w w'
      else
        ∃ w' : World S,
          k8sutil.RunReplaceableJob job deleteIfFound w =
            (Ok (Some (k8sutil.Errorf_remove_job (Job_Name job)
                         (k8sutil.Errorf_remove_previous (Job_Name existing) err))), w') ∧
          calls w' = calls w ++ [lookup; del] ∧
          store w' = s2 ∧
          same_slices w w'
  | None =>
      ∃ (k : nat) (r : result Job) (s4 : S) (w' : World S),
        (k ≤ 30)%nat ∧
        (∀ j, (j < k)%nat → absent_at j ns (Job_Name existing) s2 = false) ∧
        ((k < 30)%nat → absent_at k ns (Job_Name existing) s2 = true) ∧
        Jobs_Create ns job (store_after_wait 30 k ns (Job_Name existing) s2) = (r, s4) ∧
        k8sutil.RunReplaceableJob job deleteIfFound w =
          (Ok (match r with inl _ => None | inr err => Some err end), w') ∧
        calls w' = calls w ++ [lookup; del]
                   ++ poll_rounds k ns (Job_Name existing)
                   ++ (if decide (k < 30)%nat
                       then [Jobs_Get_call ns (Job_Name existing)] else [])
                   ++ [create] ∧
        store w' = s4 ∧
        same_slices w w'
  end.
Proof.
  intros Hget Hcond Hdel ns lookup del create.
  assert (Hguard : (0 <? Active (Job_Status existing)) && negb deleteIfFound = false).
  { destruct Hcond as [Hle| ->]; [|by rewrite andb_false_r].
    assert ((0 <? Active (Job_Status existing)) = false) as -> by lia. done. }
  assert (Hstart : k8sutil.RunReplaceableJob job deleteIfFound w =
    (let create : M S (option error) :=
       r ← Jobs_Create_ (Job_Namespace job) job;
       mret (match r with inl _ => None | inr err => Some err end) in
     e ← k8sutil.DeleteBatchJob (Job_Namespace job) (Job_Name existing) true;
     match e with
     | Some err => mret (Some (k8sutil.Errorf_remove_job (Job_Name job) err))
     | None => create
     end)
      (mkWorld s1 (calls w ++ [lookup])
         (logs w ++ [Build_LogEntry Info "Removing previous job %s to start a new one"
                       [ArgS (Job_Name job)]])
         (job2DeviceInfos w) (chunkserverConfigs w) (vars w))).
  { unfold k8sutil.RunReplaceableJob. rewrite bind_run.
    unfold Jobs_Get_, request at 1. rewrite Hget, Hguard. reflexivity. }
  rewrite Hstart. clear Hstart. cbv zeta. rewrite bind_run.
  set (w1 := mkWorld s1 _ _ _ _ _).
  assert (Hcreate : ∀ (pre : list Call) (w2 : World S),
    calls w2 = calls w ++ pre →
    same_slices w w2 →
    ∃ (r : result Job) (s4 : S) (w' : World S),
      Jobs_Create ns job (store w2) = (r, s4) ∧
      (r ← Jobs_Create_ (Job_Namespace job) job;
       mret (match r with inl _ => None | inr err => Some err end)) w2 =
        (Ok (match r with inl _ => None | inr err => Some err end), w') ∧
      calls w' = calls w ++ pre ++ [create] ∧
      store w' = s4 ∧
      same_slices w w').
  { intros pre w2 Hcalls Hs. rewrite bind_run. unfold Jobs_Create_, request.
    fold ns. destruct (Jobs_Create ns job (store w2)) as [r s4] eqn:Hcr.
    exists r, s4. eexists.
    split; [done|]. split; [reflexivity|]. simpl.
    split; [by rewrite Hcalls, <- !app_assoc|]. split; [done|].
    destruct Hs as (?&?&?). by repeat split. }
  destruct e as [err|].
  - rewrite (DeleteBatchJob_rejected _ _ true w1 err s2 Hdel).
    destruct (IsNotFound err).
    + destruct (Hcreate [lookup; del]
                  (mkWorld s2 (calls w1 ++ [del]) (logs w1) (job2DeviceInfos w1)
                     (chunkserverConfigs w1) (vars w1)))
        as (r & s4 & w' & Hcr & Hrun & Hcalls & Hstore & Hs).
      { simpl. by rewrite <- app_assoc. }
      { by repeat split. }
      exists r, s4, w'. split; [exact Hcr|]. split; [exact Hrun|].
      split; [exact Hcalls|]. split; [exact Hstore|exact Hs].
    + eexists. split; [reflexivity|]. simpl.
      split; [by rewrite <- app_assoc|]. by repeat split.
  - destruct (DeleteBatchJob_accepted_store _ _ w1 s2 Hdel)
      as (k & w2 & Hk & Hbefore & Hat & Hrun & Hcalls & Hs & Hstore).
    rewrite Hrun.
    destruct (Hcreate ([lookup; del] ++ poll_rounds k ns (Job_Name existing)
                       ++ (if decide (k < 30)%nat
                           then [Jobs_Get_call ns (Job_Name existing)] else [])) w2)
      as (r & s4 & w' & Hcr & Hrun' & Hcalls' & Hstore' & Hs').
    { rewrite Hcalls. subst w1. simpl. by rewrite <- !app_assoc. }
    { eapply same_slices_trans; [|exact Hs]. by repeat split. }
    exists k, r, s4, w'. split; [done|]. split; [done|]. split; [done|].
    split; [rewrite Hstore in Hcr; exact Hcr|]. split; [exact Hrun'|].
    split; [by rewrite Hcalls', <- !app_assoc|]. by split.
Qed.


Lemma sends_app (l1 l2 : list Call) : sends (l1 ++ l2) = sends l1 ++ sends l2.
Proof. unfold sends. apply omap_app. Qed.

(** C5, as amended.  Completion Barrier Watcher (CheckJobStatus), for every
    sequence [ready] of select events and every store: after some number
    [n] of ticks whose fetch finds the job without a successful completion,
    (1) the events are used up: nothing was sent and the goroutine is still
    parked in [select]; or (2) the deadline case is taken: [false] is sent
    and the goroutine returns; or (3) a tick's fetch fails: [false] is sent
    and it returns, without a retry; or (4) a tick's fetch shows
    [Succeeded > 0]: [true] is sent and it returns.  So at most one value is
    ever sent, exactly one when the goroutine returns, and the requests
    before it are the fetches only. *)
Theorem CheckJobStatus_single_shot (ready : list k8sutil.SelectCase)
    (namespace jobName : string) (w : World S) :
  ∃ (n : nat) (s' : S) (o : outcome ()) (w' : World S),
    k8sutil.CheckJobStatus ready namespace jobName w = (o, w') ∧
    idle_ticks namespace jobName n (store w) s' ∧
    same_slices w w' ∧
    let fetches k := replicate k (Jobs_Get_call namespace jobName) in
    ((ready = replicate n k8sutil.ticker_C ∧ o = Blocked ∧
      calls w' = calls w ++ fetches n ∧
      sends (calls w') = sends (calls w))
     ∨ (∃ rest,
          ready = replicate n k8sutil.ticker_C ++ k8sutil.ctx_Done :: rest ∧
          o = Ok () ∧
          calls w' = calls w ++ fetches n ++ [ChanSend_call false] ∧
          sends (calls w') = sends (calls w) ++ [false])
     ∨ (∃ rest err s2,
          ready = replicate n k8sutil.ticker_C ++ k8sutil.ticker_C :: rest ∧
          Jobs_Get namespace jobName s' = (inr err, s2) ∧
          o = Ok () ∧
          calls w' = calls w ++ fetches (Datatypes.S n) ++ [ChanSend_call false] ∧
          sends (calls w') = sends (calls w) ++ [false])
     ∨ (∃ rest j s2,
          ready = replicate n k8sutil.ticker_C ++ k8sutil.ticker_C :: rest ∧
          Jobs_Get namespace jobName s' = (inl j, s2) ∧
          0 < Succeeded (Job_Status j) ∧
          o = Ok () ∧
          calls w' = calls w ++ fetches (Datatypes.S n) ++ [ChanSend_call true] ∧
          sends (calls w') = sends (calls w) ++ [true])).
Proof.
  revert w. induction ready as [|[|] ready IH]; intros w.
  - exists O, (store w), Blocked, w. split; [done|]. split; [constructor|].
    split; [by repeat split|]. left. simpl. by rewrite app_nil_r.
  - cbn [k8sutil.CheckJobStatus]. rewrite bind_logger.
    destruct (Jobs_Get namespace jobName (store w)) as [[j|err] s1] eqn:Hget.
    + unfold Jobs_Get_. erewrite bind_request; [|exact Hget]. cbv beta iota.
      destruct (0 <? Succeeded (Job_Status j)) eqn:Hs.
      * rewrite bind_logger.
        exists O, (store w). do 2 eexists. split; [reflexivity|].
        split; [constructor|]. split; [by repeat split|].
        right; right; right. exists ready, j, s1.
        split; [done|]. split; [done|]. split; [lia|]. split; [done|].
        simpl. rewrite <- !app_assoc. split; [done|]. by rewrite !sends_app.
      * rewrite bind_logger.
        set (w1 := logged (called (logged w _) _ s1) _).
        destruct (IH w1) as (n & s' & o & w' & Hrun & Hidle & Hsl & Hcases).
        exists (Datatypes.S n), s', o, w'. split; [done|].
        split. { econstructor; [exact Hget|lia|exact Hidle]. }
        split. { eapply same_slices_trans; [|exact Hsl]. by repeat split. }
        assert (Hc1 : calls w1 = calls w ++ [Jobs_Get_call namespace jobName]) by done.
        assert (Hs1 : sends (calls w1) = sends (calls w)).
        { rewrite Hc1, sends_app. simpl. by rewrite app_nil_r. }
        cbv zeta in Hcases |- *.
        destruct Hcases as [(-> & -> & Hc & Hsd)|[(rest & -> & -> & Hc & Hsd)
          |[(rest & err & s2 & -> & Hg & -> & Hc & Hsd)
           |(rest & j' & s2 & -> & Hg & Hpos & -> & Hc & Hsd)]]].
        -- left. split; [done|]. split; [done|].
           split; [rewrite Hc, Hc1; by rewrite <- app_assoc|by rewrite Hsd, Hs1].
        -- right; left. exists rest. split; [done|]. split; [done|].
           split; [rewrite Hc, Hc1; by rewrite <- app_assoc|by rewrite Hsd, Hs1].
        -- right; right; left. exists rest, err, s2. split; [done|].
           split; [done|]. split; [done|].
           split; [rewrite Hc, Hc1; by rewrite <- app_assoc|by rewrite Hsd, Hs1].
        -- right; right; right. exists rest, j', s2. split; [done|].
           split; [done|]. split; [done|]. split; [done|].
           split; [rewrite Hc, Hc1; by rewrite <- app_assoc|by rewrite Hsd, Hs1].
    + unfold Jobs_Get_. erewrite bind_request; [|exact Hget]. cbv beta iota.
      rewrite bind_logger.
      exists O, (store w). do 2 eexists. split; [reflexivity|].
      split; [constructor|]. split; [by repeat split|].
      right; right; left. exists ready, err, s1.
      split; [done|]. split; [done|]. split; [done|].
      simpl. rewrite <- !app_assoc. split; [done|]. by rewrite !sends_app.
  - exists O, (store w). do 2 eexists. split; [reflexivity|].
    split; [constructor|]. split; [by repeat split|].
    right; left. exists ready. split; [done|]. split; [done|].
    simpl. split; [done|]. by rewrite !sends_app.
Qed.

End k8sutil_facts.

(** ** Proofs: the planner *)

Lemma foldl_note_neutral (new : list LogEntry) (acc : list (string * string * bool)) :
  Forall neutral new → foldl note acc new = acc.
Proof.
  induction 1 as [|e new [Hc Hf] _ IH]; [done|]. simpl. rewrite <- IH at 2.
  f_equal. unfold note. rewrite !decide_False; done.
Qed.

(** *** Arithmetic of Go ints *)






(** *** The records as lists *)

Lemma device_records_length (node : string) (host : Z)
    (outs : list (curvev1.DevicesSpec * bool)) :
  ∀ p r, length (device_records node host p r outs) = successes outs.
Proof.
  unfold successes.
  induction outs as [|[d [|]] outs IH]; intros p r; cbn [device_records]; [done| |].
  - rewrite filter_cons_True by done. simpl. by rewrite IH.
  - rewrite filter_cons_False by done. apply IH.
Qed.

Lemma successes_le (outs : list (curvev1.DevicesSpec * bool)) :
  (successes outs ≤ length outs)%nat.
Proof. unfold successes. apply length_filter. Qed.

Lemma device_records_names (node : string) (host : Z)
    (outs : list (curvev1.DevicesSpec * bool)) :
  ∀ p r,
  map (λ s, (s_node s, s_device s)) (device_records node host p r outs)
  = map fst (filter (λ x : string * string * bool, x.2 = true)
               (map (λ y : curvev1.DevicesSpec * bool,
                       (node, curvev1.Name y.1, y.2)) outs)).
Proof.
  induction outs as [|[d [|]] outs IH]; intros p r; cbn [device_records map];
    [done| |].
  - rewrite filter_cons_True by done. cbn [map fst]. by rewrite <- (IH (Go.incr p) (Go.incr r)).
  - rewrite filter_cons_False by done. apply IH.
Qed.

Lemma node_records_names (host base : Z)
    (outss : list (K8s.Node * list (curvev1.DevicesSpec * bool))) :
  map (λ s, (s_node s, s_device s)) (node_records host base outss)
  = map fst (filter (λ x : string * string * bool, x.2 = true) (told outss)).
Proof.
  revert host. induction outss as [|[node outs] outss IH]; intros host; [done|].
  unfold told in *. simpl. rewrite map_app, filter_app, map_app.
  by rewrite device_records_names, IH.
Qed.





Lemma node_records_length (host base : Z)
    (outss : list (K8s.Node * list (curvev1.DevicesSpec * bool))) (bound : nat) :
  Forall (λ x : K8s.Node * list (curvev1.DevicesSpec * bool),
            (length x.2 ≤ bound)%nat) outss →
  (length (node_records host base outss) ≤ length outss * bound)%nat.
Proof.
  intros Hall. revert host. induction Hall as [|[node outs] outss Hlen _ IH];
    intros host; simpl; [lia|].
  rewrite length_app, device_records_length.
  pose proof (successes_le outs). specialize (IH (Go.incr host)). simpl in Hlen. lia.
Qed.

Lemma told_elem (outss : list (K8s.Node * list (curvev1.DevicesSpec * bool)))
    (n d : string) (ok : bool) :
  In (n, d, ok) (told outss) →
  ∃ x y, In x outss ∧ In y x.2 ∧ n = Node_Name x.1 ∧ d = curvev1.Name y.1 ∧ ok = y.2.
Proof.
  unfold told. rewrite in_flat_map. intros (x & Hx & Hin).
  apply in_map_iff in Hin as (y & Heq & Hy). injection Heq as <- <- <-.
  by exists x, y.
Qed.



Section chunkserver_facts.
Context {S : Type} `{!Clientset S} `{!chunkserver.Collaborators S}.

(** runPrepareJob touches neither slice, logs nothing the planner's two
    lines could be taken for, and never parks. *)
Lemma runPrepareJob_frame (c : chunkserver.Cluster) (nodeName : string)
    (d : curvev1.DevicesSpec) (w : World S) :
  ∃ (o : outcome (Job * option error)) (w' : World S),
    chunkserver.runPrepareJob c nodeName d w = (o, w') ∧
    same_slices w w' ∧
    o ≠ Blocked ∧
    ∃ new, logs w' = logs w ++ new ∧ Forall neutral new.
Proof.
  unfold chunkserver.runPrepareJob.
  destruct (chunkserver.makeJob c nodeName d) as [job|err].
  2:{ do 2 eexists. split; [reflexivity|]. split; [by repeat split|].
      split; [done|]. exists []. by rewrite app_nil_r. }
  cbv zeta.
  assert (Hcreate : ∀ w1 new1,
    same_slices w w1 → logs w1 = logs w ++ new1 → Forall neutral new1 →
    ∃ (o : outcome (Job * option error)) (w' : World S),
      (r ← Jobs_Create_ (Job_Namespace job) job;
       mret (job, match r with inl _ => None | inr err => Some err end)) w1 = (o, w') ∧
      same_slices w w' ∧ o ≠ Blocked ∧
      ∃ new, logs w' = logs w ++ new ∧ Forall neutral new).
  { intros w1 new1 Hs Hl Hn. unfold Jobs_Create_.
    destruct (Jobs_Create (Job_Namespace job) job (store w1)) as [r s2] eqn:Hcr.
    erewrite bind_request; [|exact Hcr]. do 2 eexists. split; [reflexivity|].
    split. { destruct Hs as (?&?&?). by repeat split. }
    split; [done|]. exists new1. by split. }
  destruct (Jobs_Get (Job_Namespace job) (Job_Name job) (store w)) as [[existingJob|err] s1] eqn:Hget;
    unfold Jobs_Get_; (erewrite bind_request; [|exact Hget]); cbv beta iota.
  - destruct (0 <? Active (Job_Status existingJob)).
    + rewrite bind_logger. do 2 eexists. split; [reflexivity|].
      split; [by repeat split|]. split; [done|]. eexists. split; [reflexivity|].
      repeat constructor; discriminate.
    + apply (Hcreate _ []); [by repeat split|by rewrite app_nil_r|constructor].
  - destruct (IsNotFound err); cbv beta iota delta [negb].
    + apply (Hcreate _ []); [by repeat split|by rewrite app_nil_r|constructor].
    + rewrite bind_logger. eapply Hcreate; [by repeat split|reflexivity|].
      repeat constructor; discriminate.
Qed.

(** One iteration of the device loop. *)
Lemma provisionDevice_spec (c : chunkserver.Cluster) (a : chunkserver.Addresses)
    (node : K8s.Node) (nodeIP : string) (host : Z) (dv : ptr) (p r : Z)
    (d : curvev1.DevicesSpec) (w : World S) :
  ∃ (o : outcome (Z * Z)) (w' : World S),
    chunkserver.provisionDevice c a node nodeIP host dv (p, r) d w = (o, w') ∧
    match o with
    | Ok st' =>
        ∃ (ok : bool) (new : list LogEntry),
          st' = (if ok then (Go.incr p, Go.incr r) else (p, r)) ∧
          map summary (chunkserverConfigs w') =
            map summary (chunkserverConfigs w)
            ++ device_records (Node_Name node) host p r [(d, ok)] ∧
          map nodeName (job2DeviceInfos w') =
            map nodeName (job2DeviceInfos w)
            ++ (if ok then [Node_Name node] else []) ∧
          logs w' = logs w ++ new ∧
          ∀ acc, foldl note acc new = (Node_Name node, curvev1.Name d, ok) :: acc
    | Panic _ =>
        chunkserverConfigs w' = chunkserverConfigs w ∧
        job2DeviceInfos w' = job2DeviceInfos w ∧
        ∃ new, logs w' = logs w ++ new
    | Blocked => False
    end.
Proof.
  unfold chunkserver.provisionDevice.
  erewrite bind_step; [|reflexivity]. rewrite bind_logger.
  set (w0 := logged _ _).
  destruct (runPrepareJob_frame c (Node_Name node) d w0)
    as (o & w1 & Hrun & (Hi & Hc & Hv) & Hnb & new & Hl & Hn).
  rewrite bind_run, Hrun.
  assert (Hnote : ∀ acc tail, Forall neutral tail →
    foldl note acc
      ([Build_LogEntry Info "creating job for device %s on %s"
          [ArgS (curvev1.Name d); ArgS (Node_Name node)]] ++ new ++ tail)
    = (Node_Name node, curvev1.Name d, true) :: acc).
  { intros acc tail Ht. rewrite foldl_app. simpl.
    rewrite foldl_note_neutral; [done|]. by apply Forall_app. }
  destruct o as [[job [err|]]|msg|]; [| | |done].
  - rewrite bind_logger. do 2 eexists. split; [reflexivity|].
    exists false,
      ([Build_LogEntry Info "creating job for device %s on %s"
          [ArgS (curvev1.Name d); ArgS (Node_Name node)]] ++ new
       ++ [Build_LogEntry Error_level "failed to create job for device %s on %s-%v"
             [ArgS (curvev1.Name d); ArgS (Node_Name node); ArgErr err]]).
    split; [done|]. simpl.
    rewrite Hc, Hi, !app_nil_r. split; [done|]. split; [done|].
    split. { rewrite Hl. subst w0. simpl. by rewrite <- !app_assoc. }
    intros acc. rewrite foldl_app. simpl.
    rewrite (foldl_note_neutral new); [|done]. done.
  - erewrite bind_step; [|reflexivity]. erewrite bind_step; [|reflexivity].
    do 2 eexists. split; [reflexivity|].
    exists true,
      ([Build_LogEntry Info "creating job for device %s on %s"
          [ArgS (curvev1.Name d); ArgS (Node_Name node)]] ++ new).
    split; [done|]. simpl.
    rewrite Hc, Hi, !map_app. split; [done|]. split; [done|].
    split. { rewrite Hl. subst w0. simpl. by rewrite <- !app_assoc. }
    intros acc. specialize (Hnote acc [] (Forall_nil_2 _)).
    rewrite app_nil_r in Hnote. exact Hnote.
  - do 2 eexists. split; [reflexivity|]. rewrite Hc, Hi. split; [done|].
    split; [done|]. eexists. rewrite Hl. subst w0. simpl.
    rewrite <- app_assoc. reflexivity.
Qed.

Lemma for_range_cons {A B} (x : A) (l : list A) (body : B → A → M S B) (b : B)
    (w : World S) :
  chunkserver.for_range (x :: l) body b w =
  match body b x w with
  | (Ok b', w') => chunkserver.for_range l body b' w'
  | (Panic msg, w') => (Panic msg, w')
  | (Blocked, w') => (Blocked, w')
  end.
Proof. reflexivity. Qed.

(** The device loop of one node, from port [p] and replica sequence [r]:
    [outs] lists the devices handled, each with the fate of its submission,
    [rest] the devices a panic kept the loop from reaching. *)
Lemma device_loop_spec (c : chunkserver.Cluster) (a : chunkserver.Addresses)
    (node : K8s.Node) (nodeIP : string) (host : Z) (dv : ptr)
    (ds : list curvev1.DevicesSpec) :
  ∀ (p r : Z) (w : World S),
  ∃ (o : outcome (Z * Z)) (w' : World S)
    (outs : list (curvev1.DevicesSpec * bool)) (rest : list curvev1.DevicesSpec),
    chunkserver.for_range ds (chunkserver.provisionDevice c a node nodeIP host dv)
      (p, r) w = (o, w') ∧
    ds = map fst outs ++ rest ∧
    map summary (chunkserverConfigs w') =
      map summary (chunkserverConfigs w)
      ++ device_records (Node_Name node) host p r outs ∧
    map nodeName (job2DeviceInfos w') =
      map nodeName (job2DeviceInfos w)
      ++ map s_node (device_records (Node_Name node) host p r outs) ∧
    ∃ new, logs w' = logs w ++ new ∧
    match o with
    | Ok _ =>
        rest = [] ∧
        ∀ acc, foldl note acc new =
               rev (map (λ y : curvev1.DevicesSpec * bool,
                           (Node_Name node, curvev1.Name y.1, y.2)) outs) ++ acc
    | Panic _ => True
    | Blocked => False
    end.
Proof.
  induction ds as [|d ds IH]; intros p r w.
  - exists (Ok (p, r)), w, [], []. split; [done|]. split; [done|]. simpl.
    rewrite !app_nil_r. split; [done|]. split; [done|]. exists [].
    rewrite app_nil_r. done.
  - rewrite for_range_cons.
    destruct (provisionDevice_spec c a node nodeIP host dv p r d w)
      as (o1 & w1 & Hrun1 & Hpost). rewrite Hrun1.
    destruct o1 as [st'|msg|]; [| |done].
    + destruct Hpost as (ok & new1 & -> & Hc1 & Hi1 & Hl1 & Hn1).
      destruct (IH (if ok then Go.incr p else p) (if ok then Go.incr r else r) w1)
        as (o & w' & outs & rest & Hrun & Hds & Hc & Hi & new & Hl & Hpost).
      exists o, w', ((d, ok) :: outs), rest.
      split. { destruct ok; exact Hrun. }
      split. { simpl. by rewrite Hds. }
      split. { rewrite Hc, Hc1. rewrite <- app_assoc. f_equal. by destruct ok. }
      split. { rewrite Hi, Hi1. rewrite <- app_assoc. f_equal. by destruct ok. }
      exists (new1 ++ new). split. { rewrite Hl, Hl1. by rewrite <- app_assoc. }
      destruct o as [st|msg|]; [|done|done].
      destruct Hpost as [-> Hn]. split; [done|]. intros acc.
      rewrite foldl_app, Hn1, Hn. simpl. by rewrite <- app_assoc.
    + destruct Hpost as (Hc1 & Hi1 & new1 & Hl1).
      exists (Panic msg), w1, [], (d :: ds). split; [done|]. split; [done|].
      simpl. rewrite Hc1, Hi1, !app_nil_r. split; [done|]. split; [done|].
      by exists new1.
Qed.

(** The node loop from host sequence [host] on. *)
Lemma node_loop_spec (c : chunkserver.Cluster) (nodeNameIP : gmap string string)
    (a : chunkserver.Addresses) (nodes : list K8s.Node) :
  let devices := curvev1.Devices (curvev1.Storage (chunkserver.spec c)) in
  let base := curvev1.Port (curvev1.Storage (chunkserver.spec c)) in
  ∀ (host : Z) (w : World S),
  ∃ (o : outcome Z) (w' : World S)
    (outss : list (K8s.Node * list (curvev1.DevicesSpec * bool)))
    (rest : list K8s.Node),
    chunkserver.for_range nodes (chunkserver.provisionNode c nodeNameIP a) host w
      = (o, w') ∧
    nodes = map fst outss ++ rest ∧
    Forall (λ x : K8s.Node * list (curvev1.DevicesSpec * bool),
              ∃ rest', devices = map fst x.2 ++ rest') outss ∧
    map summary (chunkserverConfigs w') =
      map summary (chunkserverConfigs w) ++ node_records host base outss ∧
    map nodeName (job2DeviceInfos w') =
      map nodeName (job2DeviceInfos w) ++ map s_node (node_records host base outss) ∧
    ∃ new, logs w' = logs w ++ new ∧
    match o with
    | Ok _ =>
        rest = [] ∧
        Forall (λ x : K8s.Node * list (curvev1.DevicesSpec * bool),
                  map fst x.2 = devices) outss ∧
        ∀ acc, foldl note acc new = rev (told outss) ++ acc
    | Panic _ => True
    | Blocked => False
    end.
Proof.
  intros devices base. induction nodes as [|node nodes IH]; intros host w.
  - exists (Ok host), w, [], []. split; [done|]. split; [done|].
    split; [constructor|]. simpl. rewrite !app_nil_r. split; [done|].
    split; [done|]. exists []. rewrite app_nil_r. done.
  - rewrite for_range_cons. unfold chunkserver.provisionNode at 1.
    erewrite bind_step; [|reflexivity].
    set (w0 := mkWorld _ _ _ _ _ _).
    destruct (device_loop_spec c a node (Go.index nodeNameIP (Node_Name node)) host
                (length (vars w)) devices base 0 w0)
      as (o1 & w1 & outs & rest1 & Hrun1 & Hds1 & Hc1 & Hi1 & new1 & Hl1 & Hpost1).
    rewrite bind_run. fold devices base. rewrite Hrun1.
    destruct o1 as [st|msg|]; [| |done].
    + destruct Hpost1 as [-> Hn1]. rewrite app_nil_r in Hds1.
      cbv beta iota. rewrite ret_run.
      destruct (IH (Go.incr host) w1)
        as (o & w' & outss & rest & Hrun & Hns & Hpre & Hc & Hi & new & Hl & Hpost).
      exists o, w', ((node, outs) :: outss), rest.
      split; [done|]. split. { simpl. by rewrite Hns. }
      split. { constructor; [|done]. exists []. by rewrite app_nil_r. }
      split. { rewrite Hc, Hc1. simpl. by rewrite <- app_assoc. }
      split. { rewrite Hi, Hi1. simpl. by rewrite map_app, <- app_assoc. }
      exists (new1 ++ new). split. { rewrite Hl, Hl1. by rewrite <- app_assoc. }
      destruct o as [h|msg|]; [|done|done].
      destruct Hpost as (-> & Hall & Hn). split; [done|].
      split; [by constructor|]. intros acc.
      rewrite foldl_app, Hn1, Hn. unfold told. simpl.
      by rewrite rev_app_distr, <- app_assoc.
    + exists (Panic msg), w1, [(node, outs)], nodes.
      split; [done|]. split; [done|].
      split. { constructor; [|constructor]. by exists rest1. }
      simpl. rewrite !app_nil_r. split; [done|]. split; [done|].
      by exists new1.
Qed.

Lemma submissions_neutral_app (pre new : list LogEntry) :
  Forall neutral pre → submissions (pre ++ new) = rev (foldl note [] new).
Proof.
  intros Hpre. unfold submissions. by rewrite foldl_app, (foldl_note_neutral pre).
Qed.

Lemma submissions_neutral (pre : list LogEntry) :
  Forall neutral pre → submissions pre = [].
Proof. intros Hpre. unfold submissions. by rewrite foldl_note_neutral. Qed.

(** createFormatConfigMap returns, touches neither slice and logs nothing. *)
Lemma createFormatConfigMap_frame (c : chunkserver.Cluster) (w : World S) :
  ∃ (e : option error) (w' : World S),
    chunkserver.createFormatConfigMap c w = (Ok e, w') ∧
    same_slices w w' ∧ logs w' = logs w.
Proof.
  unfold chunkserver.createFormatConfigMap.
  destruct (chunkserver.SetControllerReference _ _) as [refs|err].
  2:{ do 2 eexists. split; [reflexivity|]. by repeat split. }
  cbv zeta. unfold ConfigMaps_Create_.
  match goal with |- context [request ?c ?op] =>
    destruct (op (store w)) as [r s1] eqn:Hcr end.
  erewrite bind_request; [|exact Hcr].
  destruct r as [cm|err]; [|destruct (IsAlreadyExists err)];
    do 2 eexists; (split; [reflexivity|]); by repeat split.
Qed.

(** A planning run in explicit node-selection mode.  [outss] lists the
    valid nodes the node loop handled, each with the devices its device
    loop handled and the fate of every submission. *)
Lemma planner_spec (c : chunkserver.Cluster) (nodeNameIP : gmap string string)
    (w : World S) :
  let devices := curvev1.Devices (curvev1.Storage (chunkserver.spec c)) in
  let base := curvev1.Port (curvev1.Storage (chunkserver.spec c)) in
  curvev1.UseSelectedNodes (curvev1.Storage (chunkserver.spec c)) = false →
  ∃ (o : outcome (option error)) (w' : World S)
    (outss : list (K8s.Node * list (curvev1.DevicesSpec * bool)))
    (rest : list K8s.Node) (new : list LogEntry),
    chunkserver.startProvisioningOverNodes c nodeNameIP w = (o, w') ∧
    valid_nodes c (store w) = map fst outss ++ rest ∧
    Forall (λ x : K8s.Node * list (curvev1.DevicesSpec * bool),
              ∃ rest', devices = map fst x.2 ++ rest') outss ∧
    map summary (chunkserverConfigs w') = node_records 0 base outss ∧
    map nodeName (job2DeviceInfos w') = map s_node (node_records 0 base outss) ∧
    logs w' = logs w ++ new ∧
    match o with
    | Ok e =>
        Forall (λ x : K8s.Node * list (curvev1.DevicesSpec * bool),
                  map fst x.2 = devices) outss ∧
        submissions new = told outss ∧
        ((e = None ∧ rest = []) ∨
         (outss = [] ∧ (is_Some e ∨ valid_nodes c (store w) = [])))
    | Panic _ => True
    | Blocked => False
    end.
Proof.
  intros devices base Hmode. unfold chunkserver.startProvisioningOverNodes.
  rewrite Hmode. cbv beta iota zeta delta [negb].
  erewrite bind_step; [|reflexivity].
  set (w0 := mkWorld _ _ _ _ _ _).
  unfold valid_nodes, chunkserver.GetNodeHostNames_.
  destruct (chunkserver.GetNodeHostNames (store w)) as [[hostnameMap|err] s1] eqn:Hhosts.
  2:{ erewrite bind_request; [|exact Hhosts].
      do 2 eexists. exists [], [], []. split; [reflexivity|].
      split; [done|]. split; [constructor|]. split; [done|]. split; [done|].
      split; [by rewrite app_nil_r|]. split; [constructor|]. split; [done|].
      right. split; [done|]. by left. }
  erewrite bind_request; [|exact Hhosts]. cbv beta iota.
  unfold chunkserver.GetValidNodes_.
  destruct (chunkserver.GetValidNodes _ s1) as [[validNodes ev] s2] eqn:Hvalid.
  erewrite bind_request; [|exact Hvalid]. cbv beta iota. simpl fst.
  destruct (bool_decide (length validNodes = 0%nat)) eqn:Hzero.
  { apply bool_decide_eq_true in Hzero. destruct validNodes; [|done].
    rewrite bind_logger. do 2 eexists. exists [], []. eexists.
    split; [reflexivity|].
    split; [done|]. split; [constructor|]. split; [done|]. split; [done|].
    split; [reflexivity|]. split; [constructor|].
    split. { apply submissions_neutral. repeat constructor; discriminate. }
    right. split; [done|]. by right. }
  rewrite bind_logger.
  set (line := Build_LogEntry Info "%d of the %d storage nodes are valid" _).
  assert (Hline : Forall neutral [line]) by (repeat constructor; discriminate).
  set (w1 := logged _ line).
  assert (Hearly : ∀ (err : error) (w2 : World S),
    same_slices w1 w2 → logs w2 = logs w1 →
    ∃ (o : outcome (option error)) (w' : World S)
      (outss : list (K8s.Node * list (curvev1.DevicesSpec * bool)))
      (rest : list K8s.Node) (new : list LogEntry),
      (Ok (Some err), w2) = (o, w') ∧
      validNodes = map fst outss ++ rest ∧
      Forall (λ x : K8s.Node * list (curvev1.DevicesSpec * bool),
                ∃ rest', devices = map fst x.2 ++ rest') outss ∧
      map summary (chunkserverConfigs w') = node_records 0 base outss ∧
      map nodeName (job2DeviceInfos w') = map s_node (node_records 0 base outss) ∧
      logs w' = logs w ++ new ∧
      match o with
      | Ok e =>
          Forall (λ x : K8s.Node * list (curvev1.DevicesSpec * bool),
                    map fst x.2 = devices) outss ∧
          submissions new = told outss ∧
          ((e = None ∧ rest = []) ∨ (outss = [] ∧ (is_Some e ∨ validNodes = [])))
      | Panic _ => True
      | Blocked => False
      end).
  { intros err w2 (Hi & Hc & _) Hl. exists (Ok (Some err)), w2, [], validNodes, [line].
    split; [done|]. split; [done|]. split; [constructor|].
    rewrite Hc, Hi. split; [done|]. split; [done|]. split; [by rewrite Hl|].
    split; [constructor|].
    split. { by apply submissions_neutral. }
    right. split; [done|]. left. by eexists. }
  destruct (createFormatConfigMap_frame c w1) as (e & w2 & Hcm & Hs2 & Hl2).
  rewrite bind_run, Hcm.
  destruct e as [err|]; [by apply Hearly|].
  unfold ConfigMaps_Get_.
  match goal with |- context [request ?cl ?op ≫= _] =>
    destruct (op (store w2)) as [[etcdOverrideCM|err] s3] eqn:Hetcd end;
    (erewrite bind_request; [|exact Hetcd]); cbv beta iota.
  2:{ apply Hearly; [|done]. destruct Hs2 as (?&?&?). by repeat split. }
  match goal with |- context [request ?cl ?op ≫= _] =>
    destruct (op s3) as [[mdsOverrideCM|err] s4] eqn:Hmds end;
    (erewrite bind_request; [|exact Hmds]); cbv beta iota.
  2:{ apply Hearly; [|done]. destruct Hs2 as (?&?&?). by repeat split. }
  cbv zeta.
  assert (Hloop : ∀ (a : chunkserver.Addresses) (w3 : World S),
    chunkserverConfigs w3 = [] → job2DeviceInfos w3 = [] →
    logs w3 = logs w ++ [line] →
    ∃ (o : outcome (option error)) (w' : World S)
      (outss : list (K8s.Node * list (curvev1.DevicesSpec * bool)))
      (rest : list K8s.Node) (new : list LogEntry),
      (chunkserver.for_range validNodes (chunkserver.provisionNode c nodeNameIP a) 0
       ≫= λ _ : Z, mret None) w3 = (o, w') ∧
      validNodes = map fst outss ++ rest ∧
      Forall (λ x : K8s.Node * list (curvev1.DevicesSpec * bool),
                ∃ rest', devices = map fst x.2 ++ rest') outss ∧
      map summary (chunkserverConfigs w') = node_records 0 base outss ∧
      map nodeName (job2DeviceInfos w') = map s_node (node_records 0 base outss) ∧
      logs w' = logs w ++ new ∧
      match o with
      | Ok e =>
          Forall (λ x : K8s.Node * list (curvev1.DevicesSpec * bool),
                    map fst x.2 = devices) outss ∧
          submissions new = told outss ∧
          ((e = None ∧ rest = []) ∨ (outss = [] ∧ (is_Some e ∨ validNodes = [])))
      | Panic _ => True
      | Blocked => False
      end).
  { intros a w3 Hc3 Hi3 Hl3.
    destruct (node_loop_spec c nodeNameIP a validNodes 0 w3)
      as (o & w' & outss & rest & Hrun & Hns & Hpre & Hc & Hi & new & Hl & Hpost).
    rewrite bind_run, Hrun.
    rewrite Hc3 in Hc. rewrite Hi3 in Hi. rewrite Hl3 in Hl. simpl in Hc, Hi.
    destruct o as [h|msg|]; [| |done].
    - destruct Hpost as (-> & Hall & Hn). rewrite ret_run.
      exists (Ok None), w', outss, [], ([line] ++ new).
      split; [done|]. split; [done|]. split; [done|]. split; [done|].
      split; [done|]. split; [by rewrite Hl, <- app_assoc|].
      split; [done|].
      split. { rewrite submissions_neutral_app, Hn by done.
               by rewrite app_nil_r, rev_involutive. }
      by left.
    - exists (Panic msg), w', outss, rest, ([line] ++ new).
      split; [done|]. split; [done|]. split; [done|]. split; [done|].
      split; [done|]. split; [by rewrite Hl, <- app_assoc|done]. }
  destruct (curvev1.Enable _); cbv beta iota zeta; apply Hloop; simpl;
    destruct Hs2 as (Hi2 & Hc2 & _); by rewrite ?Hi2, ?Hc2, ?Hl2.
Qed.

(** What runPrepareJob answers and the store it leaves depend on the store
    it starts in only. *)
Lemma runPrepareJob_store (c : chunkserver.Cluster) (nodeName : string)
    (d : curvev1.DevicesSpec) (w : World S) :
  (chunkserver.runPrepareJob c nodeName d w).1
    = (chunkserver.runPrepareJob c nodeName d (bare (store w))).1 ∧
  store (chunkserver.runPrepareJob c nodeName d w).2
    = store (chunkserver.runPrepareJob c nodeName d (bare (store w))).2.
Proof.
  unfold chunkserver.runPrepareJob.
  destruct (chunkserver.makeJob c nodeName d) as [job|err]; [|done].
  cbv zeta. unfold Jobs_Get_, Jobs_Create_.
  destruct (Jobs_Get (Job_Namespace job) (Job_Name job) (store w))
    as [[existing|err] s1] eqn:Hget;
    do 2 (erewrite bind_request; [|exact Hget]); cbv beta iota.
  - destruct (0 <? Active (Job_Status existing)); [by rewrite !bind_logger|].
    destruct (Jobs_Create (Job_Namespace job) job s1) as [r s2] eqn:Hcr.
    do 2 (erewrite bind_request; [|exact Hcr]). done.
  - destruct (Jobs_Create (Job_Namespace job) job s1) as [r s2] eqn:Hcr.
    destruct (IsNotFound err); cbv beta iota delta [negb]; rewrite ?bind_logger;
      do 2 (erewrite bind_request; [|exact Hcr]); done.
Qed.

Lemma createFormatConfigMap_store (c : chunkserver.Cluster) (w : World S) :
  store (chunkserver.createFormatConfigMap c w).2
    = store (chunkserver.createFormatConfigMap c (bare (store w))).2.
Proof.
  unfold chunkserver.createFormatConfigMap.
  destruct (chunkserver.SetControllerReference _ _) as [refs|err]; [|done].
  cbv zeta. unfold ConfigMaps_Create_.
  match goal with |- context [request ?cl ?op] =>
    destruct (op (store w)) as [r s1] eqn:Hcr end.
  do 2 (erewrite bind_request; [|exact Hcr]).
  destruct r as [cm|err]; [done|]. by destruct (IsAlreadyExists err).
Qed.

(** One iteration of the device loop, by the fate of the submission. *)
Lemma provisionDevice_fate (c : chunkserver.Cluster) (a : chunkserver.Addresses)
    (node : K8s.Node) (nodeIP : string) (host : Z) (dv : ptr) (p r : Z)
    (d : curvev1.DevicesSpec) (w : World S) :
  match submit c node d (store w) with
  | Some (ok, s1) =>
      ∃ w' : World S,
        chunkserver.provisionDevice c a node nodeIP host dv (p, r) d w
          = (Ok (if ok then (Go.incr p, Go.incr r) else (p, r)), w') ∧
        store w' = s1 ∧
        map summary (chunkserverConfigs w') =
          map summary (chunkserverConfigs w)
          ++ device_records (Node_Name node) host p r [(d, ok)] ∧
        map nodeName (job2DeviceInfos w') =
          map nodeName (job2DeviceInfos w) ++ (if ok then [Node_Name node] else [])
  | None =>
      ∃ (msg : string) (w' : World S),
        chunkserver.provisionDevice c a node nodeIP host dv (p, r) d w = (Panic msg, w')
  end.
Proof.
  unfold chunkserver.provisionDevice.
  erewrite bind_step; [|reflexivity]. rewrite bind_logger.
  set (w0 := logged _ _).
  destruct (runPrepareJob_frame c (Node_Name node) d w0)
    as (o & w1 & Hrun & (Hi & Hc & Hv) & Hnb & _).
  destruct (runPrepareJob_store c (Node_Name node) d w0) as [Ho Hst].
  rewrite Hrun in Ho, Hst. simpl in Ho, Hst.
  unfold submit. change (store w0) with (store w) in Ho, Hst.
  destruct (chunkserver.runPrepareJob c (Node_Name node) d (bare (store w)))
    as [ob wb]. simpl in Ho, Hst. subst ob.
  rewrite bind_run, Hrun.
  destruct o as [[job [err|]]|msg|]; [| | |done].
  - rewrite bind_logger. eexists. split; [reflexivity|]. simpl.
    rewrite Hc, Hi, !app_nil_r. done.
  - erewrite bind_step; [|reflexivity]. erewrite bind_step; [|reflexivity].
    eexists. split; [reflexivity|]. simpl. rewrite Hc, Hi, !map_app. done.
  - by do 2 eexists.
Qed.

Lemma device_loop_fates (c : chunkserver.Cluster) (a : chunkserver.Addresses)
    (node : K8s.Node) (nodeIP : string) (host : Z) (dv : ptr)
    (ds : list curvev1.DevicesSpec) :
  ∀ (p r : Z) (w : World S),
  match device_fates c node ds (store w) with
  | Some (outs, s') =>
      ∃ (st : Z * Z) (w' : World S),
        chunkserver.for_range ds (chunkserver.provisionDevice c a node nodeIP host dv)
          (p, r) w = (Ok st, w') ∧
        store w' = s' ∧
        map fst outs = ds ∧
        map summary (chunkserverConfigs w') =
          map summary (chunkserverConfigs w)
          ++ device_records (Node_Name node) host p r outs ∧
        map nodeName (job2DeviceInfos w') =
          map nodeName (job2DeviceInfos w)
          ++ map s_node (device_records (Node_Name node) host p r outs)
  | None =>
      ∃ (msg : string) (w' : World S),
        chunkserver.for_range ds (chunkserver.provisionDevice c a node nodeIP host dv)
          (p, r) w = (Panic msg, w')
  end.
Proof.
  induction ds as [|d ds IH]; intros p r w.
  - simpl. exists (p, r), w. by rewrite !app_nil_r.
  - rewrite for_range_cons. cbn [device_fates].
    pose proof (provisionDevice_fate c a node nodeIP host dv p r d w) as Hd.
    destruct (submit c node d (store w)) as [[ok s1]|].
    + destruct Hd as (w1 & Hrun1 & Hst1 & Hc1 & Hi1). rewrite Hrun1.
      specialize (IH (if ok then Go.incr p else p) (if ok then Go.incr r else r) w1).
      rewrite Hst1 in IH. cbn [mbind option_bind].
      destruct (device_fates c node ds s1) as [[outs s2]|]; cbn [mbind option_bind].
      * destruct IH as (st & w' & Hrun & Hst & Hds & Hc & Hi).
        exists st, w'. split. { destruct ok; exact Hrun. }
        split; [done|]. split; [by rewrite <- Hds|].
        split. { rewrite Hc, Hc1, <- app_assoc. f_equal. by destruct ok. }
        rewrite Hi, Hi1, <- app_assoc. f_equal. by destruct ok.
      * destruct IH as (msg & w' & Hrun). exists msg, w'. destruct ok; exact Hrun.
    + destruct Hd as (msg & w' & Hrun). rewrite Hrun. by exists msg, w'.
Qed.

Lemma node_loop_fates (c : chunkserver.Cluster) (nodeNameIP : gmap string string)
    (a : chunkserver.Addresses) (nodes : list K8s.Node) :
  let devices := curvev1.Devices (curvev1.Storage (chunkserver.spec c)) in
  let base := curvev1.Port (curvev1.Storage (chunkserver.spec c)) in
  ∀ (host : Z) (w : World S),
  match node_fates c nodes devices (store w) with
  | Some (outss, s') =>
      ∃ (h : Z) (w' : World S),
        chunkserver.for_range nodes (chunkserver.provisionNode c nodeNameIP a) host w
          = (Ok h, w') ∧
        store w' = s' ∧
        map fst outss = nodes ∧
        Forall (λ x : K8s.Node * list (curvev1.DevicesSpec * bool),
                  map fst x.2 = devices) outss ∧
        map summary (chunkserverConfigs w') =
          map summary (chunkserverConfigs w) ++ node_records host base outss ∧
        map nodeName (job2DeviceInfos w') =
          map nodeName (job2DeviceInfos w) ++ map s_node (node_records host base outss)
  | None =>
      ∃ (msg : string) (w' : World S),
        chunkserver.for_range nodes (chunkserver.provisionNode c nodeNameIP a) host w
          = (Panic msg, w')
  end.
Proof.
  intros devices base. induction nodes as [|node nodes IH]; intros host w.
  - simpl. exists host, w. rewrite !app_nil_r. by repeat split.
  - set (w0 := mkWorld (store w) (calls w) (logs w) (job2DeviceInfos w)
                 (chunkserverConfigs w) (vars w ++ [chunkserver.zero_DevicesSpec])).
    assert (Hnode : chunkserver.provisionNode c nodeNameIP a host node w =
      match chunkserver.for_range devices
              (chunkserver.provisionDevice c a node
                 (Go.index nodeNameIP (Node_Name node)) host (length (vars w)))
              (base, 0) w0 with
      | (Ok _, w1) => (Ok (Go.incr host), w1)
      | (Panic msg, w1) => (Panic msg, w1)
      | (Blocked, w1) => (Blocked, w1)
      end).
    { unfold chunkserver.provisionNode. erewrite bind_step; [|reflexivity].
      rewrite bind_run. fold devices base w0.
      by destruct (chunkserver.for_range devices _ _ w0) as [[?|?|] ?]. }
    rewrite for_range_cons, Hnode. cbn [node_fates].
    pose proof (device_loop_fates c a node (Go.index nodeNameIP (Node_Name node)) host
                  (length (vars w)) devices base 0 w0) as Hd.
    change (store w0) with (store w) in Hd.
    destruct (device_fates c node devices (store w)) as [[outs s1]|];
      cbn [mbind option_bind].
    + destruct Hd as (st & w1 & Hrun1 & Hst1 & Hds1 & Hc1 & Hi1). rewrite Hrun1.
      specialize (IH (Go.incr host) w1). rewrite Hst1 in IH.
      destruct (node_fates c nodes devices s1) as [[outss s2]|];
        cbn [mbind option_bind].
      * destruct IH as (h & w' & Hrun & Hst & Hns & Hall & Hc & Hi).
        exists h, w'. split; [done|]. split; [done|].
        split; [simpl; by rewrite Hns|]. split; [by constructor|].
        split. { rewrite Hc, Hc1. simpl. by rewrite <- app_assoc. }
        rewrite Hi, Hi1. simpl. by rewrite map_app, <- app_assoc.
      * destruct IH as (msg & w' & Hrun). by exists msg, w'.
    + destruct Hd as (msg & w' & Hrun). rewrite Hrun. by exists msg, w'.
Qed.

(** A planning run in explicit mode, by the fates of its submissions. *)
Lemma planner_fates (c : chunkserver.Cluster) (nodeNameIP : gmap string string)
    (w : World S) :
  let devices := curvev1.Devices (curvev1.Storage (chunkserver.spec c)) in
  let base := curvev1.Port (curvev1.Storage (chunkserver.spec c)) in
  curvev1.UseSelectedNodes (curvev1.Storage (chunkserver.spec c)) = false →
  match chunkserver.startProvisioningOverNodes c nodeNameIP w with
  | (Ok None, w') =>
      ∃ (outss : list (K8s.Node * list (curvev1.DevicesSpec * bool))) (s' : S),
        node_fates c (valid_nodes c (store w)) devices
          (store_before_submissions c (store w)) = Some (outss, s') ∧
        map fst outss = valid_nodes c (store w) ∧
        Forall (λ x : K8s.Node * list (curvev1.DevicesSpec * bool),
                  map fst x.2 = devices) outss ∧
        map summary (chunkserverConfigs w') = node_records 0 base outss ∧
        map nodeName (job2DeviceInfos w') = map s_node (node_records 0 base outss)
  | (Ok (Some _), w') => chunkserverConfigs w' = [] ∧ job2DeviceInfos w' = []
  | _ => True
  end.
Proof.
  intros devices base Hmode. unfold chunkserver.startProvisioningOverNodes.
  rewrite Hmode. cbv beta iota zeta delta [negb].
  erewrite bind_step; [|reflexivity].
  set (w0 := mkWorld _ _ _ _ _ _).
  unfold valid_nodes, store_before_submissions, chunkserver.GetNodeHostNames_.
  destruct (chunkserver.GetNodeHostNames (store w)) as [[hostnameMap|err] s1] eqn:Hhosts.
  2:{ erewrite bind_request; [|exact Hhosts]. done. }
  erewrite bind_request; [|exact Hhosts]. cbv beta iota.
  unfold chunkserver.GetValidNodes_.
  destruct (chunkserver.GetValidNodes _ s1) as [[validNodes ev] s2] eqn:Hvalid.
  erewrite bind_request; [|exact Hvalid]. cbv beta iota. simpl fst. simpl snd.
  destruct (bool_decide (length validNodes = 0%nat)) eqn:Hzero.
  { apply bool_decide_eq_true in Hzero. destruct validNodes; [|done].
    rewrite bind_logger. eexists [], _. split; [reflexivity|]. by repeat split. }
  rewrite bind_logger.
  set (w1 := logged _ _).
  destruct (createFormatConfigMap_frame c w1) as (e & w2 & Hcm & Hs2 & _).
  pose proof (createFormatConfigMap_store c w1) as Hst2.
  rewrite Hcm in Hst2. simpl in Hst2. change (store w1) with s2 in Hst2.
  rewrite <- Hst2. rewrite bind_run, Hcm.
  destruct Hs2 as (Hi2 & Hc2 & _).
  destruct e as [err|]; [by rewrite ret_run, Hc2, Hi2|].
  unfold ConfigMaps_Get_.
  match goal with |- context [request ?cl ?op ≫= _] =>
    destruct (op (store w2)) as [[etcdOverrideCM|err] s3] eqn:Hetcd end;
    (erewrite bind_request; [|exact Hetcd]); cbv beta iota.
  2:{ by rewrite ret_run; simpl; rewrite Hc2, Hi2. }
  match goal with |- context [request ?cl ?op ≫= _] =>
    destruct (op s3) as [[mdsOverrideCM|err] s4] eqn:Hmds end;
    (erewrite bind_request; [|exact Hmds]); cbv beta iota.
  2:{ by rewrite ret_run; simpl; rewrite Hc2, Hi2. }
  cbv zeta. cbn [snd]. rewrite Hmds. cbn [snd].
  assert (Hloop : ∀ (a : chunkserver.Addresses) (w3 : World S),
    chunkserverConfigs w3 = [] → job2DeviceInfos w3 = [] → store w3 = s4 →
    match (chunkserver.for_range validNodes (chunkserver.provisionNode c nodeNameIP a) 0
           ≫= λ _ : Z, (mret None : M S (option error))) w3 with
    | (Ok None, w') =>
        ∃ (outss : list (K8s.Node * list (curvev1.DevicesSpec * bool))) (s' : S),
          node_fates c validNodes devices s4 = Some (outss, s') ∧
          map fst outss = validNodes ∧
          Forall (λ x : K8s.Node * list (curvev1.DevicesSpec * bool),
                    map fst x.2 = devices) outss ∧
          map summary (chunkserverConfigs w') = node_records 0 base outss ∧
          map nodeName (job2DeviceInfos w') = map s_node (node_records 0 base outss)
    | (Ok (Some _), w') => chunkserverConfigs w' = [] ∧ job2DeviceInfos w' = []
    | _ => True
    end).
  { intros a w3 Hc3 Hi3 Hst3.
    pose proof (node_loop_fates c nodeNameIP a validNodes 0 w3) as Hn.
    cbv zeta in Hn. fold devices base in Hn. rewrite Hst3 in Hn. rewrite bind_run.
    destruct (node_fates c validNodes devices s4) as [[outss s']|].
    - destruct Hn as (h & w' & Hrun & _ & Hns & Hall & Hc & Hi). rewrite Hrun, ret_run.
      exists outss, s'. rewrite Hc3 in Hc. rewrite Hi3 in Hi. by repeat split.
    - destruct Hn as (msg & w' & Hrun). by rewrite Hrun. }
  destruct (curvev1.Enable _); cbv beta iota zeta; apply Hloop; simpl;
    by rewrite ?Hi2, ?Hc2.
Qed.

(** C1, as amended.  A planning run (startProvisioningOverNodes) in
    explicit node-selection mode: the TaskRecord list and the
    DeviceConfigRecord list it leaves have equal length, at most the number
    of (valid node, device) pairs; the records at one position carry the
    same node name; every DeviceConfigRecord names a valid node and a
    configured device.  When the run returns an error both lists are
    empty.  When it returns nil, the task submission (runPrepareJob) has
    been made for every device of every valid node, one after the other
    from the store the run's preparations left, and the (node name, device
    name) pairs of the records are, in order, exactly the pairs whose
    submission returned no error: a pair whose task submission fails gets a
    record in neither list.  (The [device] field of a TaskRecord is the
    address of the loop variable; what it points to after the run is not
    part of this statement.) *)
Theorem planner_records_are_paired (c : chunkserver.Cluster)
    (nodeNameIP : gmap string string) (w : World S) :
  curvev1.UseSelectedNodes (curvev1.Storage (chunkserver.spec c)) = false →
  ∃ (o : outcome (option error)) (w' : World S),
    chunkserver.startProvisioningOverNodes c nodeNameIP w = (o, w') ∧
    let infos := job2DeviceInfos w' in
    let cfgs := chunkserverConfigs w' in
    let nodes := valid_nodes c (store w) in
    let devices := curvev1.Devices (curvev1.Storage (chunkserver.spec c)) in
    length infos = length cfgs ∧
    (length cfgs ≤ length nodes * length devices)%nat ∧
    map nodeName infos = map records.NodeName cfgs ∧
    Forall (λ cfg, In (records.NodeName cfg) (map Node_Name nodes) ∧
                   In (DeviceName cfg) (map curvev1.Name devices)) cfgs ∧
    ∀ e, o = Ok e →
      match e with
      | Some _ => cfgs = [] ∧ infos = []
      | None =>
          ∃ (outss : list (K8s.Node * list (curvev1.DevicesSpec * bool))) (s' : S),
            node_fates c nodes devices (store_before_submissions c (store w))
              = Some (outss, s') ∧
            map fst outss = nodes ∧
            Forall (λ x : K8s.Node * list (curvev1.DevicesSpec * bool),
                      map fst x.2 = devices) outss ∧
            map (λ cfg, (records.NodeName cfg, DeviceName cfg)) cfgs =
              map fst (filter (λ x : string * string * bool, x.2 = true) (told outss))
      end.
Proof.
  intros Hmode.
  destruct (planner_spec c nodeNameIP w Hmode)
    as (o & w' & outss & rest & new & Hrun & Hnodes & Hpre & Hc & Hi & Hl & Hpost).
  exists o, w'. split; [done|]. cbv zeta.
  assert (Hlen : Forall (λ x : K8s.Node * list (curvev1.DevicesSpec * bool),
            (length x.2 ≤ length (curvev1.Devices (curvev1.Storage (chunkserver.spec c))))%nat)
            outss).
  { eapply Forall_impl; [exact Hpre|]. intros x [rest' Hx]. simpl in Hx.
    rewrite Hx, length_app, length_map. lia. }
  assert (Hnames : map (λ cfg, (records.NodeName cfg, DeviceName cfg)) (chunkserverConfigs w')
                   = map fst (filter (λ x : string * string * bool, x.2 = true) (told outss))).
  { rewrite <- node_records_names with (host := 0)
      (base := curvev1.Port (curvev1.Storage (chunkserver.spec c))).
    rewrite <- Hc, map_map. done. }
  split.
  { rewrite <- (length_map nodeName), Hi, length_map, <- Hc, length_map. done. }
  split.
  { rewrite <- (length_map summary), Hc.
    etrans; [by apply node_records_length|].
    apply Nat.mul_le_mono_r. rewrite Hnodes, length_app, length_map. lia. }
  split.
  { rewrite Hi, <- Hc, map_map. done. }
  split.
  { apply Forall_forall. intros cfg Hcfg%list_elem_of_In.
    assert (Hin : In (records.NodeName cfg, DeviceName cfg)
                    (map (λ cfg, (records.NodeName cfg, DeviceName cfg))
                       (chunkserverConfigs w'))).
    { apply in_map_iff. by exists cfg. }
    rewrite Hnames in Hin. apply in_map_iff in Hin as ([[n d] ok] & Heq & Hin).
    simpl in Heq. injection Heq as -> ->.
    apply list_elem_of_In, list_elem_of_filter in Hin as [_ Hin].
    apply list_elem_of_In, told_elem in Hin as (x & y & Hx & Hy & -> & -> & _).
    split.
    - rewrite Hnodes, map_app, in_app_iff. left. rewrite map_map.
      apply in_map_iff. by exists x.
    - rewrite Forall_forall in Hpre.
      destruct (Hpre x) as [rest' Hd]; [by apply list_elem_of_In|].
      rewrite Hd, map_app, in_app_iff. left. rewrite map_map.
      apply in_map_iff. by exists y. }
  intros e ->. clear Hnames.
  pose proof (planner_fates c nodeNameIP w Hmode) as Hfates. rewrite Hrun in Hfates.
  destruct e as [err|]; [exact Hfates|].
  destruct Hfates as (fates & s' & Hfates & Hfn & Hfd & Hfc & _).
  exists fates, s'. split; [exact Hfates|]. split; [exact Hfn|]. split; [exact Hfd|].
  rewrite <- node_records_names with (host := 0)
    (base := curvev1.Port (curvev1.Storage (chunkserver.spec c))).
  rewrite <- Hfc, map_map. done.
Qed.


(** C9, as amended.  In explicit node-selection mode a planning run resets
    both global slices before anything else: started with any records left
    by an earlier run it ends exactly as it does started with empty
    slices, so no earlier record survives.  In pre-selected mode the run
    neither resets nor appends: it returns nil and leaves the world,
    both slices included, as it found it. *)
Theorem planner_resets_in_explicit_mode (c : chunkserver.Cluster)
    (nodeNameIP : gmap string string) (w : World S) :
  (curvev1.UseSelectedNodes (curvev1.Storage (chunkserver.spec c)) = false →
   ∀ (infos : list Job2DeviceInfo) (cfgs : list chunkserverConfig),
     chunkserver.startProvisioningOverNodes c nodeNameIP (with_slices w infos cfgs)
     = chunkserver.startProvisioningOverNodes c nodeNameIP (with_slices w [] [])) ∧
  (curvev1.UseSelectedNodes (curvev1.Storage (chunkserver.spec c)) = true →
   chunkserver.startProvisioningOverNodes c nodeNameIP w = (Ok None, w)).
Proof.
  split; intros Hmode; [intros infos cfgs|];
    unfold chunkserver.startProvisioningOverNodes; rewrite Hmode; reflexivity.
Qed.

(** C7.  Start validates the specification before anything else: in
    explicit mode with no node or no device listed, and in pre-selected
    mode with no selected node, it returns a configuration error having
    done nothing but write its first log line: no request was issued, the
    store and the two slices are untouched. *)
Theorem Start_validates_first (c : chunkserver.Cluster)
    (nodeNameIP : gmap string string) (w : World S) :
  let storage := curvev1.Storage (chunkserver.spec c) in
  (curvev1.UseSelectedNodes storage = false ∧
   (curvev1.Nodes storage = [] ∨ curvev1.Devices storage = []))
  ∨ (curvev1.UseSelectedNodes storage = true ∧ curvev1.SelectedNodes storage = []) →
  ∃ (w' : World S),
    chunkserver.Start c nodeNameIP w =
      (Ok (Some (New (if curvev1.UseSelectedNodes storage
                      then "useSelectedNodes is set to false but selectedNodes not be specified"
                      else "useSelectedNodes is set to false but no node specified"))),
       w') ∧
    w' = logged w (Build_LogEntry Info "start running chunkserver in namespace %q"
                     [ArgS (chunkserver.Namespace (chunkserver.namespacedName c))]) ∧
    calls w' = calls w ∧ store w' = store w ∧ same_slices w w'.
Proof.
  intros storage Hbad. eexists. split; [|split; [reflexivity|by repeat split]].
  unfold chunkserver.Start. fold storage. rewrite bind_logger.
  destruct Hbad as [[-> Hempty]|[-> ->]].
  - destruct Hempty as [-> | ->]; simpl; [done|].
    by destruct (bool_decide (length (curvev1.Nodes storage) = 0%nat)).
  - done.
Qed.

End chunkserver_facts.

(** ** The statements on concrete inputs *)

Import inputs.

(** C2 on the in-memory server: the job is found running. *)
Lemma RunReplaceableJob_active_is_noop_witness :
  let w := fake.world (a_store [running_job] 1 None) in
  Jobs_Get "curve" job_name (store w) = (inl running_job, store w) ∧
  0 < Active (Job_Status running_job) ∧
  ∃ w' : World fake.Store,
    k8sutil.RunReplaceableJob running_job false w = (Ok None, w') ∧
    calls w' = calls w ++ [Jobs_Get_call "curve" job_name] ∧
    store w' = store w ∧
    same_slices w w'.
Proof.
  intros w.
  assert (Hget : Jobs_Get (Job_Namespace running_job) (Job_Name running_job) (store w)
                 = (inl running_job, store w)) by (vm_compute; reflexivity).
  assert (Hactive : 0 < Active (Job_Status running_job)) by (vm_compute; reflexivity).
  split; [exact Hget|]. split; [exact Hactive|].
  exact (RunReplaceableJob_active_is_noop running_job running_job w (store w) Hget Hactive).
Defined.

(** C3 on the in-memory server.  A stopped job that takes one sleep to go
    away is replaced: the first existence check finds it, the second finds
    it gone, then the new job is created.  With a server that refuses
    deletes, the error comes back and nothing is created. *)
Lemma RunReplaceableJob_replaces_witness :
  let w := fake.world (a_store [finished_job] 1 None) in
  let v := fake.world (a_store [finished_job] 1 (Some forbidden)) in
  let get := Jobs_Get_call "curve" job_name in
  let del := Jobs_Delete_call "curve" job_name foreground_delete in
  let s2 := (Jobs_Delete "curve" job_name foreground_delete (store w)).2 in
  (∃ (k : nat) (r : result Job) (s4 : fake.Store) (w' : World fake.Store),
     k = 1%nat ∧
     Jobs_Create "curve" finished_job (store_after_wait 30 k "curve" job_name s2)
       = (r, s4) ∧
     k8sutil.RunReplaceableJob finished_job false w =
       (Ok (match r with inl _ => None | inr err => Some err end), w') ∧
     calls w' = calls w ++ [get; del] ++ poll_rounds k "curve" job_name
                ++ (if decide (k < 30)%nat then [get] else [])
                ++ [Jobs_Create_call "curve" finished_job] ∧
     store w' = s4 ∧
     same_slices w w') ∧
  map kind (calls (k8sutil.RunReplaceableJob finished_job false w).2)
    = ["get"; "delete"; "get"; "sleep"; "get"; "create"] ∧
  (∃ w' : World fake.Store,
     k8sutil.RunReplaceableJob finished_job true v =
       (Ok (Some (k8sutil.Errorf_remove_job job_name
                    (k8sutil.Errorf_remove_previous job_name forbidden))), w') ∧
     calls w' = calls v ++ [get; del] ∧
     store w' = store v ∧
     same_slices v w').
Proof.
  intros w v get del s2. split; [|split].
  - assert (Hget : Jobs_Get (Job_Namespace finished_job) (Job_Name finished_job) (store w)
                   = (inl finished_job, store w)) by (vm_compute; reflexivity).
    assert (Hcond : Active (Job_Status finished_job) ≤ 0 ∨ false = true)
      by (left; vm_compute; discriminate).
    assert (Hdel : Jobs_Delete (Job_Namespace finished_job) (Job_Name finished_job)
                     foreground_delete (store w) = (None, s2))
      by (vm_compute; reflexivity).
    pose proof (RunReplaceableJob_replaces finished_job finished_job false w
                  (store w) s2 None Hget Hcond Hdel) as Hreplaced.
    cbv beta iota zeta in Hreplaced.
    destruct Hreplaced
      as (k & r & s4 & w' & Hk & Hbefore & Hat & Hcr & Hrun & Hcalls & Hstore & Hs).
    assert (Hk1 : k = 1%nat).
    { destruct k as [|[|k]]; [|reflexivity|].
      - assert (Hlt : (0 < 30)%nat) by lia. specialize (Hat Hlt).
        vm_compute in Hat. discriminate Hat.
      - assert (Hlt : (1 < Datatypes.S (Datatypes.S k))%nat) by lia.
        specialize (Hbefore 1%nat Hlt). vm_compute in Hbefore. discriminate Hbefore. }
    exists k, r, s4, w'. split; [exact Hk1|]. split; [exact Hcr|].
    split; [exact Hrun|]. split; [exact Hcalls|]. split; [exact Hstore|exact Hs].
  - vm_compute. reflexivity.
  - assert (Hget : Jobs_Get (Job_Namespace finished_job) (Job_Name finished_job) (store v)
                   = (inl finished_job, store v)) by (vm_compute; reflexivity).
    assert (Hcond : Active (Job_Status finished_job) ≤ 0 ∨ true = true) by (by right).
    assert (Hdel : Jobs_Delete (Job_Namespace finished_job) (Job_Name finished_job)
                     foreground_delete (store v) = (Some forbidden, store v))
      by (vm_compute; reflexivity).
    exact (RunReplaceableJob_replaces finished_job finished_job true v
             (store v) (store v) (Some forbidden) Hget Hcond Hdel).
Defined.

(** C4 on the in-memory server: deleting a job that is not there succeeds;
    a job that lingers for two sleeps is gone at the third check; a job
    that lingers for a hundred sleeps is waited for 30 rounds. *)
Lemma DeleteBatchJob_bounded_deletion_witness :
  let gone := fake.world (a_store [] 1 None) in
  let two := fake.world (a_store [finished_job] 2 None) in
  let stuck := fake.world (a_store [finished_job] 100 None) in
  let del := Jobs_Delete_call "curve" job_name foreground_delete in
  (∃ w', k8sutil.DeleteBatchJob "curve" job_name true gone = (Ok None, w') ∧
         calls w' = calls gone ++ [del] ∧ store w' = store gone) ∧
  (∃ k w', (k ≤ 30)%nat ∧
     k8sutil.DeleteBatchJob "curve" job_name true two = (Ok None, w') ∧
     calls w' = calls two ++ [del] ++ poll_rounds k "curve" job_name
                ++ (if decide (k < 30)%nat then [Jobs_Get_call "curve" job_name] else [])) ∧
  map kind (calls (k8sutil.DeleteBatchJob "curve" job_name true two).2)
    = ["delete"; "get"; "sleep"; "get"; "sleep"; "get"] ∧
  (k8sutil.DeleteBatchJob "curve" job_name true stuck).1 = Ok None ∧
  length (filter (λ c, kind c = "get")
            (calls (k8sutil.DeleteBatchJob "curve" job_name true stuck).2)) = 30%nat.
Proof.
  intros gone two stuck del. split; [|split; [|split; [|split]]].
  - apply (proj1 (DeleteBatchJob_bounded_deletion "curve" job_name gone) true
             (fake.not_found job_name) (store gone)); vm_compute; reflexivity.
  - destruct (Jobs_Delete "curve" job_name foreground_delete (store two))
      as [e s1] eqn:Hdel.
    assert (He : e = None) by (vm_compute in Hdel; congruence). subst e.
    destruct (proj2 (DeleteBatchJob_bounded_deletion "curve" job_name two) s1 Hdel)
      as (k & w' & Hk & _ & _ & Hrun & Hcalls).
    by exists k, w'.
  - vm_compute. reflexivity.
  - vm_compute. reflexivity.
  - vm_compute. reflexivity.
Defined.

(** C5 as stated fails: three ticks that find the job running, and no
    deadline yet: nothing has been sent and the goroutine has not returned. *)
Lemma CheckJobStatus_may_send_nothing :
  let r := k8sutil.CheckJobStatus
             [k8sutil.ticker_C; k8sutil.ticker_C; k8sutil.ticker_C]
             "curve" job_name (fake.world (a_store [running_job] 1 None)) in
  r.1 = Blocked ∧ sends (calls r.2) = [] ∧
  map kind (calls r.2) = ["get"; "get"; "get"].
Proof. vm_compute. repeat split; reflexivity. Qed.

(** C7 on the in-memory server: explicit mode without devices, and
    pre-selected mode without selected nodes. *)
Lemma Start_validates_first_witness :
  let w := fake.world (a_store [] 1 None) in
  (curvev1.UseSelectedNodes (curvev1.Storage (chunkserver.spec no_device)) = false ∧
   curvev1.Devices (curvev1.Storage (chunkserver.spec no_device)) = [] ∧
   ∃ w', chunkserver.Start no_device ∅ w =
           (Ok (Some (New "useSelectedNodes is set to false but no node specified")), w') ∧
         calls w' = [] ∧ store w' = store w) ∧
  (curvev1.UseSelectedNodes (curvev1.Storage (chunkserver.spec none_selected)) = true ∧
   curvev1.SelectedNodes (curvev1.Storage (chunkserver.spec none_selected)) = [] ∧
   ∃ w', chunkserver.Start none_selected ∅ w =
           (Ok (Some (New "useSelectedNodes is set to false but selectedNodes not be specified")), w') ∧
         calls w' = [] ∧ store w' = store w).
Proof.
  intros w. split; (split; [reflexivity|]); (split; [reflexivity|]).
  - destruct (Start_validates_first no_device ∅ w) as (w' & Hrun & _ & Hc & Hs & _).
    { left. split; [reflexivity|]. right. reflexivity. }
    exists w'. split; [exact Hrun|]. split; [exact Hc|exact Hs].
  - destruct (Start_validates_first none_selected ∅ w) as (w' & Hrun & _ & Hc & Hs & _).
    { right. split; reflexivity. }
    exists w'. split; [exact Hrun|]. split; [exact Hc|exact Hs].
Defined.

(** C1 as stated fails: a run in pre-selected mode, over a cluster spec
    without devices, that starts where an explicit-mode run over one node
    and one device ended.  Both lists still hold that run's record, one
    more than the number of (valid node, device) pairs, which is zero. *)
Lemma planner_records_outlive_preselected_run :
  let r := chunkserver.startProvisioningOverNodes preselected ∅ after_first_run in
  r.1 = Ok None ∧
  length (job2DeviceInfos r.2) = 1%nat ∧
  length (chunkserverConfigs r.2) = 1%nat ∧
  (length (valid_nodes preselected (store after_first_run))
   * length (curvev1.Devices (curvev1.Storage (chunkserver.spec preselected))) = 0)%nat.
Proof. vm_compute. repeat split; reflexivity. Qed.

(** C1 on the in-memory server: two nodes, two devices, the job of the
    first pair is already there and stopped, so that its submission fails:
    the pair has no record, the other three have one. *)
Lemma planner_records_are_paired_witness :
  let w := fake.world (a_store [finished_job] 1 None) in
  let r := chunkserver.startProvisioningOverNodes two_by_two ∅ w in
  curvev1.UseSelectedNodes (curvev1.Storage (chunkserver.spec two_by_two)) = false ∧
  (∃ (o : outcome (option error)) (w' : World fake.Store),
     r = (o, w') ∧
     length (job2DeviceInfos w') = length (chunkserverConfigs w') ∧
     (length (chunkserverConfigs w')
      ≤ length (valid_nodes two_by_two (store w))
        * length (curvev1.Devices (curvev1.Storage (chunkserver.spec two_by_two))))%nat ∧
     map nodeName (job2DeviceInfos w') = map records.NodeName (chunkserverConfigs w')) ∧
  r.1 = Ok None ∧
  (∃ (outss : list (K8s.Node * list (curvev1.DevicesSpec * bool))) (s' : fake.Store),
     node_fates two_by_two (valid_nodes two_by_two (store w))
       (curvev1.Devices (curvev1.Storage (chunkserver.spec two_by_two)))
       (store_before_submissions two_by_two (store w)) = Some (outss, s') ∧
     told outss
       = [("host1", "/dev/sdb", false); ("host1", "/dev/sdc", true);
          ("host2", "/dev/sdb", true); ("host2", "/dev/sdc", true)] ∧
     map (λ cfg, (records.NodeName cfg, DeviceName cfg)) (chunkserverConfigs r.2)
       = map fst (filter (λ x : string * string * bool, x.2 = true) (told outss))) ∧
  map (λ cfg, (records.NodeName cfg, DeviceName cfg)) (chunkserverConfigs r.2)
    = [("host1", "/dev/sdc"); ("host2", "/dev/sdb"); ("host2", "/dev/sdc")].
Proof.
  intros w r.
  assert (Hmode : curvev1.UseSelectedNodes (curvev1.Storage (chunkserver.spec two_by_two))
                  = false) by reflexivity.
  assert (Ho : r.1 = Ok None) by (vm_compute; reflexivity).
  destruct (planner_records_are_paired two_by_two ∅ w Hmode)
    as (o & w' & Hrun & Hlen & Hle & Hnames & _ & Hfate).
  fold r in Hrun.
  assert (Ho' : o = Ok None).
  { rewrite <- Ho. exact (eq_sym (f_equal fst Hrun)). }
  assert (Hw' : w' = r.2) by exact (eq_sym (f_equal snd Hrun)).
  split; [exact Hmode|]. split.
  - exists o, w'. split; [exact Hrun|]. split; [exact Hlen|]. split; [exact Hle|exact Hnames].
  - split; [exact Ho|]. split.
    + destruct (Hfate None Ho') as (outss & s' & Hf & _ & _ & Hpairs).
      exists outss, s'. split; [exact Hf|]. split.
      * vm_compute in Hf. injection Hf as <- _. vm_compute. reflexivity.
      * rewrite <- Hw'. exact Hpairs.
    + vm_compute. reflexivity.
Defined.


(** The numbers after a failed submission: /dev/sdb fails on host1 (its
    job is there and has stopped), so /dev/sdc is the first record of host1,
    with replica sequence 0 and the base port. *)
Lemma planner_numbers_after_failed_submission :
  let w := fake.world (a_store [finished_job] 1 None) in
  map summary
    (chunkserverConfigs (chunkserver.startProvisioningOverNodes two_by_two ∅ w).2)
  = [mkSummary "host1" "/dev/sdc" 0 0 8200;
     mkSummary "host2" "/dev/sdb" 1 0 8200;
     mkSummary "host2" "/dev/sdc" 1 1 8201].
Proof. vm_compute. reflexivity. Qed.

(** C9 as stated fails: the pre-selected run of the counterexample to C1
    resets nothing; the record of the earlier run is still in both lists
    when it returns. *)
Lemma preselected_run_keeps_old_records :
  let r := chunkserver.startProvisioningOverNodes preselected ∅ after_first_run in
  job2DeviceInfos r.2 = job2DeviceInfos after_first_run ∧
  chunkserverConfigs r.2 = chunkserverConfigs after_first_run ∧
  map nodeName (job2DeviceInfos after_first_run) = ["host1"] ∧
  map DeviceName (chunkserverConfigs after_first_run) = ["/dev/sdb"].
Proof. vm_compute. repeat split; reflexivity. Qed.

(** C9 on the in-memory server: an explicit-mode run that starts with the
    records of an earlier run ends as the run from empty slices does; a
    pre-selected run changes nothing. *)
Lemma planner_resets_in_explicit_mode_witness :
  let w := fake.world (a_store [] 1 None) in
  chunkserver.startProvisioningOverNodes two_by_two ∅
    (with_slices w (job2DeviceInfos after_first_run) (chunkserverConfigs after_first_run))
  = chunkserver.startProvisioningOverNodes two_by_two ∅ (with_slices w [] []) ∧
  chunkserver.startProvisioningOverNodes preselected ∅ after_first_run
  = (Ok None, after_first_run).
Proof.
  intros w. split.
  - exact (proj1 (planner_resets_in_explicit_mode two_by_two ∅ w) eq_refl
             (job2DeviceInfos after_first_run) (chunkserverConfigs after_first_run)).
  - exact (proj2 (planner_resets_in_explicit_mode preselected ∅ after_first_run) eq_refl).
Defined.

(** C8: the code does not do what the claim says.  A job of the same name
    exists and has stopped.  runPrepareJob looks it up and issues a create
    for the same name, which the server refuses: no delete, the old job
    stays, the submission fails.  The submission through RunReplaceableJob
    without forced replacement, which the claim describes, deletes the old
    job, waits for it to go and creates the new one. *)
Theorem runPrepareJob_does_not_replace :
  let w := fake.world (a_store [finished_job] 1 None) in
  let code := chunkserver.runPrepareJob two_by_two "host1" sdb w in
  let claimed := runPrepareJob_via_executor two_by_two "host1" sdb w in
  match chunkserver.makeJob two_by_two "host1" sdb with
  | inl job => Job_Name job = job_name ∧ Job_Namespace job = "curve"
  | inr _ => False
  end ∧
  match code.1 with
  | Ok (_, e) => e = Some (fake.already_exists job_name)
  | _ => False
  end ∧
  map kind (calls code.2) = ["get"; "create"] ∧
  store code.2 = store w ∧
  claimed.1 = Ok None ∧
  map kind (calls claimed.2) = ["get"; "delete"; "get"; "sleep"; "get"; "create"].
Proof. vm_compute. repeat split; reflexivity. Qed.

(** C10: the code does not do what the claim says.  getPodLabels takes the
    element of index 1 of the device path split at "/", which is "dev" for
    every path under /dev: two distinct devices of one node get the same
    label set. *)
Theorem getPodLabels_ignores_the_device (c : chunkserver.Cluster)
    (nodeName x y : string) :
  chunkserver.getPodLabels c nodeName ("/dev/" +:+ x)
  = chunkserver.getPodLabels c nodeName ("/dev/" +:+ y) ∧
  chunkserver.getPodLabels c nodeName ("/dev/" +:+ x) !! "device" = Some "dev" ∧
  chunkserver.getPodLabels c nodeName "/dev/sdb"
  = chunkserver.getPodLabels c nodeName "/dev/sdc".
Proof.
  assert (Hsplit : ∀ z, Go.Split ("/dev/" +:+ z) "/"
                        = "" :: "dev" :: Go.Split z "/").
  { intros z. reflexivity. }
  assert (Hlabels : ∀ z, chunkserver.getPodLabels c nodeName ("/dev/" +:+ z)
    = <["curve_cluster" := chunkserver.Namespace (chunkserver.namespacedName c)]>
        (<["device" := "dev"]>
           (<["node" := nodeName]>
              (<["app" := chunkserver.PrepareJobName]> (∅ : gmap string string))))).
  { intros z. unfold chunkserver.getPodLabels. rewrite Hsplit. reflexivity. }
  split; [by rewrite !Hlabels|]. split.
  - rewrite Hlabels. rewrite lookup_insert_ne by done. by rewrite lookup_insert_eq.
  - exact (eq_trans (Hlabels "sdb") (eq_sym (Hlabels "sdc"))).
Qed.

(** The loop variable of the device loop is shared by the TaskRecords of one
    node: after a run over two devices whose submissions all succeed, both
    TaskRecords of host1 hold the same pointer, and it points to the last
    device, /dev/sdc, while the DeviceConfigRecord beside the first of them
    is the one of /dev/sdb. *)
Lemma TaskRecords_share_the_loop_variable :
  let w' := (chunkserver.startProvisioningOverNodes two_by_two ∅
               (fake.world (a_store [] 1 None))).2 in
  map device (take 2 (job2DeviceInfos w')) = [0%nat; 0%nat] ∧
  vars w' !! 0%nat = Some sdc ∧
  map DeviceName (take 2 (chunkserverConfigs w')) = ["/dev/sdb"; "/dev/sdc"].
Proof. vm_compute. repeat split; reflexivity. Qed.

(** Whatever the store: when the lookup finds a job without active instance,
    runPrepareJob issues the lookup and a create, and nothing else: the
    existing job is not deleted first. *)
Lemma runPrepareJob_creates_over_stale_job {S : Type} `{!Clientset S}
    `{!chunkserver.Collaborators S}
    (c : chunkserver.Cluster) (nodeName : string) (d : curvev1.DevicesSpec)
    (job existing : Job) (w : World S) (s1 s2 : S) (r : result Job) :
  chunkserver.makeJob c nodeName d = inl job →
  Jobs_Get (Job_Namespace job) (Job_Name job) (store w) = (inl existing, s1) →
  Active (Job_Status existing) ≤ 0 →
  Jobs_Create (Job_Namespace job) job s1 = (r, s2) →
  ∃ w' : World S,
    chunkserver.runPrepareJob c nodeName d w =
      (Ok (job, match r with inl _ => None | inr err => Some err end), w') ∧
    calls w' = calls w ++ [Jobs_Get_call (Job_Namespace job) (Job_Name job);
                           Jobs_Create_call (Job_Namespace job) job] ∧
    store w' = s2 ∧
    same_slices w w'.
Proof.
  intros Hmake Hget Hactive Hcreate. unfold chunkserver.runPrepareJob.
  rewrite Hmake. cbv zeta. unfold Jobs_Get_.
  erewrite bind_request; [|exact Hget]. cbv beta iota.
  assert ((0 <? Active (Job_Status existing)) = false) as -> by lia.
  unfold Jobs_Create_. erewrite bind_request; [|exact Hcreate].
  eexists. split; [reflexivity|]. simpl. rewrite <- app_assoc.
  split; [done|]. by repeat split.
Qed.

Lemma runPrepareJob_creates_over_stale_job_witness :
  let w := fake.world (a_store [finished_job] 1 None) in
  ∃ (job : Job) (w' : World fake.Store),
    chunkserver.makeJob two_by_two "host1" sdb = inl job ∧
    Jobs_Get (Job_Namespace job) (Job_Name job) (store w) = (inl finished_job, store w) ∧
    Active (Job_Status finished_job) ≤ 0 ∧
    chunkserver.runPrepareJob two_by_two "host1" sdb w =
      (Ok (job, Some (fake.already_exists job_name)), w') ∧
    calls w' = calls w ++ [Jobs_Get_call (Job_Namespace job) (Job_Name job);
                           Jobs_Create_call (Job_Namespace job) job] ∧
    store w' = store w.
Proof.
  intros w.
  destruct (chunkserver.makeJob two_by_two "host1" sdb) as [job|err] eqn:Hmake;
    [|vm_compute in Hmake; discriminate].
  assert (Hjob : job = match chunkserver.makeJob two_by_two "host1" sdb with
                       | inl j => j | inr _ => fake.placeholder_job end)
    by (by rewrite Hmake).
  assert (Hget : Jobs_Get (Job_Namespace job) (Job_Name job) (store w)
                 = (inl finished_job, store w))
    by (rewrite Hjob; vm_compute; reflexivity).
  assert (Hactive : Active (Job_Status finished_job) ≤ 0) by (vm_compute; discriminate).
  assert (Hcreate : Jobs_Create (Job_Namespace job) job (store w)
                    = (inr (fake.already_exists job_name), store w))
    by (rewrite Hjob; vm_compute; reflexivity).
  destruct (runPrepareJob_creates_over_stale_job two_by_two "host1" sdb job
              finished_job w (store w) (store w) _ Hmake Hget Hactive Hcreate)
    as (w' & Hrun & Hcalls & Hstore & _).
  exists job, w'. split; [reflexivity|]. repeat (split; [assumption|]). assumption.
Defined.

(** However many ticks find the job running, as long as the deadline case
    is not taken the watcher has sent nothing and is still waiting. *)
Lemma CheckJobStatus_waits_while_running (n : nat) :
  let r := k8sutil.CheckJobStatus (replicate n k8sutil.ticker_C) "curve" job_name
             (fake.world (a_store [running_job] 1 None)) in
  r.1 = Blocked ∧ sends (calls r.2) = [].
Proof.
  cbv zeta.
  assert (Hgen : ∀ w : World fake.Store,
    store w = a_store [running_job] 1 None →
    (k8sutil.CheckJobStatus (replicate n k8sutil.ticker_C) "curve" job_name w).1 = Blocked ∧
    sends (calls (k8sutil.CheckJobStatus (replicate n k8sutil.ticker_C)
                    "curve" job_name w).2) = sends (calls w)).
  { induction n as [|n IH]; intros w Hstore; [done|].
    cbn [replicate k8sutil.CheckJobStatus]. rewrite bind_logger. unfold Jobs_Get_.
    erewrite bind_request;
      [|instantiate (1 := a_store [running_job] 1 None);
        instantiate (1 := inl running_job); simpl store; rewrite Hstore;
        vm_compute; reflexivity].
    cbv beta iota.
    assert ((0 <? Succeeded (Job_Status running_job)) = false) as ->
      by (vm_compute; reflexivity).
    rewrite bind_logger.
    match goal with |- context [k8sutil.CheckJobStatus _ _ _ ?w1] =>
      destruct (IH w1) as [H1 H2]; [done|]; rewrite H1, H2 end.
    split; [done|]. simpl. rewrite sends_app. simpl. by rewrite app_nil_r. }
  apply (Hgen (fake.world (a_store [running_job] 1 None))). done.
Qed.

(** The watcher on the in-memory server: the deadline after two idle ticks
    sends false; a succeeded job sends true at the first tick; a fetch that
    fails sends false at the first tick; each time one value. *)
Lemma CheckJobStatus_examples :
  let run ready js :=
    let r := k8sutil.CheckJobStatus ready "curve" job_name
               (fake.world (a_store js 1 None)) in
    (r.1, sends (calls r.2)) in
  run [k8sutil.ticker_C; k8sutil.ticker_C; k8sutil.ctx_Done; k8sutil.ticker_C]
      [running_job] = (Ok (), [false]) ∧
  run [k8sutil.ticker_C; k8sutil.ctx_Done] [succeeded_job] = (Ok (), [true]) ∧
  run [k8sutil.ticker_C; k8sutil.ticker_C] [] = (Ok (), [false]).
Proof. vm_compute. repeat split; reflexivity. Qed.

(** ** Further properties of pkg/k8sutil/job.go *)

Section k8sutil_more.
Context {S : Type} `{!Clientset S}.

(** RunReplaceableJob when the lookup fails, with "not found" or with any
    other error: the job is created, nothing is deleted, the answer of the
    create request is returned; an error other than "not found" is logged
    as a warning and is not returned. *)
Theorem RunReplaceableJob_creates_when_lookup_fails (job : Job) (deleteIfFound : bool)
    (w : World S) (err : error) (s1 s2 : S) (r : result Job) :
  Jobs_Get (Job_Namespace job) (Job_Name job) (store w) = (inr err, s1) →
  Jobs_Create (Job_Namespace job) job s1 = (r, s2) →
  ∃ w' : World S,
    k8sutil.RunReplaceableJob job deleteIfFound w =
      (Ok (match r with inl _ => None | inr e => Some e end), w') ∧
    calls w' = calls w ++ [Jobs_Get_call (Job_Namespace job) (Job_Name job);
                           Jobs_Create_call (Job_Namespace job) job] ∧
    store w' = s2 ∧
    logs w' = logs w ++
      (if IsNotFound err then []
       else [Build_LogEntry Warning "failed to detect job %s. %+v"
               [ArgS (Job_Name job); ArgErr err]]) ∧
    same_slices w w'.
Proof.
  intros Hget Hcreate. unfold k8sutil.RunReplaceableJob. unfold Jobs_Get_.
  erewrite bind_request; [|exact Hget]. cbv beta iota zeta.
  destruct (IsNotFound err); cbv beta iota delta [negb].
  - unfold Jobs_Create_. erewrite bind_request; [|exact Hcreate].
    eexists. split; [reflexivity|]. simpl. rewrite <- !app_assoc, app_nil_r.
    split; [done|]. split; [done|]. split; [done|]. by repeat split.
  - rewrite bind_logger. unfold Jobs_Create_. erewrite bind_request; [|exact Hcreate].
    eexists. split; [reflexivity|]. simpl. rewrite <- !app_assoc.
    split; [done|]. split; [done|]. split; [done|]. by repeat split.
Qed.

(** DeleteBatchJob without a wait, and DeleteBatchJob refused: when the
    delete request fails with anything but "not found", the error is
    returned wrapped, whatever [wait] is; when it is accepted and [wait] is
    false, nil is returned at once.  Either way the delete is the only
    request: no existence check, no sleep. *)
Theorem DeleteBatchJob_single_request (namespace name : string) (w : World S) :
  (∀ (wait : bool) (err : error) (s1 : S),
     Jobs_Delete namespace name foreground_delete (store w) = (Some err, s1) →
     IsNotFound err = false →
     ∃ w' : World S,
       k8sutil.DeleteBatchJob namespace name wait w =
         (Ok (Some (k8sutil.Errorf_remove_previous name err)), w') ∧
       calls w' = calls w ++ [Jobs_Delete_call namespace name foreground_delete] ∧
       store w' = s1 ∧ logs w' = logs w) ∧
  (∀ s1 : S,
     Jobs_Delete namespace name foreground_delete (store w) = (None, s1) →
     ∃ w' : World S,
       k8sutil.DeleteBatchJob namespace name false w = (Ok None, w') ∧
       calls w' = calls w ++ [Jobs_Delete_call namespace name foreground_delete] ∧
       store w' = s1 ∧ logs w' = logs w).
Proof.
  split.
  - intros wait err s1 Hdel Hnf.
    rewrite (DeleteBatchJob_rejected _ _ _ _ _ _ Hdel), Hnf.
    eexists. split; [reflexivity|]. done.
  - intros s1 Hdel. unfold k8sutil.DeleteBatchJob. unfold Jobs_Delete_.
    fold foreground_delete. erewrite bind_request; [|exact Hdel].
    eexists. split; [reflexivity|]. done.
Qed.

Lemma sleep_total_app (l1 l2 : list Call) :
  sleep_total (l1 ++ l2) = sleep_total l1 + sleep_total l2.
Proof.
  unfold sleep_total. induction l1 as [|c l1 IH]; simpl; [lia|].
  destruct c; lia.
Qed.

Lemma sleep_total_rounds (k : nat) (namespace name : string) :
  sleep_total (poll_rounds k namespace name) = 3 * Second * Z.of_nat k.
Proof.
  unfold poll_rounds. induction k as [|k IH]; [done|].
  cbn [replicate concat]. rewrite sleep_total_app, IH.
  unfold poll_round, sleep_total. simpl. lia.
Qed.

Lemma fetch_count_app (l1 l2 : list Call) :
  fetch_count (l1 ++ l2) = (fetch_count l1 + fetch_count l2)%nat.
Proof. unfold fetch_count. by rewrite filter_app, length_app. Qed.

Lemma fetch_count_rounds (k : nat) (namespace name : string) :
  fetch_count (poll_rounds k namespace name) = k.
Proof.
  unfold poll_rounds. induction k as [|k IH]; [done|].
  cbn [replicate concat]. rewrite fetch_count_app, IH. done.
Qed.

(** DeleteBatchJob, whatever [wait], the store and its answers: it returns
    (never panics, never stays parked), issues one delete request and after
    it at most 30 existence checks, and sleeps at most 90 seconds in all;
    it sleeps the full 90 seconds when the delete was accepted and none of
    the 30 checks answers "not found". *)
Theorem DeleteBatchJob_sleeps_at_most_90_seconds (namespace name : string)
    (wait : bool) (w : World S) :
  ∃ (e : option error) (w' : World S) (polls : list Call),
    k8sutil.DeleteBatchJob namespace name wait w = (Ok e, w') ∧
    calls w' = calls w ++ Jobs_Delete_call namespace name foreground_delete :: polls ∧
    Forall is_poll polls ∧
    (fetch_count polls ≤ 30)%nat ∧
    0 ≤ sleep_total polls ≤ 90 * Second ∧
    (wait = true →
     ∀ s1, Jobs_Delete namespace name foreground_delete (store w) = (None, s1) →
     (∀ j, (j < 30)%nat → absent_at j namespace name s1 = false) →
     sleep_total polls = 90 * Second ∧ fetch_count polls = 30%nat ∧ e = None).
Proof.
  destruct (Jobs_Delete namespace name foreground_delete (store w)) as [[err|] s1] eqn:Hdel.
  - rewrite (DeleteBatchJob_rejected _ _ _ _ _ _ Hdel).
    do 2 eexists. exists []. split; [reflexivity|]. split; [done|].
    split; [constructor|]. split; [unfold fetch_count; simpl; lia|].
    split; [unfold sleep_total, Second; simpl; lia|].
    intros _ s2 Hs2. congruence.
  - destruct wait.
    + destruct (DeleteBatchJob_accepted _ _ _ _ Hdel)
        as (k & w' & Hk & Hbefore & Hat & Hrun & Hcalls & _).
      exists None, w',
        (poll_rounds k namespace name
         ++ (if decide (k < 30)%nat then [Jobs_Get_call namespace name] else [])).
      split; [done|]. split; [by rewrite Hcalls|].
      split.
      { apply Forall_app. split.
        - unfold poll_rounds. apply Forall_concat, Forall_replicate.
          by repeat constructor.
        - destruct (decide (k < 30)%nat); by repeat constructor. }
      rewrite fetch_count_app, fetch_count_rounds, sleep_total_app, sleep_total_rounds.
      assert (Htail : fetch_count (if decide (k < 30)%nat
                                   then [Jobs_Get_call namespace name] else [])
                      = (if decide (k < 30)%nat then 1 else 0)%nat ∧
                      sleep_total (if decide (k < 30)%nat
                                   then [Jobs_Get_call namespace name] else []) = 0).
      { by destruct (decide (k < 30)%nat). }
      destruct Htail as [-> ->]. unfold Second.
      split. { destruct (decide (k < 30)%nat); lia. }
      split; [lia|].
      intros _ s2 Hs2 Hnone. assert (s2 = s1) as -> by congruence.
      assert (k = 30%nat) as ->.
      { destruct (decide (k < 30)%nat) as [Hlt|]; [|lia].
        specialize (Hat Hlt). rewrite Hnone in Hat by done. done. }
      done.
    + unfold k8sutil.DeleteBatchJob. unfold Jobs_Delete_. fold foreground_delete.
      erewrite bind_request; [|exact Hdel].
      do 2 eexists. exists []. split; [reflexivity|]. split; [done|].
      split; [constructor|]. split; [unfold fetch_count; simpl; lia|].
      split; [unfold sleep_total, Second; simpl; lia|].
      intros Hw. done.
Qed.

(** CheckJobStatus and the events that follow: once the watcher has
    returned on [pre], the events after [pre] change nothing; and while it
    is still waiting after [pre], it goes on with the events that follow
    from the world it is in. *)
Theorem CheckJobStatus_composes (pre rest : list k8sutil.SelectCase)
    (namespace jobName : string) (w : World S) :
  ((k8sutil.CheckJobStatus pre namespace jobName w).1 = Ok () →
   k8sutil.CheckJobStatus (pre ++ rest) namespace jobName w
   = k8sutil.CheckJobStatus pre namespace jobName w) ∧
  ((k8sutil.CheckJobStatus pre namespace jobName w).1 = Blocked →
   k8sutil.CheckJobStatus (pre ++ rest) namespace jobName w
   = k8sutil.CheckJobStatus rest namespace jobName
       (k8sutil.CheckJobStatus pre namespace jobName w).2).
Proof.
  revert w. induction pre as [|[|] pre IH]; intros w.
  - split; [done|]. intros _. done.
  - cbn [app k8sutil.CheckJobStatus]. rewrite !bind_logger. unfold Jobs_Get_.
    destruct (Jobs_Get namespace jobName (store w)) as [[j|err] s1] eqn:Hget.
    + do 2 (erewrite bind_request; [|exact Hget]). cbv beta iota.
      destruct (0 <? Succeeded (Job_Status j)).
      * split; [done|]. rewrite bind_logger. done.
      * rewrite !bind_logger. apply IH.
    + do 2 (erewrite bind_request; [|exact Hget]). cbv beta iota.
      split; [done|]. rewrite bind_logger. done.
  - split; [done|]. cbn [k8sutil.CheckJobStatus].
    rewrite bind_run. done.
Qed.

End k8sutil_more.

(** ** What a computation keeps *)

Section keeps_facts.
Context {S : Type} `{!Clientset S}.

Global Instance extends_preorder {X} (proj : World S → list X) (P : X → Prop) :
  PreOrder (extends proj P).
Proof.
  split.
  - intros w. exists []. by rewrite app_nil_r.
  - intros w1 w2 w3 (n1 & H1 & F1) (n2 & H2 & F2). exists (n1 ++ n2).
    split; [by rewrite H2, H1, app_assoc|by apply Forall_app].
Qed.

Lemma keeps_ret {A} (I : World S → World S → Prop) `{!PreOrder I} (a : A) :
  keeps I (mret a : M S A).
Proof. intros w. simpl. reflexivity. Qed.

Lemma keeps_panic {A} (I : World S → World S → Prop) `{!PreOrder I} (msg : string) :
  keeps I (panic msg : M S A).
Proof. intros w. simpl. reflexivity. Qed.

Lemma keeps_bind {A B} (I : World S → World S → Prop) `{!PreOrder I}
    (m : M S A) (f : A → M S B) :
  keeps I m → (∀ a, keeps I (f a)) → keeps I (m ≫= f).
Proof.
  intros Hm Hf w. rewrite bind_run. specialize (Hm w).
  destruct (m w) as [[a|msg|] w1]; simpl in *; [|done..].
  etrans; [exact Hm|apply Hf].
Qed.

Lemma keeps_for_range {A B} (I : World S → World S → Prop) `{!PreOrder I}
    (l : list A) (body : B → A → M S B) :
  (∀ b x, keeps I (body b x)) → ∀ b, keeps I (chunkserver.for_range l body b).
Proof.
  intros Hbody. induction l as [|x l IH]; intros b.
  - (apply keeps_ret; apply _).
  - cbn [chunkserver.for_range]. apply keeps_bind; [done|apply Hbody|apply IH].
Qed.

Lemma keeps_same {A X} (proj : World S → list X) (P : X → Prop) (m : M S A) :
  (∀ w, proj (m w).2 = proj w) → keeps (extends proj P) m.
Proof. intros Hm w. exists []. by rewrite app_nil_r. Qed.

Lemma keeps_request {A} (P : Call → Prop) (c : Call) (op : S → A * S) :
  P c → keeps (extends calls P) (request c op).
Proof.
  intros Hc w. unfold request. destruct (op (store w)) as [a s1].
  exists [c]. split; [done|by constructor].
Qed.

Lemma request_frame {A} (c : Call) (op : S → A * S) (w : World S) :
  job2DeviceInfos (request c op w).2 = job2DeviceInfos w ∧
  chunkserverConfigs (request c op w).2 = chunkserverConfigs w ∧
  vars (request c op w).2 = vars w ∧
  logs (request c op w).2 = logs w.
Proof. unfold request. by destruct (op (store w)). Qed.

End keeps_facts.

(** ** Further properties of the planner *)

Section chunkserver_more.
Context {S : Type} `{!Clientset S} `{!chunkserver.Collaborators S}.

Local Ltac keeps_calls :=
  repeat first
    [ apply keeps_ret; apply _
    | apply keeps_panic; apply _
    | apply keeps_request; exact I
    | apply keeps_same; intros ?; reflexivity
    | apply keeps_bind; [apply _| |intros ?]
    | match goal with
      | |- keeps _ (match ?x with _ => _ end) => destruct x
      end ].

Lemma runPrepareJob_requests (c : chunkserver.Cluster) (nodeName : string)
    (d : curvev1.DevicesSpec) :
  keeps (extends calls planner_request) (chunkserver.runPrepareJob c nodeName d).
Proof.
  unfold chunkserver.runPrepareJob, Jobs_Get_, Jobs_Create_. cbv zeta. keeps_calls.
Qed.

Lemma createFormatConfigMap_requests (c : chunkserver.Cluster) :
  keeps (extends calls planner_request) (chunkserver.createFormatConfigMap c).
Proof.
  unfold chunkserver.createFormatConfigMap, ConfigMaps_Create_. cbv zeta. keeps_calls.
Qed.

(** A planning run never deletes a job, never sleeps and never sends on a
    channel, whatever the mode, the store and its answers, and also when
    the run panics: every request it issues is a lookup or a create of a
    job or a ConfigMap, or a call of a node helper. *)
Theorem planner_issues_no_delete (c : chunkserver.Cluster)
    (nodeNameIP : gmap string string) (w : World S) :
  ∃ new : list Call,
    calls (chunkserver.startProvisioningOverNodes c nodeNameIP w).2 = calls w ++ new ∧
    Forall planner_request new.
Proof.
  revert w. change (keeps (extends calls planner_request)
                      (chunkserver.startProvisioningOverNodes c nodeNameIP)).
  unfold chunkserver.startProvisioningOverNodes, chunkserver.GetNodeHostNames_,
    chunkserver.GetValidNodes_, ConfigMaps_Get_.
  cbv zeta.
  assert (Hnode : ∀ a h node,
    keeps (extends calls planner_request) (chunkserver.provisionNode c nodeNameIP a h node)).
  { intros a h node. unfold chunkserver.provisionNode. cbv zeta.
    apply keeps_bind; [apply _|apply keeps_same; intros ?; reflexivity|intros dv].
    apply keeps_bind; [apply _| |intros ?; (apply keeps_ret; apply _)].
    apply keeps_for_range; [apply _|]. intros [p r] d.
    unfold chunkserver.provisionDevice.
    apply keeps_bind; [apply _|apply keeps_same; intros ?; reflexivity|intros ?].
    apply keeps_bind; [apply _|apply keeps_same; intros ?; reflexivity|intros ?].
    apply keeps_bind; [apply _|apply runPrepareJob_requests|intros [job [err|]]].
    - keeps_calls.
    - keeps_calls. }
  destruct (negb _); [|(apply keeps_ret; apply _)].
  apply keeps_bind; [apply _|apply keeps_same; intros ?; reflexivity|intros ?].
  apply keeps_bind; [apply _|apply keeps_request; exact I|intros [hostnameMap|err]];
    [|(apply keeps_ret; apply _)].
  apply keeps_bind; [apply _|apply keeps_request; exact I|intros [validNodes ev]].
  destruct (bool_decide _); [keeps_calls|].
  apply keeps_bind; [apply _|apply keeps_same; intros ?; reflexivity|intros ?].
  apply keeps_bind; [apply _|apply createFormatConfigMap_requests|intros [err|]];
    [(apply keeps_ret; apply _)|].
  apply keeps_bind; [apply _|apply keeps_request; exact I|intros [etcdOverrideCM|err]];
    [|(apply keeps_ret; apply _)].
  apply keeps_bind; [apply _|apply keeps_request; exact I|intros [mdsOverrideCM|err]];
    [|(apply keeps_ret; apply _)].
  destruct (curvev1.Enable _); cbv beta iota zeta;
    (apply keeps_bind; [apply _| |intros ?; (apply keeps_ret; apply _)]);
    (apply keeps_for_range; [apply _|]); intros h node; apply Hnode.
Qed.

Local Ltac no_job := repeat (constructor; [intros []|]); constructor.

Lemma createFormatConfigMap_calls (c : chunkserver.Cluster) (w : World S) :
  ∃ (e : option error) (w' : World S) (pre : list Call),
    chunkserver.createFormatConfigMap c w = (Ok e, w') ∧
    same_slices w w' ∧ logs w' = logs w ∧
    calls w' = calls w ++ pre ∧
    Forall (λ c, ¬ is_job_request c) pre.
Proof.
  unfold chunkserver.createFormatConfigMap.
  destruct (chunkserver.SetControllerReference _ _) as [refs|err].
  2:{ do 2 eexists. exists []. split; [reflexivity|]. rewrite app_nil_r.
      split; [by repeat split|]. split; [done|]. split; [done|constructor]. }
  cbv zeta. unfold ConfigMaps_Create_.
  match goal with |- context [request ?c ?op] =>
    destruct (op (store w)) as [r s1] eqn:Hcr end.
  erewrite bind_request; [|exact Hcr].
  destruct r as [cm|err]; [|destruct (IsAlreadyExists err)];
    do 2 eexists; eexists [_]; (split; [reflexivity|]);
    (split; [by repeat split|]); (split; [done|]); (split; [done|]); no_job.
Qed.

Lemma snoc_after {X} (l w p : list X) (a : X) :
  l = w ++ p → l ++ [a] = w ++ p ++ [a].
Proof. intros ->. by rewrite <- app_assoc. Qed.

Lemma snoc2_after {X} (l w p : list X) (a b : X) :
  l = w ++ p → (l ++ [a]) ++ [b] = w ++ p ++ [a; b].
Proof. intros ->. by rewrite <- !app_assoc. Qed.

Local Ltac in_messages :=
  unfold planner_error_messages; clear;
  repeat (first [left; reflexivity | right]).

(** The part of a planning run in explicit mode that comes before the node
    loop: either the run ends there, with both slices empty and without a
    request on a job, or it enters the node loop with the valid nodes, both
    slices empty and the addresses resolved. *)
Lemma planner_prelude (c : chunkserver.Cluster) (nodeNameIP : gmap string string)
    (w : World S) :
  curvev1.UseSelectedNodes (curvev1.Storage (chunkserver.spec c)) = false →
  (∃ (e : option error) (w' : World S) (pre : list Call),
     chunkserver.startProvisioningOverNodes c nodeNameIP w = (Ok e, w') ∧
     chunkserverConfigs w' = [] ∧ job2DeviceInfos w' = [] ∧ vars w' = vars w ∧
     calls w' = calls w ++ pre ∧
     Forall (λ c, ¬ is_job_request c) pre ∧
     submissions (drop (length (logs w)) (logs w')) = [] ∧
     ((e = None ∧ valid_nodes c (store w) = [] ∧
       pre = [Helper_call "GetNodeHostNames"; Helper_call "GetValidNodes"])
      ∨ (∃ cause msg, e = Some (Wrap cause msg) ∧ In msg planner_error_messages)))
  ∨
  (∃ (a : chunkserver.Addresses) (w3 : World S) (pre : list Call),
     valid_nodes c (store w) ≠ [] ∧
     chunkserver.startProvisioningOverNodes c nodeNameIP w =
       (chunkserver.for_range (valid_nodes c (store w))
          (chunkserver.provisionNode c nodeNameIP a) 0
        ≫= λ _ : Z, mret None) w3 ∧
     chunkserverConfigs w3 = [] ∧ job2DeviceInfos w3 = [] ∧ vars w3 = vars w ∧
     calls w3 = calls w ++ pre ∧
     Forall (λ c, ¬ is_job_request c) pre ∧
     chunkserver.clusterMdsDummyPort a
       = (let p := Go.Itoa (curvev1.DummyPort (curvev1.Mds (chunkserver.spec c))) in
          p +:+ "," +:+ p +:+ "," +:+ p) ∧
     (chunkserver.clusterSnapCloneAddr a, chunkserver.clusterSnapShotCloneDummyPort a)
       = (if curvev1.Enable (curvev1.SnapShotClone (chunkserver.spec c))
          then (chunkserver.snapCloneAddr c nodeNameIP,
                let p := Go.Itoa (curvev1.SnapShotClone_DummyPort
                                    (curvev1.SnapShotClone (chunkserver.spec c))) in
                p +:+ "," +:+ p +:+ "," +:+ p)
          else ("", ""))).
Proof.
  intros Hmode. unfold chunkserver.startProvisioningOverNodes.
  rewrite Hmode. cbv beta iota zeta delta [negb].
  erewrite bind_step; [|reflexivity].
  set (w0 := mkWorld _ _ _ _ _ _).
  unfold valid_nodes, chunkserver.GetNodeHostNames_.
  destruct (chunkserver.GetNodeHostNames (store w)) as [[hostnameMap|err] s1] eqn:Hhosts.
  2:{ erewrite bind_request; [|exact Hhosts]. left.
      do 2 eexists. exists [Helper_call "GetNodeHostNames"].
      split; [reflexivity|]. split; [done|]. split; [done|]. split; [done|].
      split; [done|]. split; [no_job|].
      split; [simpl; by rewrite drop_ge|].
      right. do 2 eexists. split; [reflexivity|]. in_messages. }
  erewrite bind_request; [|exact Hhosts]. cbv beta iota.
  unfold chunkserver.GetValidNodes_.
  destruct (chunkserver.GetValidNodes _ s1) as [[validNodes ev] s2] eqn:Hvalid.
  erewrite bind_request; [|exact Hvalid]. cbv beta iota. simpl fst.
  destruct (bool_decide (length validNodes = 0%nat)) eqn:Hzero.
  { apply bool_decide_eq_true in Hzero. destruct validNodes; [|done].
    rewrite bind_logger. left. do 2 eexists.
    exists [Helper_call "GetNodeHostNames"; Helper_call "GetValidNodes"].
    split; [reflexivity|]. split; [done|]. split; [done|]. split; [done|].
    split; [simpl; by rewrite <- app_assoc|]. split; [no_job|].
    split. { simpl. rewrite drop_app_length. apply submissions_neutral.
             repeat constructor; discriminate. }
    left. done. }
  apply bool_decide_eq_false in Hzero.
  rewrite bind_logger.
  set (line := Build_LogEntry Info "%d of the %d storage nodes are valid" _).
  set (w1 := logged _ line).
  assert (Hearly : ∀ (err : error) (msg : string) (w2 : World S) (pre : list Call),
    In msg planner_error_messages →
    same_slices w1 w2 → logs w2 = logs w1 →
    calls w2 = calls w ++ pre → Forall (λ c, ¬ is_job_request c) pre →
    ∃ (e : option error) (w' : World S) (pre : list Call),
      (Ok (Some (Wrap err msg)), w2) = (Ok e, w') ∧
      chunkserverConfigs w' = [] ∧ job2DeviceInfos w' = [] ∧ vars w' = vars w ∧
      calls w' = calls w ++ pre ∧
      Forall (λ c, ¬ is_job_request c) pre ∧
      submissions (drop (length (logs w)) (logs w')) = [] ∧
      ((e = None ∧ validNodes = [] ∧
        pre = [Helper_call "GetNodeHostNames"; Helper_call "GetValidNodes"])
       ∨ (∃ cause msg, e = Some (Wrap cause msg) ∧ In msg planner_error_messages))).
  { intros err msg w2 pre Hmsg (Hi & Hc & Hv) Hl Hcalls Hpre.
    exists (Some (Wrap err msg)), w2, pre. split; [done|].
    rewrite Hc, Hi, Hv. split; [done|]. split; [done|]. split; [done|].
    split; [done|]. split; [done|].
    split. { rewrite Hl. simpl. rewrite drop_app_length. apply submissions_neutral.
             repeat constructor; discriminate. }
    right. by exists err, msg. }
  destruct (createFormatConfigMap_calls c w1)
    as (e & w2 & pre2 & Hcm & Hs2 & Hl2 & Hc2 & Hp2).
  rewrite bind_run, Hcm.
  assert (Hcalls2 : calls w2 = calls w ++ [Helper_call "GetNodeHostNames";
                                            Helper_call "GetValidNodes"] ++ pre2).
  { rewrite Hc2. simpl. by rewrite <- !app_assoc. }
  assert (Hpre2 : Forall (λ c, ¬ is_job_request c)
                    ([Helper_call "GetNodeHostNames"; Helper_call "GetValidNodes"] ++ pre2)).
  { apply Forall_app. split; [no_job|done]. }
  destruct e as [err|].
  { left. eapply Hearly; [|exact Hs2|exact Hl2|exact Hcalls2|exact Hpre2]. in_messages. }
  unfold ConfigMaps_Get_.
  match goal with |- context [request ?cl ?op ≫= _] =>
    destruct (op (store w2)) as [[etcdOverrideCM|err] s3] eqn:Hetcd end;
    (erewrite bind_request; [|exact Hetcd]); cbv beta iota.
  2:{ left. eapply Hearly with (pre := _ ++ [_]).
      - in_messages.
      - destruct Hs2 as (?&?&?). by repeat split.
      - done.
      - simpl. by apply snoc_after.
      - apply Forall_app. split; [exact Hpre2|no_job]. }
  match goal with |- context [request ?cl ?op ≫= _] =>
    destruct (op s3) as [[mdsOverrideCM|err] s4] eqn:Hmds end;
    (erewrite bind_request; [|exact Hmds]); cbv beta iota.
  2:{ left. eapply Hearly with (pre := _ ++ [_; _]).
      - in_messages.
      - destruct Hs2 as (?&?&?). by repeat split.
      - done.
      - simpl. by apply snoc2_after.
      - apply Forall_app. split; [exact Hpre2|no_job]. }
  cbv zeta. right.
  destruct Hs2 as (Hi2 & Hcf2 & Hv2).
  destruct (curvev1.Enable _); cbv beta iota zeta;
    (eexists; eexists; eexists (_ ++ [_; _]));
    (split; [by destruct validNodes|]); (split; [reflexivity|]);
    simpl; rewrite ?Hi2, ?Hcf2, ?Hv2;
    (split; [done|]); (split; [done|]); (split; [done|]);
    (split; [by apply snoc2_after|]);
    (split; [apply Forall_app; split; [exact Hpre2|no_job]|]); done.
Qed.

(** A planning run that returns an error has stopped before the node loop:
    both slices are empty, nothing was submitted and no request on a job
    was issued; the error is the cause wrapped in one of four messages. *)
Theorem planner_error_leaves_nothing (c : chunkserver.Cluster)
    (nodeNameIP : gmap string string) (w w' : World S) (err : error) :
  chunkserver.startProvisioningOverNodes c nodeNameIP w = (Ok (Some err), w') →
  chunkserverConfigs w' = [] ∧ job2DeviceInfos w' = [] ∧
  submissions (drop (length (logs w)) (logs w')) = [] ∧
  (∃ cause msg, err = Wrap cause msg ∧ In msg planner_error_messages) ∧
  ∃ pre, calls w' = calls w ++ pre ∧ Forall (λ c, ¬ is_job_request c) pre.
Proof.
  intros Hrun.
  destruct (curvev1.UseSelectedNodes (curvev1.Storage (chunkserver.spec c))) eqn:Hmode.
  { unfold chunkserver.startProvisioningOverNodes in Hrun. rewrite Hmode in Hrun.
    simpl in Hrun. discriminate Hrun. }
  destruct (planner_prelude c nodeNameIP w Hmode)
    as [(e & w1 & pre & Hrun1 & Hc & Hi & _ & Hcalls & Hpre & Hsub & Hcase)
       |(a & w3 & pre & _ & Hrun1 & _)].
  - rewrite Hrun1 in Hrun. injection Hrun as -> ->.
    destruct Hcase as [(Hnone & _)|(cause & msg & He & Hmsg)]; [discriminate|].
    injection He as ->. split; [exact Hc|]. split; [exact Hi|]. split; [exact Hsub|].
    split; [by exists cause, msg|by exists pre].
  - rewrite Hrun1, bind_run in Hrun.
    destruct (chunkserver.for_range _ _ _ w3) as [[h|msg|] w4]; discriminate.
Qed.

(** The errors of the submissions are swallowed: a planning run that
    returns after a submission was logged as failed returns nil. *)
Theorem planner_swallows_submission_errors (c : chunkserver.Cluster)
    (nodeNameIP : gmap string string) (w w' : World S) (e : option error)
    (node device : string) :
  chunkserver.startProvisioningOverNodes c nodeNameIP w = (Ok e, w') →
  In (node, device, false) (submissions (drop (length (logs w)) (logs w'))) →
  e = None.
Proof.
  intros Hrun Hfailed.
  destruct (curvev1.UseSelectedNodes (curvev1.Storage (chunkserver.spec c))) eqn:Hmode.
  { unfold chunkserver.startProvisioningOverNodes in Hrun. rewrite Hmode in Hrun.
    simpl in Hrun. by injection Hrun as <- _. }
  destruct (planner_prelude c nodeNameIP w Hmode)
    as [(e1 & w1 & pre & Hrun1 & _ & _ & _ & _ & _ & Hsub & _)
       |(a & w3 & pre & _ & Hrun1 & _)].
  - rewrite Hrun1 in Hrun. injection Hrun as -> ->. rewrite Hsub in Hfailed.
    destruct Hfailed.
  - rewrite Hrun1, bind_run in Hrun.
    destruct (chunkserver.for_range _ _ _ w3) as [[h|msg|] w4]; [|discriminate..].
    rewrite ret_run in Hrun. by injection Hrun as <- _.
Qed.

(** A planning run in explicit mode that finds no valid node: whatever
    error GetValidNodes reports beside the empty list, the run logs one
    warning and returns nil after the two helper calls; no ConfigMap is
    created or read, no job is looked up. *)
Theorem planner_without_valid_nodes (c : chunkserver.Cluster)
    (nodeNameIP : gmap string string) (w : World S)
    (hostnameMap : gmap string string) (ev : option error) (s1 s2 : S) :
  curvev1.UseSelectedNodes (curvev1.Storage (chunkserver.spec c)) = false →
  chunkserver.GetNodeHostNames (store w) = (inl hostnameMap, s1) →
  chunkserver.GetValidNodes
    (map (Go.index hostnameMap) (curvev1.Nodes (curvev1.Storage (chunkserver.spec c))))
    s1 = (([], ev), s2) →
  ∃ w' : World S,
    chunkserver.startProvisioningOverNodes c nodeNameIP w = (Ok None, w') ∧
    calls w' = calls w ++ [Helper_call "GetNodeHostNames"; Helper_call "GetValidNodes"] ∧
    store w' = s2 ∧
    chunkserverConfigs w' = [] ∧ job2DeviceInfos w' = [] ∧
    logs w' = logs w ++
      [Build_LogEntry Warning
         "no valid nodes available to run chunkservers on nodes in namespace %q"
         [ArgS (chunkserver.Namespace (chunkserver.namespacedName c))]].
Proof.
  intros Hmode Hhosts Hvalid. unfold chunkserver.startProvisioningOverNodes.
  rewrite Hmode. cbv beta iota zeta delta [negb].
  erewrite bind_step; [|reflexivity].
  unfold chunkserver.GetNodeHostNames_.
  erewrite bind_request; [|exact Hhosts]. cbv beta iota.
  unfold chunkserver.GetValidNodes_.
  erewrite bind_request; [|exact Hvalid]. cbv beta iota.
  rewrite bool_decide_eq_true_2 by done. rewrite bind_logger.
  eexists. split; [reflexivity|]. simpl. rewrite <- app_assoc. done.
Qed.




(** One iteration of the device loop that returns: the loop variable now
    holds the device, and the TaskRecord made, if any, stores its address. *)
Lemma provisionDevice_vars (c : chunkserver.Cluster) (a : chunkserver.Addresses)
    (node : K8s.Node) (nodeIP : string) (host : Z) (dv : ptr) (st st' : Z * Z)
    (d : curvev1.DevicesSpec) (w w' : World S) :
  chunkserver.provisionDevice c a node nodeIP host dv st d w = (Ok st', w') →
  vars w' = <[dv := d]> (vars w) ∧
  ∃ new, job2DeviceInfos w' = job2DeviceInfos w ++ new ∧
         Forall (λ i, device i = dv) new.
Proof.
  destruct st as [p r]. unfold chunkserver.provisionDevice.
  erewrite bind_step; [|reflexivity]. rewrite bind_logger.
  set (w0 := logged _ _).
  destruct (runPrepareJob_frame c (Node_Name node) d w0)
    as (o & w1 & Hrun & (Hi & Hc & Hv) & _).
  rewrite bind_run, Hrun.
  destruct o as [[job [err|]]|msg|]; [| |discriminate..].
  - rewrite bind_logger. intros [= <- <-]. simpl. rewrite Hv, Hi.
    split; [done|]. exists []. by rewrite app_nil_r.
  - erewrite bind_step; [|reflexivity]. erewrite bind_step; [|reflexivity].
    intros [= <- <-]. simpl. rewrite Hv, Hi.
    split; [done|]. eexists [_]. split; [done|]. by constructor.
Qed.

Lemma device_loop_vars (c : chunkserver.Cluster) (a : chunkserver.Addresses)
    (node : K8s.Node) (nodeIP : string) (host : Z) (dv : ptr)
    (ds : list curvev1.DevicesSpec) :
  ∀ (st st' : Z * Z) (w w' : World S),
  chunkserver.for_range ds (chunkserver.provisionDevice c a node nodeIP host dv) st w
    = (Ok st', w') →
  vars w' = match last ds with Some d => <[dv := d]> (vars w) | None => vars w end ∧
  ∃ new, job2DeviceInfos w' = job2DeviceInfos w ++ new ∧
         Forall (λ i, device i = dv) new ∧ (ds = [] → new = []).
Proof.
  induction ds as [|d ds IH]; intros st st' w w'.
  - intros [= <- <-]. split; [done|]. exists []. by rewrite app_nil_r.
  - rewrite for_range_cons.
    destruct (chunkserver.provisionDevice c a node nodeIP host dv st d w)
      as [[st1|msg|] w1] eqn:H1; [|discriminate..].
    intros Hrest.
    destruct (provisionDevice_vars _ _ _ _ _ _ _ _ _ _ _ H1) as (Hv1 & new1 & Hi1 & Hd1).
    destruct (IH _ _ _ _ Hrest) as (Hv & new & Hi & Hd & _).
    split.
    + rewrite Hv, Hv1, last_cons. destruct (last ds); [|done].
      by rewrite list_insert_insert_eq.
    + exists (new1 ++ new). split; [by rewrite Hi, Hi1, app_assoc|].
      split; [by apply Forall_app|done].
Qed.

Lemma provisionNode_vars (c : chunkserver.Cluster) (nodeNameIP : gmap string string)
    (a : chunkserver.Addresses) (host h : Z) (node : K8s.Node) (w w' : World S) :
  let devices := curvev1.Devices (curvev1.Storage (chunkserver.spec c)) in
  chunkserver.provisionNode c nodeNameIP a host node w = (Ok h, w') →
  vars w' = vars w ++ [default chunkserver.zero_DevicesSpec (last devices)] ∧
  ∃ new, job2DeviceInfos w' = job2DeviceInfos w ++ new ∧
         Forall (λ i, device i = length (vars w)) new ∧ (devices = [] → new = []).
Proof.
  intros devices. unfold chunkserver.provisionNode.
  erewrite bind_step; [|reflexivity]. rewrite bind_run. fold devices.
  match goal with |- context [chunkserver.for_range devices ?body ?st ?w0] =>
    destruct (chunkserver.for_range devices body st w0) as [[st'|msg|] w1] eqn:Hloop
  end; [|discriminate..].
  rewrite ret_run. intros [= _ <-].
  destruct (device_loop_vars _ _ _ _ _ _ _ _ _ _ _ Hloop) as (Hv & new & Hi & Hd & Hnil).
  simpl in Hv, Hi. split; [|by exists new].
  rewrite Hv. destruct (last devices) as [d|]; [|done]. simpl.
  rewrite insert_app_r_alt by done. by rewrite Nat.sub_diag.
Qed.

Lemma node_loop_vars (c : chunkserver.Cluster) (nodeNameIP : gmap string string)
    (a : chunkserver.Addresses) (nodes : list K8s.Node) :
  let devices := curvev1.Devices (curvev1.Storage (chunkserver.spec c)) in
  ∀ (host h : Z) (w w' : World S),
  chunkserver.for_range nodes (chunkserver.provisionNode c nodeNameIP a) host w
    = (Ok h, w') →
  ∃ (k : nat) (new : list Job2DeviceInfo),
    vars w' = vars w ++ replicate k (default chunkserver.zero_DevicesSpec (last devices)) ∧
    job2DeviceInfos w' = job2DeviceInfos w ++ new ∧
    Forall (λ i, length (vars w) ≤ device i < length (vars w) + k)%nat new ∧
    (devices = [] → new = []).
Proof.
  intros devices. induction nodes as [|node nodes IH]; intros host h w w'.
  - intros [= <- <-]. exists 0%nat, []. simpl. by rewrite !app_nil_r.
  - rewrite for_range_cons.
    destruct (chunkserver.provisionNode c nodeNameIP a host node w)
      as [[h1|msg|] w1] eqn:H1; [|discriminate..].
    intros Hrest.
    destruct (provisionNode_vars _ _ _ _ _ _ _ _ H1) as (Hv1 & new1 & Hi1 & Hd1 & Hnil1).
    destruct (IH _ _ _ _ Hrest) as (k & new & Hv & Hi & Hd & Hnil).
    exists (Datatypes.S k), (new1 ++ new).
    split. { rewrite Hv, Hv1, <- app_assoc. done. }
    split. { by rewrite Hi, Hi1, app_assoc. }
    split.
    + apply Forall_app. split.
      * eapply Forall_impl; [exact Hd1|]. intros i Hi'. simpl in Hi'. lia.
      * eapply Forall_impl; [exact Hd|]. intros i Hi'. simpl in Hi'.
        rewrite Hv1, length_app in Hi'. simpl in Hi'. lia.
    + intros Hnone. by rewrite Hnil1, Hnil.
Qed.

(** What the [device] pointers of the TaskRecords read after a planning run
    in explicit mode that returned: every one of them, whichever device its
    job was submitted for, points to a variable holding the last configured
    device (the address stored is the one of the loop variable). *)
Theorem TaskRecords_read_the_last_device (c : chunkserver.Cluster)
    (nodeNameIP : gmap string string) (w w' : World S) (e : option error) :
  curvev1.UseSelectedNodes (curvev1.Storage (chunkserver.spec c)) = false →
  chunkserver.startProvisioningOverNodes c nodeNameIP w = (Ok e, w') →
  Forall (λ info, vars w' !! device info
                  = last (curvev1.Devices (curvev1.Storage (chunkserver.spec c))))
    (job2DeviceInfos w').
Proof.
  intros Hmode Hrun.
  destruct (planner_prelude c nodeNameIP w Hmode)
    as [(e1 & w1 & pre & Hrun1 & _ & Hi & _)
       |(a & w3 & pre & _ & Hrun1 & _ & Hi3 & _)].
  - rewrite Hrun1 in Hrun. injection Hrun as _ <-. rewrite Hi. constructor.
  - rewrite Hrun1, bind_run in Hrun.
    destruct (chunkserver.for_range _ _ _ w3) as [[h|msg|] w4] eqn:Hloop;
      [|discriminate..].
    rewrite ret_run in Hrun. injection Hrun as _ <-.
    destruct (node_loop_vars _ _ _ _ _ _ _ _ Hloop) as (k & new & Hv & Hi & Hd & Hnil).
    rewrite Hi, Hi3. simpl.
    destruct (last (curvev1.Devices (curvev1.Storage (chunkserver.spec c))))
      as [d|] eqn:Hlast.
    + eapply Forall_impl; [exact Hd|]. intros i Hi'. simpl in Hi'.
      rewrite Hv, lookup_app_r by lia. simpl. apply lookup_replicate_2. lia.
    + apply last_None in Hlast. rewrite (Hnil Hlast). constructor.
Qed.

(** runPrepareJob when the lookup finds the job with an active instance:
    nothing is created; the handle returned is the job found in the store,
    not the definition just built. *)
Theorem runPrepareJob_reuses_active_job (c : chunkserver.Cluster) (nodeName : string)
    (d : curvev1.DevicesSpec) (job existing : Job) (w : World S) (s1 : S) :
  chunkserver.makeJob c nodeName d = inl job →
  Jobs_Get (Job_Namespace job) (Job_Name job) (store w) = (inl existing, s1) →
  0 < Active (Job_Status existing) →
  ∃ w' : World S,
    chunkserver.runPrepareJob c nodeName d w = (Ok (existing, None), w') ∧
    calls w' = calls w ++ [Jobs_Get_call (Job_Namespace job) (Job_Name job)] ∧
    store w' = s1 ∧
    logs w' = logs w ++ [Build_LogEntry Info "Found previous job %s. Status=%+v"
                           [ArgS (Job_Name job); ArgStatus (Job_Status existing)]] ∧
    same_slices w w'.
Proof.
  intros Hmake Hget Hactive. unfold chunkserver.runPrepareJob.
  rewrite Hmake. cbv zeta. unfold Jobs_Get_.
  erewrite bind_request; [|exact Hget]. cbv beta iota.
  assert ((0 <? Active (Job_Status existing)) = true) as -> by lia.
  rewrite bind_logger. eexists. split; [reflexivity|]. by repeat split.
Qed.

(** runPrepareJob drops the error of makeJob: it panics (nil pointer
    dereference) exactly when makeJob fails, and then before any request;
    when makeJob succeeds it returns. *)
Theorem runPrepareJob_panics_iff_makeJob_fails (c : chunkserver.Cluster)
    (nodeName : string) (d : curvev1.DevicesSpec) (w : World S) :
  match chunkserver.makeJob c nodeName d with
  | inr _ =>
      chunkserver.runPrepareJob c nodeName d w
      = (Panic "invalid memory address or nil pointer dereference", w)
  | inl job =>
      ∃ (existing : Job) (e : option error) (w' : World S),
        chunkserver.runPrepareJob c nodeName d w = (Ok (existing, e), w') ∧
        ∃ rest, calls w' = calls w ++
                  Jobs_Get_call (Job_Namespace job) (Job_Name job) :: rest
  end.
Proof.
  unfold chunkserver.runPrepareJob.
  destruct (chunkserver.makeJob c nodeName d) as [job|err]; [|reflexivity].
  cbv zeta. unfold Jobs_Get_, Jobs_Create_.
  destruct (Jobs_Get (Job_Namespace job) (Job_Name job) (store w))
    as [[existing|err] s1] eqn:Hget;
    (erewrite bind_request; [|exact Hget]); cbv beta iota.
  - destruct (0 <? Active (Job_Status existing)).
    + rewrite bind_logger. do 3 eexists. split; [reflexivity|]. by exists [].
    + match goal with |- context [request ?cl ?op ≫= _] =>
        destruct (op s1) as [r s2] eqn:Hcr end.
      erewrite bind_request; [|exact Hcr]. do 3 eexists. split; [reflexivity|].
      eexists [_]. simpl. by rewrite <- app_assoc.
  - destruct (IsNotFound err); cbv beta iota delta [negb]; [|rewrite bind_logger];
      (match goal with |- context [request ?cl ?op ≫= _] =>
         destruct (op s1) as [r s2] eqn:Hcr end);
      (erewrite bind_request; [|exact Hcr]); do 3 eexists; (split; [reflexivity|]);
      eexists [_]; simpl; by rewrite <- app_assoc.
Qed.

(** Start and the barrier.  With a specification that passes the checks
    and a planning run that returned nil, Start sets the condition
    "Formating chunkfilepool" and waits for the barrier; when the barrier
    does not report true, Start ends there: with the 24 hours error if it
    reported false, and in any case in the world the barrier left, so
    without having created a pool or started a chunkserver. *)
Theorem Start_stops_at_the_barrier (c : chunkserver.Cluster)
    (nodeNameIP : gmap string string) (w wp w2 : World S) (o : outcome bool) :
  let storage := curvev1.Storage (chunkserver.spec c) in
  let w0 :=
    logged (logged w (Build_LogEntry Info "start running chunkserver in namespace %q"
                        [ArgS (chunkserver.Namespace (chunkserver.namespacedName c))]))
      (Build_LogEntry Info "starting to prepare the chunk file" []) in
  let w1 :=
    called wp (Helper_call "UpdateCondition")
      (chunkserver.UpdateCondition (chunkserver.namespacedName c)
         "ConditionTypeFormatedReady" "ConditionTrue"
         "ConditionFormatingChunkfilePoolReason" "Formating chunkfilepool"
         (store wp)) in
  (if curvev1.UseSelectedNodes storage
   then curvev1.SelectedNodes storage ≠ []
   else curvev1.Nodes storage ≠ [] ∧ curvev1.Devices storage ≠ []) →
  chunkserver.startProvisioningOverNodes c nodeNameIP w0 = (Ok None, wp) →
  chunkserver.checkJobStatus c w1 = (o, w2) →
  o ≠ Ok true →
  chunkserver.Start c nodeNameIP w =
    (match o with
     | Ok _ => Ok (Some (New "Format job is not completed in 24 hours and exit with -1"))
     | Panic msg => Panic msg
     | Blocked => Blocked
     end, w2).
Proof.
  intros storage w0 w1 Hvalid Hprov Hbarrier Hnot.
  unfold chunkserver.Start. fold storage. rewrite bind_logger.
  assert (Hchecks :
    negb (curvev1.UseSelectedNodes storage)
    && (bool_decide (length (curvev1.Nodes storage) = 0%nat)
        || bool_decide (length (curvev1.Devices storage) = 0%nat)) = false ∧
    curvev1.UseSelectedNodes storage
    && bool_decide (length (curvev1.SelectedNodes storage) = 0%nat) = false).
  { destruct (curvev1.UseSelectedNodes storage); simpl.
    - split; [done|]. apply bool_decide_eq_false_2.
      by destruct (curvev1.SelectedNodes storage).
    - destruct Hvalid as [Hn Hd]. split; [|done].
      rewrite !bool_decide_eq_false_2; [done|..].
      + by destruct (curvev1.Devices storage).
      + by destruct (curvev1.Nodes storage). }
  destruct Hchecks as [-> ->]. rewrite bind_logger.
  fold w0. rewrite bind_run, Hprov. cbv beta iota.
  unfold chunkserver.UpdateCondition_. erewrite bind_request; [|reflexivity].
  fold w1. rewrite bind_run, Hbarrier.
  destruct o as [[|]|msg|]; done.
Qed.

End chunkserver_more.

(** ** The format ConfigMap *)

Section createFormatConfigMap_facts.
Context {S : Type} `{!Clientset S} `{!chunkserver.Collaborators S}.


End createFormatConfigMap_facts.

(** ** Names and labels *)

Lemma Split_without_sep (s : string) (sep : ascii) :
  without_char sep s → Go.Split s sep = [s].
Proof.
  unfold without_char. induction s as [|ch s IH]; [done|]. simpl.
  intros Hs. inversion Hs as [|? ? Hch Hrest]; subst.
  rewrite decide_False by done. by rewrite IH.
Qed.

Lemma Split_at_first_sep (a b : string) (sep : ascii) :
  without_char sep a →
  Go.Split (a +:+ String sep b) sep = a :: Go.Split b sep.
Proof.
  unfold without_char. induction a as [|ch a IH]; simpl.
  - intros _. by rewrite decide_True.
  - intros Hs. inversion Hs as [|? ? Hch Hrest]; subst.
    rewrite decide_False by done. by rewrite IH.
Qed.

Lemma Split_elements (s : string) (sep : ascii) :
  Go.Split s sep ≠ [] ∧ Forall (without_char sep) (Go.Split s sep).
Proof.
  induction s as [|ch s [IHne IH]]; simpl.
  - split; [done|]. repeat constructor.
  - destruct (decide (ch = sep)).
    + split; [done|]. constructor; [constructor|done].
    + destruct (Go.Split s sep) as [|h t]; [done|]. split; [done|].
      inversion IH; subst. constructor; [|done]. by constructor.
Qed.

(** The labels of a preparation pod: always the same four keys; the device
    label is the node name when the device name has no "/", and the
    element after the first "/" otherwise, whatever follows it. *)
Theorem getPodLabels_device_label (c : chunkserver.Cluster) (nodeName : string) :
  (∀ deviceName,
     dom (chunkserver.getPodLabels c nodeName deviceName)
       = ({["app"; "node"; "device"; "curve_cluster"]} : gset string) ∧
     chunkserver.getPodLabels c nodeName deviceName !! "app"
       = Some chunkserver.PrepareJobName ∧
     chunkserver.getPodLabels c nodeName deviceName !! "node" = Some nodeName ∧
     chunkserver.getPodLabels c nodeName deviceName !! "curve_cluster"
       = Some (chunkserver.Namespace (chunkserver.namespacedName c))) ∧
  (∀ deviceName, without_char "/" deviceName →
     chunkserver.getPodLabels c nodeName deviceName !! "device" = Some nodeName) ∧
  (∀ a b rest, without_char "/" a → without_char "/" b →
     chunkserver.getPodLabels c nodeName (a +:+ "/" +:+ b) !! "device" = Some b ∧
     chunkserver.getPodLabels c nodeName (a +:+ "/" +:+ b +:+ "/" +:+ rest) !! "device"
       = Some b).
Proof.
  split; [|split].
  - intros deviceName. unfold chunkserver.getPodLabels. cbv zeta.
    split. { rewrite !dom_insert_L, dom_empty_L. set_solver. }
    split. { by rewrite !lookup_insert_ne, lookup_insert_eq by done. }
    split. { by rewrite !lookup_insert_ne, lookup_insert_eq by done. }
    by rewrite lookup_insert_eq.
  - intros deviceName Hd. unfold chunkserver.getPodLabels. cbv zeta.
    rewrite (Split_without_sep _ _ Hd). simpl.
    by rewrite lookup_insert_ne, lookup_insert_eq by done.
  - intros a b rest Ha Hb. unfold chunkserver.getPodLabels. cbv zeta.
    change (a +:+ "/" +:+ b) with (a +:+ String "/" b).
    change (a +:+ "/" +:+ b +:+ "/" +:+ rest) with (a +:+ String "/" (b +:+ String "/" rest)).
    rewrite !Split_at_first_sep, (Split_without_sep _ _ Hb) by done. simpl.
    split; by rewrite lookup_insert_ne, lookup_insert_eq by done.
Qed.

Section makeJob_facts.
Context {S : Type} `{!Clientset S} `{!chunkserver.Collaborators S}.

(** The job makeJob builds: it lives in the cluster's namespace, is pinned
    to the node, and is named prepare-chunkfile-<node>-<short name>, where
    the short name of the device never contains a "/"; hence two devices
    with the same short name on one node are given the same job. *)
Theorem makeJob_names_the_job (c : chunkserver.Cluster) (nodeName : string)
    (d : curvev1.DevicesSpec) (job : Job) :
  chunkserver.makeJob c nodeName d = inl job →
  Job_Name job = chunkserver.PrepareJobName +:+ "-" +:+ nodeName +:+ "-"
                 +:+ chunkserver.short_name (curvev1.Name d) ∧
  without_char "/" (chunkserver.short_name (curvev1.Name d)) ∧
  Job_Namespace job = chunkserver.Namespace (chunkserver.namespacedName c) ∧
  K8s.NodeName (Template_Spec (Job_Template job)) = nodeName ∧
  ∀ d' job',
    chunkserver.makeJob c nodeName d' = inl job' →
    chunkserver.short_name (curvev1.Name d') = chunkserver.short_name (curvev1.Name d) →
    Job_Name job' = Job_Name job ∧ Job_Namespace job' = Job_Namespace job.
Proof.
  assert (Hname : ∀ d0 job0, chunkserver.makeJob c nodeName d0 = inl job0 →
    Job_Name job0 = chunkserver.PrepareJobName +:+ "-" +:+ nodeName +:+ "-"
                    +:+ chunkserver.short_name (curvev1.Name d0) ∧
    Job_Namespace job0 = chunkserver.Namespace (chunkserver.namespacedName c) ∧
    K8s.NodeName (Template_Spec (Job_Template job0)) = nodeName).
  { intros d0 job0. unfold chunkserver.makeJob.
    destruct (chunkserver.createFormatVolumeAndMount c d0) as [volumes volumeMounts].
    cbv zeta. destruct (chunkserver.SetControllerReference _ _) as [refs|err];
      [|discriminate].
    intros [= <-]. done. }
  intros Hmake. destruct (Hname _ _ Hmake) as (Hn & Hns & Hnode).
  split; [exact Hn|]. split.
  - unfold chunkserver.short_name. cbv zeta.
    destruct (Split_elements (Go.TrimRight (Go.TrimSpace (curvev1.Name d)) ["/"%char]) "/")
      as [Hne Hall].
    destruct (Go.Split _ _) as [|h t] using rev_ind; [done|].
    rewrite List.last_last. apply Forall_app in Hall as [_ Hall]. by inversion Hall.
  - split; [exact Hns|]. split; [exact Hnode|].
    intros d' job' Hmake' Hshort. destruct (Hname _ _ Hmake') as (Hn' & Hns' & _).
    by rewrite Hn', Hn, Hns', Hns, Hshort.
Qed.

End makeJob_facts.

(** ** The requests of RunReplaceableJob *)

Section k8sutil_traces.
Context {S : Type} `{!Clientset S}.

Lemma DeleteBatchJob_waits (namespace name : string) (w : World S) :
  ∃ (e : option error) (w' : World S) (polls : list Call),
    k8sutil.DeleteBatchJob namespace name true w = (Ok e, w') ∧
    calls w' = calls w ++ Jobs_Delete_call namespace name foreground_delete :: polls ∧
    Forall is_poll polls ∧ same_slices w w' ∧ (is_Some e → polls = []).
Proof.
  destruct (Jobs_Delete namespace name foreground_delete (store w)) as [[err|] s1] eqn:Hdel.
  - rewrite (DeleteBatchJob_rejected _ _ _ _ _ _ Hdel).
    do 2 eexists. exists []. split; [reflexivity|]. split; [done|].
    split; [constructor|]. split; [by repeat split|done].
  - destruct (DeleteBatchJob_accepted _ _ _ _ Hdel)
      as (k & w' & _ & _ & _ & Hrun & Hcalls & Hs).
    exists None, w',
      (poll_rounds k namespace name
       ++ (if decide (k < 30)%nat then [Jobs_Get_call namespace name] else [])).
    split; [done|]. split; [by rewrite Hcalls|]. split.
    { apply Forall_app. split.
      - unfold poll_rounds. apply Forall_concat, Forall_replicate.
        by repeat constructor.
      - destruct (decide (k < 30)%nat); by repeat constructor. }
    split; [done|]. by intros [? ?].
Qed.

(** The requests of RunReplaceableJob, for every job, flag and store: it
    always returns, and what it asks of the server after the lookup is
    nothing (only without the flag, and then it returns nil), or one
    create, or one delete that failed, or one delete, its existence checks
    and sleeps and then one create.  So there is never more than one
    delete or create, a create is always the last request, and nothing is
    created after a delete that failed. *)
Theorem RunReplaceableJob_trace (job : Job) (deleteIfFound : bool) (w : World S) :
  let ns := Job_Namespace job in
  ∃ (e : option error) (w' : World S) (rest : list Call),
    k8sutil.RunReplaceableJob job deleteIfFound w = (Ok e, w') ∧
    same_slices w w' ∧
    calls w' = calls w ++ Jobs_Get_call ns (Job_Name job) :: rest ∧
    ((rest = [] ∧ e = None ∧ deleteIfFound = false)
     ∨ rest = [Jobs_Create_call ns job]
     ∨ ∃ (name : string) (polls : list Call),
         Forall is_poll polls ∧
         ((rest = [Jobs_Delete_call ns name foreground_delete] ∧ is_Some e)
          ∨ rest = Jobs_Delete_call ns name foreground_delete :: polls
                   ++ [Jobs_Create_call ns job])).
Proof.
  intros ns. unfold k8sutil.RunReplaceableJob. cbv zeta. fold ns.
  assert (Hcreate : ∀ (w1 : World S) (pre : list Call),
    same_slices w w1 → calls w1 = calls w ++ pre →
    ∃ (e : option error) (w' : World S),
      (r ← Jobs_Create_ ns job;
       mret (match r with inl _ => None | inr err => Some err end)) w1 = (Ok e, w') ∧
      same_slices w w' ∧ calls w' = calls w ++ pre ++ [Jobs_Create_call ns job]).
  { intros w1 pre Hs Hc. unfold Jobs_Create_.
    destruct (Jobs_Create ns job (store w1)) as [r s2] eqn:Hcr.
    erewrite bind_request; [|exact Hcr]. do 2 eexists. split; [reflexivity|].
    split. { destruct Hs as (?&?&?). by repeat split. }
    simpl. by rewrite Hc, <- app_assoc. }
  unfold Jobs_Get_.
  destruct (Jobs_Get ns (Job_Name job) (store w)) as [[existing|err] s1] eqn:Hget;
    (erewrite bind_request; [|exact Hget]); cbv beta iota.
  - destruct ((0 <? Active (Job_Status existing)) && negb deleteIfFound) eqn:Hguard.
    + rewrite bind_logger. do 2 eexists. exists []. split; [reflexivity|].
      split; [by repeat split|]. split; [done|]. left.
      apply andb_true_iff in Hguard as [_ Hflag]. by destruct deleteIfFound.
    + rewrite bind_logger, bind_run.
      match goal with |- context [k8sutil.DeleteBatchJob _ _ _ ?w1] =>
        destruct (DeleteBatchJob_waits ns (Job_Name existing) w1)
          as (e & w2 & polls & Hrun & Hcalls & Hpolls & Hs & Hnone)
      end.
      rewrite Hrun. destruct e as [err|].
      * do 2 eexists. exists [Jobs_Delete_call ns (Job_Name existing) foreground_delete].
        split; [reflexivity|]. split; [exact Hs|].
        rewrite Hcalls, (Hnone (mk_is_Some _ _ eq_refl)). simpl.
        split; [by rewrite <- app_assoc|]. right. right.
        exists (Job_Name existing), []. split; [constructor|]. left. by split.
      * destruct (Hcreate w2
                    (Jobs_Get_call ns (Job_Name job)
                     :: Jobs_Delete_call ns (Job_Name existing) foreground_delete :: polls))
          as (e & w' & Hrun' & Hs' & Hcalls').
        { exact Hs. }
        { rewrite Hcalls. simpl. by rewrite <- app_assoc. }
        exists e, w', (Jobs_Delete_call ns (Job_Name existing) foreground_delete
                       :: polls ++ [Jobs_Create_call ns job]).
        split; [exact Hrun'|]. split; [exact Hs'|]. split; [exact Hcalls'|].
        right. right. exists (Job_Name existing), polls. split; [exact Hpolls|]. by right.
  - assert (Hrest : ∀ w1 : World S,
      same_slices w w1 → calls w1 = calls w ++ [Jobs_Get_call ns (Job_Name job)] →
      ∃ (e : option error) (w' : World S) (rest : list Call),
        (r ← Jobs_Create_ ns job;
         mret (match r with inl _ => None | inr err => Some err end)) w1 = (Ok e, w') ∧
        same_slices w w' ∧
        calls w' = calls w ++ Jobs_Get_call ns (Job_Name job) :: rest ∧
        ((rest = [] ∧ e = None ∧ deleteIfFound = false)
         ∨ rest = [Jobs_Create_call ns job]
         ∨ ∃ (name : string) (polls : list Call),
             Forall is_poll polls ∧
             ((rest = [Jobs_Delete_call ns name foreground_delete] ∧ is_Some e)
              ∨ rest = Jobs_Delete_call ns name foreground_delete :: polls
                       ++ [Jobs_Create_call ns job]))).
    { intros w1 Hs Hc. destruct (Hcreate w1 _ Hs Hc) as (e & w' & Hrun & Hs' & Hc').
      exists e, w', [Jobs_Create_call ns job]. split; [exact Hrun|].
      split; [exact Hs'|]. split; [exact Hc'|]. right. by left. }
    destruct (IsNotFound err); cbv beta iota delta [negb]; [|rewrite bind_logger];
      apply Hrest; by repeat split.
Qed.

End k8sutil_traces.

(** ** The further properties on the in-memory server *)

Import scenarios.


(** The lookup fails with "not found" on an empty store: the job is created. *)
Lemma RunReplaceableJob_creates_when_lookup_fails_witness :
  let w := fake.world (a_store [] 1 None) in
  ∃ (s2 : fake.Store) (w' : World fake.Store),
    Jobs_Get "curve" job_name (store w) = (inr (fake.not_found job_name), store w) ∧
    Jobs_Create "curve" running_job (store w) = (inl running_job, s2) ∧
    k8sutil.RunReplaceableJob running_job true w = (Ok None, w') ∧
    calls w' = [Jobs_Get_call "curve" job_name; Jobs_Create_call "curve" running_job] ∧
    store w' = s2 ∧ logs w' = [].
Proof.
  intros w.
  destruct (Jobs_Create (Job_Namespace running_job) running_job (store w))
    as [r s2] eqn:Hcreate.
  assert (Hr : r = inl running_job)
    by (vm_compute in Hcreate; injection Hcreate as <- _; reflexivity).
  subst r.
  assert (Hget : Jobs_Get (Job_Namespace running_job) (Job_Name running_job) (store w)
                 = (inr (fake.not_found job_name), store w)) by (vm_compute; reflexivity).
  destruct (RunReplaceableJob_creates_when_lookup_fails running_job true w
              (fake.not_found job_name) (store w) s2 (inl running_job) Hget Hcreate)
    as (w' & Hrun & Hcalls & Hstore & Hlogs & _).
  exists s2, w'. split; [exact Hget|]. split; [exact Hcreate|].
  split; [exact Hrun|]. split; [exact Hcalls|]. split; [exact Hstore|exact Hlogs].
Defined.

(** A server that refuses deletes, and a delete without a wait. *)
Lemma DeleteBatchJob_single_request_witness :
  let v := fake.world (a_store [finished_job] 1 (Some forbidden)) in
  let w := fake.world (a_store [finished_job] 1 None) in
  let del := Jobs_Delete_call "curve" job_name foreground_delete in
  (∃ w', k8sutil.DeleteBatchJob "curve" job_name true v =
           (Ok (Some (k8sutil.Errorf_remove_previous job_name forbidden)), w') ∧
         calls w' = calls v ++ [del] ∧ store w' = store v ∧ logs w' = logs v) ∧
  (∃ s1 w', Jobs_Delete "curve" job_name foreground_delete (store w) = (None, s1) ∧
            k8sutil.DeleteBatchJob "curve" job_name false w = (Ok None, w') ∧
            calls w' = calls w ++ [del] ∧ store w' = s1 ∧ logs w' = logs w).
Proof.
  intros v w del. split.
  - apply (proj1 (DeleteBatchJob_single_request "curve" job_name v) true forbidden (store v));
      vm_compute; reflexivity.
  - destruct (Jobs_Delete "curve" job_name foreground_delete (store w)) as [e s1] eqn:Hdel.
    assert (He : e = None) by (vm_compute in Hdel; congruence). subst e.
    exists s1.
    destruct (proj2 (DeleteBatchJob_single_request "curve" job_name w) s1 Hdel)
      as (w' & Hrun). by exists w'.
Defined.

(** A job that lingers for a hundred sleeps: 30 checks, 90 seconds of sleep,
    and nil all the same. *)
Lemma DeleteBatchJob_sleeps_at_most_90_seconds_witness :
  let stuck := fake.world (a_store [finished_job] 100 None) in
  ∃ (w' : World fake.Store) (polls : list Call),
    k8sutil.DeleteBatchJob "curve" job_name true stuck = (Ok None, w') ∧
    calls w' = Jobs_Delete_call "curve" job_name foreground_delete :: polls ∧
    sleep_total polls = 90 * Second ∧ fetch_count polls = 30%nat.
Proof.
  intros stuck.
  destruct (DeleteBatchJob_sleeps_at_most_90_seconds "curve" job_name true stuck)
    as (e & w' & polls & Hrun & Hcalls & _ & _ & _ & Hfull).
  destruct (Hfull eq_refl
              (Jobs_Delete "curve" job_name foreground_delete (store stuck)).2)
    as (Hsleep & Hfetch & ->).
  - vm_compute. reflexivity.
  - intros j Hj. do 30 (destruct j as [|j]; [vm_compute; reflexivity|]). lia.
  - exists w', polls. split; [exact Hrun|]. split; [exact Hcalls|].
    split; [exact Hsleep|exact Hfetch].
Defined.

(** Without the override ConfigMaps the run stops at the first of them. *)
Lemma planner_error_leaves_nothing_witness :
  let r := chunkserver.startProvisioningOverNodes two_by_two ∅ (fake.world bare_store) in
  r.1 = Ok (Some (Wrap (fake.not_found "etcd-endpoints-override")
                    "failed to get etcd override endoints configmap")) ∧
  chunkserverConfigs r.2 = [] ∧ job2DeviceInfos r.2 = [] ∧
  submissions (logs r.2) = [] ∧
  map kind (calls r.2) = ["helper"; "helper"; "create configmap"; "get configmap"].
Proof.
  intros r.
  assert (Hrun : r = (Ok (Some (Wrap (fake.not_found "etcd-endpoints-override")
                                  "failed to get etcd override endoints configmap")), r.2))
    by (vm_compute; reflexivity).
  destruct (planner_error_leaves_nothing two_by_two ∅ (fake.world bare_store) r.2 _ Hrun)
    as (Hc & Hi & Hsub & _ & _).
  split; [by rewrite Hrun|]. split; [exact Hc|]. split; [exact Hi|].
  split; [exact Hsub|]. vm_compute. reflexivity.
Defined.

(** All four jobs of an earlier run are still there, stopped: every
    submission fails, no record is made, and the run returns nil. *)
Lemma planner_swallows_submission_errors_witness :
  let w := fake.world (a_store stale_jobs 0 None) in
  let r := chunkserver.startProvisioningOverNodes two_by_two ∅ w in
  r.1 = Ok None ∧
  submissions (logs r.2) =
    [("host1", "/dev/sdb", false); ("host1", "/dev/sdc", false);
     ("host2", "/dev/sdb", false); ("host2", "/dev/sdc", false)] ∧
  chunkserverConfigs r.2 = [].
Proof.
  intros w r.
  assert (Hsub : submissions (drop (length (logs w)) (logs r.2)) =
    [("host1", "/dev/sdb", false); ("host1", "/dev/sdc", false);
     ("host2", "/dev/sdb", false); ("host2", "/dev/sdc", false)])
    by (vm_compute; reflexivity).
  assert (Ho : ∃ e, r.1 = Ok e) by (eexists; vm_compute; reflexivity).
  destruct Ho as [e Ho].
  assert (Hrun : r = (Ok e, r.2)) by (rewrite <- Ho; apply surjective_pairing).
  assert (Hin : In ("host1", "/dev/sdb", false)
                  (submissions (drop (length (logs w)) (logs r.2))))
    by (rewrite Hsub; left; reflexivity).
  rewrite Ho, (planner_swallows_submission_errors two_by_two ∅ w r.2 e _ _ Hrun Hin).
  split; [reflexivity|]. split; [exact Hsub|]. vm_compute. reflexivity.
Defined.

(** The one listed node is unknown to the cluster: no valid node. *)
Lemma planner_without_valid_nodes_witness :
  let w := fake.world (a_store [] 0 None) in
  ∃ w' : World fake.Store,
    chunkserver.startProvisioningOverNodes unknown_node ∅ w = (Ok None, w') ∧
    calls w' = [Helper_call "GetNodeHostNames"; Helper_call "GetValidNodes"] ∧
    store w' = store w ∧
    chunkserverConfigs w' = [] ∧ job2DeviceInfos w' = [].
Proof.
  intros w.
  destruct (planner_without_valid_nodes unknown_node ∅ w (fake.hostnames (store w))
              None (store w) (store w))
    as (w' & Hrun & Hcalls & Hstore & Hc & Hi & _).
  - reflexivity.
  - reflexivity.
  - vm_compute. reflexivity.
  - exists w'. split; [exact Hrun|]. split; [exact Hcalls|]. split; [exact Hstore|].
    split; [exact Hc|exact Hi].
Defined.


(** Two nodes, two devices: the four TaskRecords all read /dev/sdc, while
    the records beside them are those of /dev/sdb and /dev/sdc in turn. *)
Lemma TaskRecords_read_the_last_device_witness :
  let r := chunkserver.startProvisioningOverNodes two_by_two ∅
             (fake.world (a_store [] 0 None)) in
  r.1 = Ok None ∧
  Forall (λ info, vars r.2 !! device info = Some sdc) (job2DeviceInfos r.2) ∧
  length (job2DeviceInfos r.2) = 4%nat ∧
  map DeviceName (chunkserverConfigs r.2) = ["/dev/sdb"; "/dev/sdc"; "/dev/sdb"; "/dev/sdc"].
Proof.
  intros r.
  assert (Ho : r.1 = Ok None) by (vm_compute; reflexivity).
  assert (Hrun : r = (Ok None, r.2)) by (rewrite <- Ho; apply surjective_pairing).
  split; [exact Ho|]. split.
  - exact (TaskRecords_read_the_last_device two_by_two ∅
             (fake.world (a_store [] 0 None)) r.2 None eq_refl Hrun).
  - split; vm_compute; reflexivity.
Defined.

(** The job of host1 and /dev/sdb is found running: it is handed back. *)
Lemma runPrepareJob_reuses_active_job_witness :
  let w := fake.world (a_store [running_job] 1 None) in
  ∃ (job : Job) (w' : World fake.Store),
    chunkserver.makeJob two_by_two "host1" sdb = inl job ∧
    Jobs_Get (Job_Namespace job) (Job_Name job) (store w) = (inl running_job, store w) ∧
    0 < Active (Job_Status running_job) ∧
    chunkserver.runPrepareJob two_by_two "host1" sdb w = (Ok (running_job, None), w') ∧
    calls w' = calls w ++ [Jobs_Get_call (Job_Namespace job) (Job_Name job)] ∧
    store w' = store w.
Proof.
  intros w.
  destruct (chunkserver.makeJob two_by_two "host1" sdb) as [job|err] eqn:Hmake;
    [|vm_compute in Hmake; discriminate].
  assert (Hjob : job = match chunkserver.makeJob two_by_two "host1" sdb with
                       | inl j => j | inr _ => fake.placeholder_job end)
    by (by rewrite Hmake).
  assert (Hget : Jobs_Get (Job_Namespace job) (Job_Name job) (store w)
                 = (inl running_job, store w))
    by (rewrite Hjob; vm_compute; reflexivity).
  assert (Hactive : 0 < Active (Job_Status running_job)) by (vm_compute; reflexivity).
  destruct (runPrepareJob_reuses_active_job two_by_two "host1" sdb job running_job w
              (store w) Hmake Hget Hactive)
    as (w' & Hrun & Hcalls & Hstore & _).
  exists job, w'. split; [reflexivity|]. split; [exact Hget|]. split; [exact Hactive|].
  split; [exact Hrun|]. split; [exact Hcalls|exact Hstore].
Defined.

(** An owner in another namespace: makeJob fails, runPrepareJob panics. *)
Lemma runPrepareJob_panics_iff_makeJob_fails_witness :
  let w := fake.world (a_store [] 1 None) in
  chunkserver.makeJob (Collaborators0 := strict_owner) foreign_owner "host1" sdb
    = inr (Wrap (New "cross-namespaced owner references are disallowed")
             ("failed to set owner reference to job "
              +:+ Go.Quote "prepare-chunkfile-host1-sdb")) ∧
  chunkserver.runPrepareJob (Collaborators0 := strict_owner) foreign_owner "host1" sdb w
    = (Panic "invalid memory address or nil pointer dereference", w) ∧
  ∃ w', chunkserver.runPrepareJob (Collaborators0 := strict_owner) one_by_one "host1" sdb w
        = (Ok (match chunkserver.makeJob (Collaborators0 := strict_owner)
                       one_by_one "host1" sdb with
               | inl j => j | inr _ => fake.placeholder_job end, None), w').
Proof.
  intros w.
  assert (Hmake : chunkserver.makeJob (Collaborators0 := strict_owner)
                    foreign_owner "host1" sdb
    = inr (Wrap (New "cross-namespaced owner references are disallowed")
             ("failed to set owner reference to job "
              +:+ Go.Quote "prepare-chunkfile-host1-sdb")))
    by (vm_compute; reflexivity).
  split; [exact Hmake|]. split.
  - pose proof (@runPrepareJob_panics_iff_makeJob_fails fake.Store fake.clientset
                  strict_owner foreign_owner "host1" sdb w) as Hpanic.
    rewrite Hmake in Hpanic. exact Hpanic.
  - eexists. vm_compute. reflexivity.
Defined.

(** Pre-selected mode with a barrier that reports false: no job was
    submitted, the condition was set, and Start ends with the 24 hours
    error. *)
Lemma Start_stops_at_the_barrier_witness :
  let w := fake.world (a_store [] 1 None) in
  ∃ w2 : World fake.Store,
    chunkserver.Start (Collaborators0 := failing_barrier) preselected ∅ w
      = (Ok (Some (New "Format job is not completed in 24 hours and exit with -1")), w2) ∧
    calls w2 = [Helper_call "UpdateCondition"] ∧
    job2DeviceInfos w2 = [] ∧ chunkserverConfigs w2 = [].
Proof.
  intros w. eexists. split.
  - eapply (@Start_stops_at_the_barrier fake.Store fake.clientset failing_barrier
              preselected ∅ w _ _ (Ok false)).
    + simpl. discriminate.
    + reflexivity.
    + reflexivity.
    + discriminate.
  - repeat split; reflexivity.
Defined.

(** A bare name, a relative path and an absolute path. *)
Lemma getPodLabels_device_label_witness :
  chunkserver.getPodLabels two_by_two "host1" "sdb" !! "device" = Some "host1" ∧
  chunkserver.getPodLabels two_by_two "host1" "dev/sdb" !! "device" = Some "sdb" ∧
  chunkserver.getPodLabels two_by_two "host1" "/dev/sdb" !! "device" = Some "dev".
Proof.
  destruct (getPodLabels_device_label two_by_two "host1") as (_ & Hbare & Hpath).
  split; [|split].
  - apply Hbare. repeat constructor; discriminate.
  - apply (Hpath "dev" "sdb" ""); repeat constructor; discriminate.
  - apply (Hpath "" "dev" "sdb"); repeat constructor; discriminate.
Defined.

(** /dev/sdb and /mnt/sdb on host1 are given the same job. *)
Lemma makeJob_names_the_job_witness :
  ∃ job job' : Job,
    chunkserver.makeJob two_by_two "host1" sdb = inl job ∧
    chunkserver.makeJob two_by_two "host1"
      {| curvev1.Name := "/mnt/sdb"; curvev1.Percentage := 50 |} = inl job' ∧
    Job_Name job = "prepare-chunkfile-host1-sdb" ∧
    Job_Name job' = Job_Name job ∧ Job_Namespace job' = Job_Namespace job.
Proof.
  destruct (chunkserver.makeJob two_by_two "host1" sdb) as [job|err] eqn:Hmake;
    [|vm_compute in Hmake; discriminate].
  destruct (chunkserver.makeJob two_by_two "host1"
              {| curvev1.Name := "/mnt/sdb"; curvev1.Percentage := 50 |})
    as [job'|err] eqn:Hmake'; [|vm_compute in Hmake'; discriminate].
  destruct (makeJob_names_the_job two_by_two "host1" sdb job Hmake)
    as (Hname & _ & _ & _ & Hsame).
  exists job, job'. split; [reflexivity|]. split; [reflexivity|].
  split; [rewrite Hname; vm_compute; reflexivity|].
  apply (Hsame _ job' Hmake'). vm_compute. reflexivity.
Defined.

